(** * serie: the data-access core of the Serie service

    A shallow embedding of
      - src/serie/service/query-builder.ts      (QueryBuilder)
      - src/serie/service/serie-read.service.ts (SerieReadService)
      - src/serie/service/serie-write.service.ts (SerieWriteService)
      - src/serie/entity/*.entity.ts            (Serie, Titel, Cover)
      - src/serie/controller/serie-get.controller.ts (getById, get)
      - src/serie/resolver/serie-mutation.resolver.ts (the version token)
    together with the part of the JavaScript runtime, of TypeORM and of the
    relational store that these classes call into. *)

From Stdlib Require Import String Ascii List ZArith QArith Bool Lia Sorted.
Import ListNotations.

Local Open Scope string_scope.
Local Open Scope Z_scope.

(* ================================================================== *)
(** * JavaScript values *)
(* ================================================================== *)

Module Js.

(** A JavaScript number.  A finite number is kept as the exact value of the
    literal it was read from: rounding to a 64-bit float is outside this
    embedding. *)
Inductive JsNumber : Type :=
| NaN
| Infinity (negative : bool)
| Fin (q : Q).

(** The values a filter object or a where-object can hold. *)
Inductive JsValue : Type :=
| JsUndefined
| JsNull
| JsBool (b : bool)
| JsNum (n : JsNumber)
| JsStr (s : string).

(** [typeof v === 'string'] *)
Definition is_string (v : JsValue) : bool :=
  match v with JsStr _ => true | _ => false end.

(** [v !== undefined] *)
Definition is_defined (v : JsValue) : bool :=
  match v with JsUndefined => false | _ => true end.

Definition code (c : ascii) : Z := Z.of_N (N_of_ascii c).

(** The character U+0022, which delimits a version token. *)
Definition dquote : ascii := ascii_of_N 34.

Definition is_dquote (c : ascii) : bool := code c =? 34.

(** The class [\d] of a regular expression with the [u] flag: 0 to 9. *)
Definition is_digit (c : ascii) : bool := (48 <=? code c) && (code c <=? 57).

(** White space that [parseInt] and [Number] skip (the part of it that fits
    in one byte): TAB, LF, VT, FF, CR and SPACE. *)
Definition is_space (c : ascii) : bool :=
  ((9 <=? code c) && (code c <=? 13)) || (code c =? 32).

(** Value of [c] as a digit of the given radix, if it is one. *)
Definition digit_of (radix : Z) (c : ascii) : option Z :=
  let n := code c in
  let d :=
    if (48 <=? n) && (n <=? 57) then n - 48
    else if (97 <=? n) && (n <=? 122) then n - 87
    else if (65 <=? n) && (n <=? 90) then n - 55
    else 36 in
  if d <? radix then Some d else None.

Fixpoint skip_spaces (s : string) : string :=
  match s with
  | String c r => if is_space c then skip_spaces r else s
  | EmptyString => s
  end.

(** Longest prefix of digits of [s]: its value on top of [acc], the number
    of digits read and the rest of the string. *)
Fixpoint read_digits (radix : Z) (s : string) (acc : Z) (n : nat)
  : Z * nat * string :=
  match s with
  | String c r =>
      match digit_of radix c with
      | Some d => read_digits radix r (acc * radix + d) (S n)
      | None => (acc, n, s)
      end
  | EmptyString => (acc, n, s)
  end.

(** A leading sign: [true] when negative, and the rest. *)
Definition read_sign (s : string) : bool * string :=
  match s with
  | String c r =>
      if code c =? 45 then (true, r)
      else if code c =? 43 then (false, r)
      else (false, s)
  | EmptyString => (false, s)
  end.

Definition is_x (c : ascii) : bool := (code c =? 120) || (code c =? 88).

(** [parseInt(s, radix)]; [radix = None] is the call with one argument. *)
Definition parseInt (s : string) (radix : option Z) : JsNumber :=
  let '(neg, s1) := read_sign (skip_spaces s) in
  let r0 := match radix with Some r => r | None => 0 end in
  if negb (r0 =? 0) && ((r0 <? 2) || (36 <? r0)) then NaN
  else
    let strip := (r0 =? 0) || (r0 =? 16) in
    let '(r, s2) :=
      match s1 with
      | String z (String x rest) =>
          if strip && (code z =? 48) && is_x x then (16, rest)
          else ((if r0 =? 0 then 10 else r0), s1)
      | _ => ((if r0 =? 0 then 10 else r0), s1)
      end in
    let '(v, n, _) := read_digits r s2 0 0%nat in
    match n with
    | O => NaN
    | S _ => Fin (inject_Z (if neg then - v else v))
    end.

Fixpoint rev_string (s acc : string) : string :=
  match s with
  | String c r => rev_string r (String c acc)
  | EmptyString => acc
  end.

(** Both ends trimmed, as [Number] does before it reads a literal. *)
Definition trim (s : string) : string :=
  rev_string (skip_spaces (rev_string (skip_spaces s) "")) "".

(** An optional exponent part [e±d+]; [None] when [s] is not one. *)
Definition read_exponent (s : string) : option Z :=
  match s with
  | EmptyString => Some 0
  | String e r =>
      if (code e =? 101) || (code e =? 69) then
        let '(neg, r1) := read_sign r in
        let '(v, n, rest) := read_digits 10 r1 0 0%nat in
        match n, rest with
        | S _, EmptyString => Some (if neg then - v else v)
        | _, _ => None
        end
      else None
  end.

(** An unsigned decimal literal: [d+], [d+.d*], [.d+], each with an optional
    exponent. *)
Definition read_decimal (s : string) : option Q :=
  let '(ip, ni, r1) := read_digits 10 s 0 0%nat in
  let '(fp, nf, r2) :=
    match r1 with
    | String dot r => if code dot =? 46 then read_digits 10 r ip 0%nat
                      else (ip, 0%nat, r1)
    | EmptyString => (ip, 0%nat, r1)
    end in
  match ni, nf with
  | O, O => None
  | _, _ =>
      match read_exponent r2 with
      | Some e => Some (inject_Z fp * Qpower (10 # 1) (e - Z.of_nat nf))%Q
      | None => None
      end
  end.

(** A literal with a radix prefix: all of [s] must be digits of [radix]. *)
Definition read_radix (radix : Z) (s : string) : JsNumber :=
  match read_digits radix s 0 0%nat with
  | (v, S _, EmptyString) => Fin (inject_Z v)
  | _ => NaN
  end.

(** [Number(s)] for a string: the empty string is 0, a numeric literal is
    its value, anything else is NaN. *)
Definition Number (s : string) : JsNumber :=
  let t := trim s in
  match t with
  | EmptyString => Fin 0
  | String z (String p rest) =>
      if (code z =? 48) && is_x p then read_radix 16 rest
      else if (code z =? 48) && ((code p =? 111) || (code p =? 79))
      then read_radix 8 rest
      else if (code z =? 48) && ((code p =? 98) || (code p =? 66))
      then read_radix 2 rest
      else
        let '(neg, u) := read_sign t in
        if String.eqb u "Infinity" then Infinity neg
        else match read_decimal u with
             | Some q => Fin (if neg then - q else q)%Q
             | None => NaN
             end
  | _ =>
      match read_decimal t with
      | Some q => Fin q
      | None => NaN
      end
  end.

(** [isNaN(v)]: the argument is first converted to a number. *)
Definition ToNumber (v : JsValue) : JsNumber :=
  match v with
  | JsUndefined => NaN
  | JsNull => Fin 0
  | JsBool b => Fin (if b then 1 else 0)
  | JsNum n => n
  | JsStr s => Number s
  end.

Definition isNaN (v : JsValue) : bool :=
  match ToNumber v with NaN => true | _ => false end.

(** [s.slice(from, to)]: a negative index counts from the end. *)
Definition slice (s : string) (from to : Z) : string :=
  let len := Z.of_nat (String.length s) in
  let norm i := if i <? 0 then Z.max (len + i) 0 else Z.min i len in
  let a := norm from in
  let b := norm to in
  substring (Z.to_nat a) (Z.to_nat (b - a)) s.

(** [haystack.includes(needle)] *)
Fixpoint contains (needle haystack : string) : bool :=
  prefix needle haystack ||
  match haystack with
  | String _ r => contains needle r
  | EmptyString => false
  end.

Definition to_lower (c : ascii) : ascii :=
  if (65 <=? code c) && (code c <=? 90)
  then ascii_of_N (N_of_ascii c + 32) else c.

Fixpoint lower (s : string) : string :=
  match s with
  | String c r => String (to_lower c) (lower r)
  | EmptyString => EmptyString
  end.

(** [xs.join(',')] *)
Fixpoint join (sep : string) (xs : list string) : string :=
  match xs with
  | [] => ""
  | [x] => x
  | x :: rest => x ++ sep ++ join sep rest
  end.

End Js.

Import Js.

(* ================================================================== *)
(** * The entity classes (src/serie/entity) *)
(* ================================================================== *)

(** A property typed [T | null | undefined]. *)
Inductive Nullable (A : Type) : Type :=
| Undefined
| Null
| Value (a : A).
Arguments Undefined {A}.
Arguments Null {A}.
Arguments Value {A} a.

(** titel.entity.ts; the back reference [serie] is left out. *)
Module Titel.
Record t : Type := mk {
  id : option Z;
  titel : option string;
  untertitel : option string
}.
End Titel.

(** cover.entity.ts; the back reference [serie] is left out. *)
Module Cover.
Record t : Type := mk {
  id : option Z;
  beschriftung : option string;
  contentType : option string
}.
End Cover.

(** Modelled from the spec: serieFile.entity.ts is missing.  The spec's
    BinaryFile has a filename and a mime type and is owned by one Series;
    the bytes are left out. *)
Module SerieFile.
Record t : Type := mk {
  id : option Z;
  filename : option string;
  mimetype : option string
}.
End SerieFile.

(** serie.entity.ts.  [option] is [T | undefined]; [preis] is a decimal(8,2)
    kept in hundredths and [rabatt] a decimal(4,3) kept in thousandths. *)
Module Serie.
Record t : Type := mk {
  id : option Z;
  version : option Z;
  seriennummer : option string;
  rating : option Z;
  art : option string;
  preis : option Z;
  rabatt : option Z;
  trailer : option bool;
  datum : option string;
  homepage : option string;
  schlagwoerter : Nullable (list string);
  titel : option Titel.t;
  covers : option (list Cover.t);
  file : option SerieFile.t;
  erzeugt : option Z;
  aktualisiert : option Z
}.

(** [Object.getOwnPropertyNames(new Serie())]: the fields of the class in
    the order they are declared, [toString] being a field too. *)
Definition ownPropertyNames : list string :=
  [ "id"; "version"; "seriennummer"; "rating"; "art"; "preis"; "rabatt";
    "trailer"; "datum"; "homepage"; "schlagwoerter"; "titel"; "covers";
    "file"; "erzeugt"; "aktualisiert"; "toString" ].

(** What reading a property of a Serie object gives. *)
Inductive Property : Type :=
| PValue (v : JsValue)
| PStrings (l : list string)
| PTitel (x : Titel.t)
| PCovers (l : list Cover.t)
| PFile (f : SerieFile.t)
| PFunction.

Definition of_option {A} (f : A -> Property) (o : option A) : Property :=
  match o with Some a => f a | None => PValue JsUndefined end.

Definition dec2 (n : Z) : JsValue := JsNum (Fin (n # 100)).
Definition dec3 (n : Z) : JsValue := JsNum (Fin (n # 1000)).
Definition int (n : Z) : JsValue := JsNum (Fin (inject_Z n)).

(** [serie[name]]: a name the class does not declare reads as
    [undefined]. *)
Definition get (s : t) (name : string) : Property :=
  if (name =? "id")%string then of_option (fun n => PValue (int n)) (id s)
  else if (name =? "version")%string then
    of_option (fun n => PValue (int n)) (version s)
  else if (name =? "seriennummer")%string then
    of_option (fun x => PValue (JsStr x)) (seriennummer s)
  else if (name =? "rating")%string then
    of_option (fun n => PValue (int n)) (rating s)
  else if (name =? "art")%string then
    of_option (fun x => PValue (JsStr x)) (art s)
  else if (name =? "preis")%string then
    of_option (fun n => PValue (dec2 n)) (preis s)
  else if (name =? "rabatt")%string then
    of_option (fun n => PValue (dec3 n)) (rabatt s)
  else if (name =? "trailer")%string then
    of_option (fun b => PValue (JsBool b)) (trailer s)
  else if (name =? "datum")%string then
    of_option (fun x => PValue (JsStr x)) (datum s)
  else if (name =? "homepage")%string then
    of_option (fun x => PValue (JsStr x)) (homepage s)
  else if (name =? "schlagwoerter")%string then
    match schlagwoerter s with
    | Undefined => PValue JsUndefined
    | Null => PValue JsNull
    | Value l => PStrings l
    end
  else if (name =? "titel")%string then of_option PTitel (titel s)
  else if (name =? "covers")%string then of_option PCovers (covers s)
  else if (name =? "file")%string then of_option PFile (file s)
  else if (name =? "erzeugt")%string then
    of_option (fun n => PValue (int n)) (erzeugt s)
  else if (name =? "aktualisiert")%string then
    of_option (fun n => PValue (int n)) (aktualisiert s)
  else if (name =? "toString")%string then PFunction
  else PValue JsUndefined.

(** A property read where a string or a number is expected. *)
Definition get_value (s : t) (name : string) : JsValue :=
  match get s name with PValue v => v | _ => JsUndefined end.

(** [serie.schlagwoerter = l] *)
Definition set_schlagwoerter (s : t) (l : Nullable (list string)) : t :=
  mk (id s) (version s) (seriennummer s) (rating s) (art s) (preis s)
     (rabatt s) (trailer s) (datum s) (homepage s) l (titel s) (covers s)
     (file s) (erzeugt s) (aktualisiert s).

End Serie.

(* ================================================================== *)
(** * The relational store *)
(* ================================================================== *)

Module Sql.

(** A column value. *)
Inductive SqlValue : Type :=
| VNull
| VInt (n : Z)
| VDec (q : Q)
| VText (s : string)
| VBool (b : bool).

(** [subject LIKE pattern] as PostgreSQL evaluates it: [%] is any run of
    characters, [_] is any one character, and the backslash is the escape
    character, the character after it stands for itself.  A pattern that
    ends in a single backslash is refused by PostgreSQL; it matches nothing
    here, and no pattern of the query builder is one (each ends in a percent
    sign). *)
Fixpoint like (pattern : string) : string -> bool :=
  match pattern with
  | EmptyString =>
      fun s => match s with EmptyString => true | String _ _ => false end
  | String p rest =>
      if code p =? 92 then
        match rest with
        | String c rest' =>
            fun s =>
              match s with
              | String x r => Ascii.eqb x c && like rest' r
              | EmptyString => false
              end
        | EmptyString => fun _ => false
        end
      else if code p =? 37 then
        fix any (s : string) : bool :=
          like rest s ||
          match s with String _ r => any r | EmptyString => false end
      else if code p =? 95 then
        fun s =>
          match s with String _ r => like rest r | EmptyString => false end
      else
        fun s =>
          match s with
          | String c r => Ascii.eqb c p && like rest r
          | EmptyString => false
          end
  end.

(** [subject ILIKE pattern] *)
Definition ilike (pattern subject : string) : bool :=
  like (lower pattern) (lower subject).

(** The scan of [REPLACE(s, from, to)]: [skip] characters of an occurrence
    found earlier are still to be dropped. *)
Fixpoint replace_scan (skip : nat) (from to s : string) : string :=
  match s with
  | EmptyString => EmptyString
  | String c r =>
      match skip with
      | S k => replace_scan k from to r
      | O =>
          if prefix from s
          then to ++ replace_scan (String.length from - 1) from to r
          else String c (replace_scan 0 from to r)
      end
  end.

(** [REPLACE(s, from, to)]: every occurrence of [from], found from left to
    right, becomes [to]. *)
Definition replace (s from to : string) : string :=
  match from with
  | EmptyString => s
  | String _ _ => replace_scan 0 from to s
  end.

(** Rows of the tables serie, titel, cover and serie_file. *)
Record SerieRow : Type := mkSerieRow {
  r_id : Z;
  r_version : Z;
  r_seriennummer : string;
  r_rating : Z;
  r_art : option string;
  r_preis : Z;
  r_rabatt : Z;
  r_trailer : bool;
  r_datum : option string;
  r_homepage : option string;
  r_schlagwoerter : option string;
  r_erzeugt : Z;
  r_aktualisiert : Z
}.

Record TitelRow : Type := mkTitelRow {
  t_id : Z;
  t_titel : string;
  t_untertitel : option string;
  t_serie_id : Z
}.

Record CoverRow : Type := mkCoverRow {
  c_id : Z;
  c_beschriftung : string;
  c_contentType : string;
  c_serie_id : Z
}.

Record FileRow : Type := mkFileRow {
  f_id : Z;
  f_filename : string;
  f_mimetype : option string;
  f_serie_id : Z
}.

Record Db : Type := mkDb {
  serie_table : list SerieRow;
  titel_table : list TitelRow;
  cover_table : list CoverRow;
  file_table : list FileRow;
  next_id : Z;
  clock : Z
}.

Definition text_or_null (o : option string) : SqlValue :=
  match o with Some s => VText s | None => VNull end.

(** The columns TypeORM maps the properties of [Serie] to, by property
    name; the relations and [toString] are no columns. *)
Definition serie_columns : list (string * (SerieRow -> SqlValue)) :=
  [ ("id", fun r => VInt (r_id r));
    ("version", fun r => VInt (r_version r));
    ("seriennummer", fun r => VText (r_seriennummer r));
    ("rating", fun r => VInt (r_rating r));
    ("art", fun r => text_or_null (r_art r));
    ("preis", fun r => VDec (r_preis r # 100));
    ("rabatt", fun r => VDec (r_rabatt r # 1000));
    ("trailer", fun r => VBool (r_trailer r));
    ("datum", fun r => text_or_null (r_datum r));
    ("homepage", fun r => text_or_null (r_homepage r));
    ("schlagwoerter", fun r => text_or_null (r_schlagwoerter r));
    ("erzeugt", fun r => VInt (r_erzeugt r));
    ("aktualisiert", fun r => VInt (r_aktualisiert r)) ].

Definition titel_columns : list (string * (TitelRow -> SqlValue)) :=
  [ ("id", fun r => VInt (t_id r));
    ("titel", fun r => VText (t_titel r));
    ("untertitel", fun r => text_or_null (t_untertitel r)) ].

Fixpoint assoc {A} (k : string) (l : list (string * A)) : option A :=
  match l with
  | [] => None
  | (k', a) :: rest => if String.eqb k k' then Some a else assoc k rest
  end.

End Sql.

Import Sql.

(* ================================================================== *)
(** * TypeORM: the select query builder *)
(* ================================================================== *)

Module TypeOrm.

(** The left-hand side of a condition. *)
Inductive SqlExpr : Type :=
| EColumn (alias name : string)
| EReplace (e : SqlExpr) (from to : string).

(** The right-hand side of a condition: a named parameter bound by the
    driver, a quoted literal of the statement, or a JavaScript value that a
    template literal wrote into the text of the statement. *)
Inductive Operand : Type :=
| OParam (v : JsValue)
| OQuoted (s : string)
| OSpliced (v : JsValue).

Inductive Comparison : Type := Ge | Le | Equal.

Inductive Clause : Type :=
| CLike (insensitive : bool) (e : SqlExpr) (pattern : Operand)
| CCompare (e : SqlExpr) (op : Comparison) (rhs : Operand).

(** The state of a [SelectQueryBuilder<Serie>]. *)
Record SelectQueryBuilder : Type := mkQuery {
  alias : string;
  innerJoinTitel : bool;
  leftJoinCovers : bool;
  wheres : list Clause;
  take_ : option Z;
  skip_ : option Z
}.

(** [repo.createQueryBuilder(alias)] *)
Definition createQueryBuilder (a : string) : SelectQueryBuilder :=
  mkQuery a false false [] None None.

Definition innerJoinAndSelect_titel (q : SelectQueryBuilder) :=
  mkQuery (alias q) true (leftJoinCovers q) (wheres q) (take_ q) (skip_ q).

Definition leftJoinAndSelect_covers (q : SelectQueryBuilder) :=
  mkQuery (alias q) (innerJoinTitel q) true (wheres q) (take_ q) (skip_ q).

(** [where]: sets the WHERE condition; a condition set before is
    overridden. *)
Definition where_ (q : SelectQueryBuilder) (c : Clause) :=
  mkQuery (alias q) (innerJoinTitel q) (leftJoinCovers q) [c]
          (take_ q) (skip_ q).

(** [andWhere]: adds a condition, joined to the present ones by AND. *)
Definition andWhere (q : SelectQueryBuilder) (c : Clause) :=
  mkQuery (alias q) (innerJoinTitel q) (leftJoinCovers q) (wheres q ++ [c])
          (take_ q) (skip_ q).

Definition take (q : SelectQueryBuilder) (n : Z) :=
  mkQuery (alias q) (innerJoinTitel q) (leftJoinCovers q) (wheres q)
          (Some n) (skip_ q).

Definition skip (q : SelectQueryBuilder) (n : Z) :=
  mkQuery (alias q) (innerJoinTitel q) (leftJoinCovers q) (wheres q)
          (take_ q) (Some n).

(** ** Evaluation of a condition on a row of serie joined to titel *)

(** The value a bound parameter has for the store. *)
Definition param_value (v : JsValue) : SqlValue :=
  match v with
  | JsStr s => VText s
  | JsNum (Fin q) => VDec q
  | JsBool b => VBool b
  | _ => VNull
  end.

(** The value of an operand.  A spliced value is part of the text of the
    statement: the text of a finite number is a numeric literal and [null]
    is NULL, but the texts NaN, Infinity, true, false and undefined are no
    literals a numeric column can be compared to, they would name columns,
    and no table has such a column. *)
Definition operand_value (o : Operand) : option SqlValue :=
  match o with
  | OParam v => Some (param_value v)
  | OQuoted s => Some (VText s)
  | OSpliced (JsNum (Fin q)) => Some (VDec q)
  | OSpliced JsNull => Some VNull
  | OSpliced _ => None
  end.

Fixpoint expr_ok (e : SqlExpr) : bool :=
  match e with
  | EColumn a n =>
      if String.eqb a "serie" then
        match assoc n serie_columns with Some _ => true | None => false end
      else if String.eqb a "titel" then
        match assoc n titel_columns with Some _ => true | None => false end
      else false
  | EReplace e' _ _ => expr_ok e'
  end.

(** Whether the store accepts the condition at all. *)
Definition clause_ok (c : Clause) : bool :=
  match c with
  | CLike _ e p | CCompare e _ p =>
      expr_ok e && match operand_value p with Some _ => true | None => false end
  end.

Fixpoint eval_expr (s : SerieRow) (t : TitelRow) (e : SqlExpr) : SqlValue :=
  match e with
  | EColumn a n =>
      if String.eqb a "serie" then
        match assoc n serie_columns with Some f => f s | None => VNull end
      else
        match assoc n titel_columns with Some f => f t | None => VNull end
  | EReplace e' from to =>
      match eval_expr s t e' with
      | VText x => VText (replace x from to)
      | _ => VNull
      end
  end.

Definition as_number (v : SqlValue) : option Q :=
  match v with
  | VInt n => Some (inject_Z n)
  | VDec q => Some q
  | VText s => match Number s with Fin q => Some q | _ => None end
  | _ => None
  end.

Definition as_bool (v : SqlValue) : option bool :=
  match v with
  | VBool b => Some b
  | VText s => if String.eqb s "true" then Some true
               else if String.eqb s "false" then Some false else None
  | _ => None
  end.

(** A comparison; one with NULL is unknown and selects nothing. *)
Definition sql_compare (op : Comparison) (a b : SqlValue) : bool :=
  match a, b with
  | VNull, _ | _, VNull => false
  | VText x, VText y =>
      match op with
      | Equal => String.eqb x y
      | Ge => String.leb y x
      | Le => String.leb x y
      end
  | VBool x, _ =>
      match op, as_bool b with
      | Equal, Some y => Bool.eqb x y
      | _, _ => false
      end
  | _, _ =>
      match as_number a, as_number b with
      | Some x, Some y =>
          match op with
          | Equal => Qeq_bool x y
          | Ge => Qle_bool y x
          | Le => Qle_bool x y
          end
      | _, _ => false
      end
  end.

Definition eval_clause (s : SerieRow) (t : TitelRow) (c : Clause) : bool :=
  match c with
  | CLike ci e p =>
      match eval_expr s t e, operand_value p with
      | VText x, Some (VText pat) => if ci then ilike pat x else like pat x
      | _, _ => false
      end
  | CCompare e op p =>
      match operand_value p with
      | Some v => sql_compare op (eval_expr s t e) v
      | None => false
      end
  end.

(** The rows of serie, each with its row of titel (inner join: a serie
    without titel is not selected). *)
Fixpoint joined (series : list SerieRow) (titels : list TitelRow)
  : list (SerieRow * TitelRow) :=
  match series with
  | [] => []
  | s :: rest =>
      match find (fun t => t_serie_id t =? r_id s) titels with
      | Some t => (s, t) :: joined rest titels
      | None => joined rest titels
      end
  end.

(** The rows the conditions select from serie joined to titel (every query
    of the query builder joins titel), before [take] and [skip]; [None] when
    the store rejects the statement. *)
Definition selected (d : Db) (q : SelectQueryBuilder)
  : option (list (SerieRow * TitelRow)) :=
  if forallb clause_ok (wheres q) then
    Some (filter (fun st => forallb (eval_clause (fst st) (snd st)) (wheres q))
                 (joined (serie_table d) (titel_table d)))
  else None.

(** [take] and [skip] count when they are set and not 0: TypeORM tests
    them for truth. *)
Definition counts (n : option Z) : option Z :=
  match n with
  | Some 0 => None
  | _ => n
  end.

(** [i] put into a list of ids that is in increasing order. *)
Fixpoint insert_id (i : Z) (ids : list Z) : list Z :=
  match ids with
  | [] => [i]
  | j :: rest =>
      if i <? j then i :: ids
      else if i =? j then ids
      else j :: insert_id i rest
  end.

(** SELECT DISTINCT id ... ORDER BY id *)
Definition distinct_ids (rows : list (SerieRow * TitelRow)) : list Z :=
  fold_right insert_id [] (map (fun st => r_id (fst st)) rows).

(** The ids of the page: the query that has a join is paged over the
    distinct ids of what the conditions select, in the order of the ids,
    with OFFSET [skip] and LIMIT [take]. *)
Definition page_ids (q : SelectQueryBuilder)
           (rows : list (SerieRow * TitelRow)) : list Z :=
  let ids := distinct_ids rows in
  let ids := match counts (skip_ q) with
             | Some n => skipn (Z.to_nat n) ids
             | None => ids
             end in
  match counts (take_ q) with
  | Some n => firstn (Z.to_nat n) ids
  | None => ids
  end.

(** The rows [getMany] reads: all that the conditions select when neither
    [take] nor [skip] counts, else those whose id is one of the page, read
    by a second SELECT that has no ORDER BY. *)
Definition paged (q : SelectQueryBuilder)
           (rows : list (SerieRow * TitelRow)) : list (SerieRow * TitelRow) :=
  match counts (take_ q), counts (skip_ q) with
  | None, None => rows
  | _, _ =>
      filter (fun st => existsb (Z.eqb (r_id (fst st))) (page_ids q rows))
             rows
  end.

(** The store refuses a negative LIMIT or OFFSET. *)
Definition paging_ok (q : SelectQueryBuilder) : bool :=
  match take_ q with Some n => 0 <=? n | None => true end &&
  match skip_ q with Some n => 0 <=? n | None => true end.

(** ** Rows to entity objects *)

Fixpoint split_scan (sep : ascii) (s cur : string) : list string :=
  match s with
  | EmptyString => [rev_string cur ""]
  | String c r =>
      if Ascii.eqb c sep then rev_string cur "" :: split_scan sep r ""
      else split_scan sep r (String c cur)
  end.

(** [s.split(',')] *)
Definition split (sep : ascii) (s : string) : list string :=
  split_scan sep s "".

(** The column type simple-array when read: NULL stays null, the empty text
    is the empty array, any other text is split at the commas. *)
Definition stringToSimpleArray (v : option string) : Nullable (list string) :=
  match v with
  | None => Null
  | Some EmptyString => Value []
  | Some s => Value (split "," s)
  end.

Definition simpleArrayToString (l : list string) : string := join "," l.

Definition titel_of_row (t : TitelRow) : Titel.t :=
  Titel.mk (Some (t_id t)) (Some (t_titel t)) (t_untertitel t).

Definition cover_of_row (c : CoverRow) : Cover.t :=
  Cover.mk (Some (c_id c)) (Some (c_beschriftung c)) (Some (c_contentType c)).

Definition serie_of_row (d : Db) (q : SelectQueryBuilder)
           (st : SerieRow * TitelRow) : Serie.t :=
  let s := fst st in
  Serie.mk (Some (r_id s)) (Some (r_version s)) (Some (r_seriennummer s))
           (Some (r_rating s)) (r_art s) (Some (r_preis s))
           (Some (r_rabatt s)) (Some (r_trailer s)) (r_datum s)
           (r_homepage s) (stringToSimpleArray (r_schlagwoerter s))
           (if innerJoinTitel q then Some (titel_of_row (snd st)) else None)
           (if leftJoinCovers q
            then Some (map cover_of_row
                           (filter (fun c => c_serie_id c =? r_id s)
                                   (cover_table d)))
            else None)
           None (Some (r_erzeugt s)) (Some (r_aktualisiert s)).

End TypeOrm.

Import TypeOrm.

(* ================================================================== *)
(** * Effects: the store, the statements sent to it, exceptions *)
(* ================================================================== *)

(** Modelled from the spec: suchkriterien.ts is missing.  The spec's
    Criteria Model is a mapping from filter name to value; it is kept as the
    list of the entries of the object in insertion order, as [Object.keys]
    and [Object.entries] see them. *)
Definition Suchkriterien : Type := list (string * JsValue).

(** Modelled from the spec: pageable.ts is missing.  The spec's pagination
    is a page number and a page size, the size 0 meaning unpaginated; either
    may be unset. *)
Record Pageable : Type := mkPageable {
  number : option Z;
  size : option Z
}.

(** What the query builder reads from modules that are missing, taken as a
    parameter: whether typeOrmModuleOptions.type is 'postgres', and the
    defaults of pageable.ts. *)
Record Config : Type := mkConfig {
  postgres : bool;
  DEFAULT_PAGE_SIZE : Z;
  DEFAULT_PAGE_NUMBER : Z
}.

(** The entity classes a manager is asked to delete from.  [Abbildung] is
    imported by the write service, but abbildung.entity.ts is missing and
    the class is not among the entities of entities.ts. *)
Inductive Target : Type := TSerie | TTitel | TCover | TAbbildung.

Inductive Statement : Type :=
| Select (q : SelectQueryBuilder)
| SelectCount (q : SelectQueryBuilder)
| SelectExists (where_object : list (string * JsValue))
| DeleteFrom (target : Target) (id : Z)
| InsertSerie (id : Z)
| UpdateSerie (id : Z)
| StartTransaction
| Commit
| Rollback
| SendMail (id : option Z) (titel : string).

(** The messages of the NotFoundException thrown by the services. *)
Inductive NotFoundMessage : Type :=
| KeineSerieMitId (id : option Z)
| UngueltigeSuchkriterien
| KeineBuecherGefunden (suchkriterien : Suchkriterien) (seite : option Z)
| UngueltigeSeite (seite : option Z).

Inductive QueryFailure : Type :=
| InvalidStatement
| ForeignKeyViolation
| NotNullViolation.

(** Modelled from the spec: exceptions.ts is missing.  The classes the
    services throw, each with the argument it is constructed with; the spec
    names their kinds NotFound, AlreadyExists, InvalidVersion and
    OutdatedVersion.  The last three are the errors of TypeORM. *)
Inductive Exception : Type :=
| NotFoundException (message : NotFoundMessage)
| VersionInvalidException (version : string)
| VersionOutdatedException (version : JsNumber)
| IsbnExistsException (isbn : JsValue)
| QueryFailedError (failure : QueryFailure)
| EntityPropertyNotFoundError (property : string)
| EntityMetadataNotFoundError.

Record World : Type := mkWorld {
  db : Db;
  journal : list Statement
}.

Inductive Outcome (A : Type) : Type :=
| Returned (a : A)
| Threw (e : Exception).
Arguments Returned {A} a.
Arguments Threw {A} e.

(** An asynchronous operation: it runs against the store and either returns
    or throws. *)
Definition M (A : Type) : Type := World -> Outcome A * World.

Definition ret {A} (a : A) : M A := fun w => (Returned a, w).

Definition throw {A} (e : Exception) : M A := fun w => (Threw e, w).

Definition bind {A B} (m : M A) (k : A -> M B) : M B :=
  fun w =>
    match m w with
    | (Returned a, w') => k a w'
    | (Threw e, w') => (Threw e, w')
    end.

Declare Scope effect_scope.
Delimit Scope effect_scope with effect.
Notation "x <- c ;; k" := (bind c (fun x => k))
  (at level 61, c at next level, right associativity) : effect_scope.
Notation "c ;;; k" := (bind c (fun _ => k))
  (at level 61, right associativity) : effect_scope.
Local Open Scope effect_scope.

Definition send (st : Statement) : M unit :=
  fun w => (Returned tt, mkWorld (db w) (journal w ++ [st])).

Definition read_db : M Db := fun w => (Returned (db w), w).

Definition write_db (d : Db) : M unit :=
  fun w => (Returned tt, mkWorld d (journal w)).

(** ** The operations of TypeORM the services use *)

Module Repository.

(** [queryBuilder.getMany()] *)
Definition getMany (q : SelectQueryBuilder) : M (list Serie.t) :=
  send (Select q) ;;;
  d <- read_db ;;
  match selected d q with
  | Some rows =>
      if paging_ok q then ret (map (serie_of_row d q) (paged q rows))
      else throw (QueryFailedError InvalidStatement)
  | None => throw (QueryFailedError InvalidStatement)
  end.

(** [queryBuilder.getOne()]; [None] is [null].  The parameters of the
    query are taken from the range of their columns: for a number that the
    column of the id cannot hold (more than 32 bits) the store refuses the
    statement, which is no case of this function. *)
Definition getOne (q : SelectQueryBuilder) : M (option Serie.t) :=
  send (Select q) ;;;
  d <- read_db ;;
  match selected d q with
  | Some rows => ret (option_map (serie_of_row d q) (head rows))
  | None => throw (QueryFailedError InvalidStatement)
  end.

(** [queryBuilder.getCount()]: counts what the conditions select. *)
Definition getCount (q : SelectQueryBuilder) : M Z :=
  send (SelectCount q) ;;;
  d <- read_db ;;
  match selected d q with
  | Some rows => ret (Z.of_nat (List.length rows))
  | None => throw (QueryFailedError InvalidStatement)
  end.

(** The entries of a where-object that make a condition: an entry whose
    value is undefined or null makes none. *)
Definition conditions (where_object : list (string * JsValue))
  : list (string * JsValue) :=
  filter (fun kv => match snd kv with
                    | JsUndefined | JsNull => false
                    | _ => true
                    end) where_object.

Definition row_satisfies (r : SerieRow) (kv : string * JsValue) : bool :=
  match assoc (fst kv) serie_columns with
  | Some f => sql_compare Equal (f r) (param_value (snd kv))
  | None => false
  end.

(** [repo.existsBy(where)] *)
Definition existsBy (where_object : list (string * JsValue)) : M bool :=
  let conds := conditions where_object in
  match find (fun kv => match assoc (fst kv) serie_columns with
                        | Some _ => false
                        | None => true
                        end) conds with
  | Some kv => throw (EntityPropertyNotFoundError (fst kv))
  | None =>
      send (SelectExists where_object) ;;;
      d <- read_db ;;
      ret (existsb (fun r => forallb (row_satisfies r) conds) (serie_table d))
  end.

(** [DeleteResult] *)
Record DeleteResult : Type := mkDeleteResult {
  affected : option Z
}.

Definition count_removed {A} (keep : A -> bool) (l : list A) : Z :=
  Z.of_nat (List.length l) - Z.of_nat (List.length (filter keep l)).

(** [manager.delete(target, id)]: one DELETE statement by primary key.  The
    tables titel, cover and serie_file reference serie (REFERENCES serie in
    create-table-serie.sql), so a row of serie that is still referenced
    cannot be deleted. *)
Definition delete (target : Target) (id : Z) : M DeleteResult :=
  match target with
  | TAbbildung => throw EntityMetadataNotFoundError
  | TTitel =>
      send (DeleteFrom target id) ;;;
      d <- read_db ;;
      let keep := fun t => negb (t_id t =? id) in
      write_db (mkDb (serie_table d) (filter keep (titel_table d))
                     (cover_table d) (file_table d) (next_id d) (clock d)) ;;;
      ret (mkDeleteResult (Some (count_removed keep (titel_table d))))
  | TCover =>
      send (DeleteFrom target id) ;;;
      d <- read_db ;;
      let keep := fun c => negb (c_id c =? id) in
      write_db (mkDb (serie_table d) (titel_table d)
                     (filter keep (cover_table d)) (file_table d)
                     (next_id d) (clock d)) ;;;
      ret (mkDeleteResult (Some (count_removed keep (cover_table d))))
  | TSerie =>
      send (DeleteFrom target id) ;;;
      d <- read_db ;;
      if existsb (fun r => r_id r =? id) (serie_table d) &&
         (existsb (fun t => t_serie_id t =? id) (titel_table d) ||
          existsb (fun c => c_serie_id c =? id) (cover_table d) ||
          existsb (fun f => f_serie_id f =? id) (file_table d))
      then throw (QueryFailedError ForeignKeyViolation)
      else
        let keep := fun r => negb (r_id r =? id) in
        write_db (mkDb (filter keep (serie_table d)) (titel_table d)
                       (cover_table d) (file_table d) (next_id d)
                       (clock d)) ;;;
        ret (mkDeleteResult (Some (count_removed keep (serie_table d))))
  end.

(** [manager.transaction(body)]: all or nothing. *)
Definition transaction {A} (body : M A) : M A :=
  fun w =>
    match body (mkWorld (db w) (journal w ++ [StartTransaction])) with
    | (Returned a, w') =>
        (Returned a, mkWorld (db w') (journal w' ++ [Commit]))
    | (Threw e, w') =>
        (Threw e, mkWorld (db w) (journal w' ++ [Rollback]))
    end.

Definition or_else {A} (new old : option A) : option A :=
  match new with Some _ => new | None => old end.

(** [repo.merge(entity, payload)]: the defined properties of the payload
    are copied onto the entity. *)
Definition merge (e p : Serie.t) : Serie.t :=
  Serie.mk (or_else (Serie.id p) (Serie.id e))
           (or_else (Serie.version p) (Serie.version e))
           (or_else (Serie.seriennummer p) (Serie.seriennummer e))
           (or_else (Serie.rating p) (Serie.rating e))
           (or_else (Serie.art p) (Serie.art e))
           (or_else (Serie.preis p) (Serie.preis e))
           (or_else (Serie.rabatt p) (Serie.rabatt e))
           (or_else (Serie.trailer p) (Serie.trailer e))
           (or_else (Serie.datum p) (Serie.datum e))
           (or_else (Serie.homepage p) (Serie.homepage e))
           (match Serie.schlagwoerter p with
            | Undefined => Serie.schlagwoerter e
            | x => x
            end)
           (or_else (Serie.titel p) (Serie.titel e))
           (or_else (Serie.covers p) (Serie.covers e))
           (or_else (Serie.file p) (Serie.file e))
           (or_else (Serie.erzeugt p) (Serie.erzeugt e))
           (or_else (Serie.aktualisiert p) (Serie.aktualisiert e)).

Definition value_or {A} (o : option A) (old : A) : A :=
  match o with Some a => a | None => old end.

Definition schlagwoerter_column (x : Nullable (list string))
           (old : option string) : option string :=
  match x with
  | Undefined => old
  | Null => None
  | Value l => Some (simpleArrayToString l)
  end.

(** Whether the entity has a value for a column that is not the stored
    one: [save] compares each defined property with the row it has read. *)
Definition differs {A} (eqb : A -> A -> bool) (new : option A) (old : A)
  : bool :=
  match new with
  | Some a => negb (eqb a old)
  | None => false
  end.

Definition differs_null (new old : option string) : bool :=
  match new, old with
  | Some a, Some b => negb (String.eqb a b)
  | Some _, None => true
  | None, _ => false
  end.

(** A simple-array is compared as the text it is stored as. *)
Definition schlagwoerter_differ (x : Nullable (list string))
           (old : option string) : bool :=
  match x, old with
  | Undefined, _ => false
  | Null, Some _ => true
  | Null, None => false
  | Value l, Some b => negb (String.eqb (simpleArrayToString l) b)
  | Value _, None => true
  end.

(** Whether [save] finds a column to write.  The version column and the
    two date columns are compared like every other column. *)
Definition changed (old : SerieRow) (e : Serie.t) : bool :=
  differs Z.eqb (Serie.version e) (r_version old) ||
  differs String.eqb (Serie.seriennummer e) (r_seriennummer old) ||
  differs Z.eqb (Serie.rating e) (r_rating old) ||
  differs_null (Serie.art e) (r_art old) ||
  differs Z.eqb (Serie.preis e) (r_preis old) ||
  differs Z.eqb (Serie.rabatt e) (r_rabatt old) ||
  differs Bool.eqb (Serie.trailer e) (r_trailer old) ||
  differs_null (Serie.datum e) (r_datum old) ||
  differs_null (Serie.homepage e) (r_homepage old) ||
  schlagwoerter_differ (Serie.schlagwoerter e) (r_schlagwoerter old) ||
  differs Z.eqb (Serie.erzeugt e) (r_erzeugt old) ||
  differs Z.eqb (Serie.aktualisiert e) (r_aktualisiert old).

(** What the UPDATE writes into a column that the store can set by itself
    (@VersionColumn, @UpdateDateColumn): the value of the entity when it is
    one of the columns that differ, else what the store computes. *)
Definition or_computed (new : option Z) (old computed : Z) : Z :=
  match new with
  | Some a => if a =? old then computed else a
  | None => computed
  end.

(** The row an UPDATE leaves: the defined columns of the entity are
    written; the version is the stored one plus 1 and the update date the
    current time, unless the entity has another value for them, which is
    then written as it is; the id stays. *)
Definition updated_row (old : SerieRow) (e : Serie.t) (now : Z) : SerieRow :=
  mkSerieRow (r_id old)
             (or_computed (Serie.version e) (r_version old)
                          (r_version old + 1))
             (value_or (Serie.seriennummer e) (r_seriennummer old))
             (value_or (Serie.rating e) (r_rating old))
             (or_else (Serie.art e) (r_art old))
             (value_or (Serie.preis e) (r_preis old))
             (value_or (Serie.rabatt e) (r_rabatt old))
             (value_or (Serie.trailer e) (r_trailer old))
             (or_else (Serie.datum e) (r_datum old))
             (or_else (Serie.homepage e) (r_homepage old))
             (schlagwoerter_column (Serie.schlagwoerter e)
                                   (r_schlagwoerter old))
             (value_or (Serie.erzeugt e) (r_erzeugt old))
             (or_computed (Serie.aktualisiert e) (r_aktualisiert old) now).

(** The row an INSERT creates, if the entity has a value for every column
    that is NOT NULL and has no default.  For an entity without version
    TypeORM writes 1 into the version column (@VersionColumn), and for a
    date column for which the entity has no value the store writes the
    current time; a value that the entity has is written as it is. *)
Definition inserted_row (id now : Z) (e : Serie.t) : option SerieRow :=
  match Serie.seriennummer e, Serie.rating e, Serie.preis e,
        Serie.rabatt e with
  | Some sn, Some ra, Some pr, Some rb =>
      Some (mkSerieRow id (value_or (Serie.version e) 1) sn ra
                       (Serie.art e) pr rb
                       (value_or (Serie.trailer e) false) (Serie.datum e)
                       (Serie.homepage e)
                       (schlagwoerter_column (Serie.schlagwoerter e) None)
                       (value_or (Serie.erzeugt e) now)
                       (value_or (Serie.aktualisiert e) now))
  | _, _, _, _ => None
  end.

Fixpoint inserted_covers (first serie_id : Z) (l : list Cover.t)
  : list CoverRow :=
  match l with
  | [] => []
  | c :: rest =>
      mkCoverRow first (value_or (Cover.beschriftung c) "")
                 (value_or (Cover.contentType c) "") serie_id
      :: inserted_covers (first + 1) serie_id rest
  end.

Definition replace_row (r : SerieRow) (l : list SerieRow) : list SerieRow :=
  map (fun x => if r_id x =? r_id r then r else x) l.

(** [repo.save(entity)].  When the entity has the id of a stored row: an
    UPDATE of the columns that differ from that row, and no statement at all
    when none differs; the entity comes back with the version and the update
    date of the row.  Else an INSERT of the serie with its titel and covers
    (cascade insert): the row gets the id of the entity when it has one,
    else the next id the store generates (@PrimaryGeneratedColumn). *)
Definition save (e : Serie.t) : M Serie.t :=
  d <- read_db ;;
  match match Serie.id e with
        | Some i => find (fun r => r_id r =? i) (serie_table d)
        | None => None
        end with
  | Some old =>
      if changed old e then
        send (UpdateSerie (r_id old)) ;;;
        let row := updated_row old e (clock d) in
        write_db (mkDb (replace_row row (serie_table d)) (titel_table d)
                       (cover_table d) (file_table d) (next_id d)
                       (clock d)) ;;;
        ret (Serie.mk (Some (r_id row)) (Some (r_version row))
                      (Serie.seriennummer e) (Serie.rating e) (Serie.art e)
                      (Serie.preis e) (Serie.rabatt e) (Serie.trailer e)
                      (Serie.datum e) (Serie.homepage e)
                      (Serie.schlagwoerter e) (Serie.titel e) (Serie.covers e)
                      (Serie.file e) (Serie.erzeugt e)
                      (Some (r_aktualisiert row)))
      else ret e
  | None =>
      let n := next_id d in
      let i := value_or (Serie.id e) n in
      send (InsertSerie i) ;;;
      match inserted_row i (clock d) e with
      | None => throw (QueryFailedError NotNullViolation)
      | Some row =>
          let titels :=
            match Serie.titel e with
            | Some t => [mkTitelRow (n + 1) (value_or (Titel.titel t) "")
                                    (Titel.untertitel t) i]
            | None => []
            end in
          let cs := inserted_covers (n + 2) i (value_or (Serie.covers e) []) in
          write_db (mkDb (serie_table d ++ [row]) (titel_table d ++ titels)
                         (cover_table d ++ cs) (file_table d)
                         (n + 2 + Z.of_nat (List.length cs)) (clock d)) ;;;
          ret (Serie.mk (Some i) (Some (r_version row))
                        (Serie.seriennummer e) (Serie.rating e) (Serie.art e)
                        (Serie.preis e) (Serie.rabatt e)
                        (Some (r_trailer row))
                        (Serie.datum e) (Serie.homepage e)
                        (Serie.schlagwoerter e) (Serie.titel e)
                        (Serie.covers e) (Serie.file e)
                        (Some (r_erzeugt row)) (Some (r_aktualisiert row)))
      end
  end.

End Repository.

(* ================================================================== *)
(** * query-builder.ts *)
(* ================================================================== *)

(** [o ?? d] *)
Definition value_or_default {A} (o : option A) (d : A) : A :=
  match o with Some a => a | None => d end.

(** [suchkriterien[key]]: the value of an own property, else undefined. *)
Definition prop (o : Suchkriterien) (key : string) : JsValue :=
  match assoc key o with Some v => v | None => JsUndefined end.

Module QueryBuilder.

(** The class names with their first letter in lower case. *)
Definition serieAlias : string := "serie".
Definition titelAlias : string := "titel".
Definition coverAlias : string := "cover".

Record BuildIdParams : Type := mkBuildIdParams {
  id : Z;
  mitCovers : bool
}.

Definition buildId (p : BuildIdParams) : SelectQueryBuilder :=
  let queryBuilder := createQueryBuilder serieAlias in
  let queryBuilder := innerJoinAndSelect_titel queryBuilder in
  let queryBuilder :=
    if mitCovers p then leftJoinAndSelect_covers queryBuilder
    else queryBuilder in
  where_ queryBuilder
         (CCompare (EColumn serieAlias "id") Equal
                   (OParam (Serie.int (id p)))).

(** The properties [build] takes out of the filter object by name. *)
Definition named : list string :=
  [ "titel"; "rating"; "preis"; "javascript"; "typescript"; "java";
    "python" ].

(** [...restProps]: the other own properties, in their order. *)
Definition restProps (o : Suchkriterien) : Suchkriterien :=
  filter (fun kv => negb (existsb (String.eqb (fst kv)) named)) o.

(** [schlagwoerter like '%TAG%'] *)
Definition schlagwort (tag : string) : Clause :=
  CLike false (EColumn serieAlias "schlagwoerter")
        (OQuoted ("%" ++ tag ++ "%")).

(** [REPLACE(schlagwoerter, 'JAVASCRIPT', '') like '%JAVA%'] *)
Definition java_clause : Clause :=
  CLike false (EReplace (EColumn serieAlias "schlagwoerter") "JAVASCRIPT" "")
        (OQuoted "%JAVA%").

(** [useWhere ? queryBuilder.where(c) : queryBuilder.andWhere(c)] *)
Definition where_or_and (useWhere : bool) (queryBuilder : SelectQueryBuilder)
           (c : Clause) : SelectQueryBuilder :=
  if useWhere then where_ queryBuilder c else andWhere queryBuilder c.

(** The query builder under construction and the variable [useWhere]. *)
Definition Building : Type := (SelectQueryBuilder * bool)%type.

(** [flag === 'true'] *)
Definition is_true (flag : JsValue) : bool :=
  match flag with JsStr s => String.eqb s "true" | _ => false end.

(** [titel.titel ilike :titel] with the parameter [%titel%]; [like] when the
    store is not PostgreSQL. *)
Definition titel_clause (cfg : Config) (titel : string) : Clause :=
  CLike (postgres cfg) (EColumn titelAlias "titel")
        (OParam (JsStr ("%" ++ titel ++ "%"))).

(** [serie.rating >= ${ratingNumber}] *)
Definition rating_clause (ratingNumber : JsValue) : Clause :=
  CCompare (EColumn serieAlias "rating") Ge (OSpliced ratingNumber).

(** [serie.preis <= ${preisNumber}] *)
Definition preis_clause (preisNumber : JsNumber) : Clause :=
  CCompare (EColumn serieAlias "preis") Le (OSpliced (JsNum preisNumber)).

(** [serie.key = :key] with the parameter [value] *)
Definition equal_clause (key : string) (value : JsValue) : Clause :=
  CCompare (EColumn serieAlias key) Equal (OParam value).

(** The statements of [build] on [titel], [rating] and [preis]: each of
    them calls [where]. *)
Definition filter_titel (cfg : Config) (titel : JsValue) (b : Building)
  : Building :=
  match titel with
  | JsStr t => (where_ (fst b) (titel_clause cfg t), false)
  | _ => b
  end.

Definition filter_rating (rating : JsValue) (b : Building) : Building :=
  if is_defined rating then
    let ratingNumber :=
      match rating with
      | JsStr r => JsNum (parseInt r None)
      | _ => rating
      end in
    if negb (isNaN ratingNumber)
    then (where_ (fst b) (rating_clause ratingNumber), false)
    else b
  else b.

Definition filter_preis (preis : JsValue) (b : Building) : Building :=
  match preis with
  | JsStr p =>
      let preisNumber := Number p in
      (where_ (fst b) (preis_clause preisNumber), false)
  | _ => b
  end.

(** The statement on a keyword flag: [where] or [andWhere], by
    [useWhere]. *)
Definition filter_schlagwort (flag : JsValue) (c : Clause) (b : Building)
  : Building :=
  if is_true flag then (where_or_and (snd b) (fst b) c, false) else b.

(** The body of the loop over the entries of [restProps]. *)
Definition filter_rest (b : Building) (kv : string * JsValue) : Building :=
  (where_or_and (snd b) (fst b) (equal_clause (fst kv) (snd kv)), false).

(** [build] up to paging. *)
Definition filters (cfg : Config) (o : Suchkriterien) : Building :=
  let b := (innerJoinAndSelect_titel (createQueryBuilder serieAlias), true) in
  let b := filter_titel cfg (prop o "titel") b in
  let b := filter_rating (prop o "rating") b in
  let b := filter_preis (prop o "preis") b in
  let b :=
    filter_schlagwort (prop o "javascript") (schlagwort "JAVASCRIPT") b in
  let b :=
    filter_schlagwort (prop o "typescript") (schlagwort "TYPESCRIPT") b in
  let b := filter_schlagwort (prop o "java") java_clause b in
  let b := filter_schlagwort (prop o "python") (schlagwort "PYTHON") b in
  fold_left filter_rest (restProps o) b.

Definition build (cfg : Config) (o : Suchkriterien) (pageable : Pageable)
  : SelectQueryBuilder :=
  let queryBuilder := fst (filters cfg o) in
  match size pageable with
  | Some 0 => queryBuilder
  | _ =>
      let size := value_or_default (size pageable) (DEFAULT_PAGE_SIZE cfg) in
      let number :=
        value_or_default (number pageable) (DEFAULT_PAGE_NUMBER cfg) in
      let skip_n := number * size in
      skip (take queryBuilder size) skip_n
  end.

End QueryBuilder.

(* ================================================================== *)
(** * serie-read.service.ts *)
(* ================================================================== *)

Module SerieReadService.

(** [this.#serieProps], set by the constructor from a fresh Serie. *)
Definition serieProps : list string := Serie.ownPropertyNames.

(** The argument object of [findById]: the id and whatever boolean
    properties the caller wrote next to it. *)
Record FindByIdParams : Type := mkFindByIdParams {
  id : Z;
  flags : list (string * bool)
}.

(** Modelled from the spec: slice.ts is missing.  The spec's result of a
    search is the content of the page and the total element count. *)
Record Slice : Type := mkSlice {
  content : list Serie.t;
  totalElements : Z
}.

(** [if (serie.schlagwoerter === null) serie.schlagwoerter = []] *)
Definition null_to_empty (serie : Serie.t) : Serie.t :=
  match Serie.schlagwoerter serie with
  | Null => Serie.set_schlagwoerter serie (Value [])
  | _ => serie
  end.

(** [findById({ id, mitCovers = false })] *)
Definition findById (p : FindByIdParams) : M Serie.t :=
  let mitCovers := value_or_default (assoc "mitCovers" (flags p)) false in
  serie <- Repository.getOne
             (QueryBuilder.buildId
                (QueryBuilder.mkBuildIdParams (id p) mitCovers)) ;;
  match serie with
  | None => throw (NotFoundException (KeineSerieMitId (Some (id p))))
  | Some serie => ret (null_to_empty serie)
  end.

Definition createSlice (buecher : list Serie.t) (totalElements : Z) : Slice :=
  mkSlice (map null_to_empty buecher) totalElements.

Definition checkKeys (keys : list string) : bool :=
  forallb (fun key =>
             negb (negb (existsb (String.eqb key) serieProps) &&
                   negb (String.eqb key "javascript") &&
                   negb (String.eqb key "typescript") &&
                   negb (String.eqb key "java") &&
                   negb (String.eqb key "python")))
          keys.

Definition checkEnums (suchkriterien : Suchkriterien) : bool :=
  match prop suchkriterien "art" with
  | JsUndefined => true
  | JsStr art =>
      String.eqb art "STREAM" || String.eqb art "TV" || String.eqb art "DVD"
  | _ => false
  end.

Definition findAll (cfg : Config) (pageable : Pageable) : M Slice :=
  let queryBuilder := QueryBuilder.build cfg [] pageable in
  buecher <- Repository.getMany queryBuilder ;;
  match buecher with
  | [] => throw (NotFoundException (UngueltigeSeite (number pageable)))
  | _ =>
      totalElements <- Repository.getCount queryBuilder ;;
      ret (createSlice buecher totalElements)
  end.

(** [find(suchkriterien, pageable)]; [None] is the call without filter
    object. *)
Definition find (cfg : Config) (suchkriterien : option Suchkriterien)
           (pageable : Pageable) : M Slice :=
  match suchkriterien with
  | None => findAll cfg pageable
  | Some suchkriterien =>
      let keys := map fst suchkriterien in
      match keys with
      | [] => findAll cfg pageable
      | _ =>
          if negb (checkKeys keys) || negb (checkEnums suchkriterien) then
            throw (NotFoundException UngueltigeSuchkriterien)
          else
            let queryBuilder :=
              QueryBuilder.build cfg suchkriterien pageable in
            buecher <- Repository.getMany queryBuilder ;;
            match buecher with
            | [] =>
                throw (NotFoundException
                         (KeineBuecherGefunden suchkriterien
                                               (number pageable)))
            | _ =>
                totalElements <- Repository.getCount queryBuilder ;;
                ret (createSlice buecher totalElements)
            end
      end
  end.

End SerieReadService.

(* ================================================================== *)
(** * serie-write.service.ts *)
(* ================================================================== *)

Module SerieWriteService.

(** Between one and [n] digits and then a double quote, at the start of
    [s]. *)
Fixpoint digits_then_quote (n : nat) (s : string) : bool :=
  match n, s with
  | S n', String d r =>
      is_digit d &&
      (match r with String q _ => is_dquote q | EmptyString => false end
       || digits_then_quote n' r)
  | _, _ => false
  end.

(** [VERSION_PATTERN.test(s)] for the pattern ^"\d{1,3}" with the [u]
    flag. *)
Definition VERSION_PATTERN_test (s : string) : bool :=
  match s with
  | String q r => is_dquote q && digits_then_quote 3 r
  | EmptyString => false
  end.

Record UpdateParams : Type := mkUpdateParams {
  id : option Z;
  serie : Serie.t;
  version : string
}.

(** [version < versionDb] on numbers: false when either side is not a
    number. *)
Definition less_than (version : JsNumber) (versionDb : option Z) : bool :=
  match version, versionDb with
  | Fin q, Some v => negb (Qle_bool (inject_Z v) q)
  | Infinity true, Some _ => true
  | _, _ => false
  end.

Definition validateCreate (serie : Serie.t) : M unit :=
  let isbn := Serie.get_value serie "isbn" in
  found <- Repository.existsBy [("isbn", isbn)] ;;
  if found : bool then throw (IsbnExistsException isbn) else ret tt.

Definition sendmail (serie : Serie.t) : M unit :=
  let titel :=
    match Serie.titel serie with
    | Some t => value_or_default (Titel.titel t) "N/A"
    | None => "N/A"
    end in
  send (SendMail (Serie.id serie) titel).

Definition create (serie : Serie.t) : M (option Z) :=
  validateCreate serie ;;;
  serieDb <- Repository.save serie ;;
  sendmail serieDb ;;;
  ret (Serie.id serieDb).

Definition validateUpdate (serie : Serie.t) (id : Z) (versionStr : string)
  : M Serie.t :=
  if negb (VERSION_PATTERN_test versionStr) then
    throw (VersionInvalidException versionStr)
  else
    let version := parseInt (slice versionStr 1 (-1)) (Some 10) in
    serieDb <- SerieReadService.findById
                 (SerieReadService.mkFindByIdParams id []) ;;
    let versionDb := Serie.version serieDb in
    if less_than version versionDb then
      throw (VersionOutdatedException version)
    else ret serieDb.

Definition update (p : UpdateParams) : M (option Z) :=
  match id p with
  | None => throw (NotFoundException (KeineSerieMitId None))
  | Some id =>
      validateResult <- validateUpdate (serie p) id (version p) ;;
      (* what [#validateUpdate] returns is always an instance of Serie *)
      let serieNeu := validateResult in
      let merged := Repository.merge serieNeu (serie p) in
      updated <- Repository.save merged ;;
      ret (Serie.version updated)
  end.

Fixpoint for_each {A} (l : list A) (body : A -> M unit) : M unit :=
  match l with
  | [] => ret tt
  | a :: rest => body a ;;; for_each rest body
  end.

Definition delete (id : Z) : M bool :=
  serie <- SerieReadService.findById
             (SerieReadService.mkFindByIdParams id
                [("mitAbbildungen", true)]) ;;
  deleteResult <-
    Repository.transaction
      (let titelId :=
         match Serie.titel serie with
         | Some t => Titel.id t
         | None => None
         end in
       match titelId with
       | Some titelId => Repository.delete TTitel titelId ;;; ret tt
       | None => ret tt
       end ;;;
       let abbildungen :=
         match Serie.get serie "abbildungen" with
         | Serie.PCovers l => l
         | _ => []
         end in
       for_each abbildungen
                (fun abbildung =>
                   match Cover.id abbildung with
                   | Some i => Repository.delete TAbbildung i ;;; ret tt
                   | None => throw EntityMetadataNotFoundError
                   end) ;;;
       r <- Repository.delete TSerie id ;;
       ret (Some r)) ;;
  ret match deleteResult with
      | Some r =>
          match Repository.affected r with
          | Some n => 0 <? n
          | None => false
          end
      | None => false
      end.

End SerieWriteService.

(* ================================================================== *)
(** * serie-get.controller.ts and serie-mutation.resolver.ts *)
(* ================================================================== *)

Module Template.

(** The character of a decimal digit. *)
Definition digit_char (d : Z) : ascii := ascii_of_N (Z.to_N (48 + d)).

(** The decimal digits of [n], least significant first, put before
    [acc]. *)
Fixpoint digits (fuel : nat) (n : Z) (acc : string) : string :=
  match fuel with
  | O => acc
  | S fuel' =>
      let acc' := String (digit_char (n mod 10)) acc in
      if n <? 10 then acc' else digits fuel' (n / 10) acc'
  end.

(** [String(n)] and [n.toString()] for an integer (one that JavaScript
    writes without exponent, below 10^21 in absolute value). *)
Definition toString (n : Z) : string :=
  if n <? 0 then String "-" (digits (S (Z.to_nat (- n))) (- n) "")
  else digits (S (Z.to_nat n)) n "".

(** The template literal that puts a version, a number or undefined,
    between double quotes. *)
Definition quoted (version : option Z) : string :=
  String dquote
         ((match version with
           | Some n => toString n
           | None => "undefined"
           end) ++ String dquote "").

End Template.

Module SerieGetController.

(** What [getById] answers: a status without body, or the series as JSON
    with the header ETag. *)
Inductive Response : Type :=
| SendStatus (status : Z)
| Json (etag : string) (body : Serie.t).

(** [getById(id, req, version, res)]; [accepts] is whether the request
    accepts json or html, [version] the header If-None-Match. *)
Definition getById (id : Z) (accepts : bool) (version : option string)
  : M Response :=
  if negb accepts then ret (SendStatus 406)
  else
    serie <- SerieReadService.findById
               (SerieReadService.mkFindByIdParams id []) ;;
    let versionDb := Serie.version serie in
    if match version with
       | Some v => String.eqb v (Template.quoted versionDb)
       | None => false
       end
    then ret (SendStatus 304)
    else ret (Json (Template.quoted versionDb) serie).

(** The filter object [get] hands to [find]: the query without page and
    size and without the keys whose value is undefined. *)
Definition criteria (query : Suchkriterien) : Suchkriterien :=
  filter (fun kv => is_defined (snd kv))
         (filter (fun kv => negb (String.eqb (fst kv) "page") &&
                            negb (String.eqb (fst kv) "size"))
                 query).

Section Get.

(** page.ts and the function createPageable of pageable.ts are missing:
    they are taken as parameters. *)
Variable Page : Type.
Variable createPageable : JsValue -> JsValue -> Pageable.
Variable createPage : SerieReadService.Slice -> Pageable -> Page.

Inductive Pages : Type :=
| NotAcceptable
| Found (page : Page).

(** [get(query, req, res)] *)
Definition get (cfg : Config) (query : Suchkriterien) (accepts : bool)
  : M Pages :=
  if negb accepts then ret NotAcceptable
  else
    let page := prop query "page" in
    let size := prop query "size" in
    let pageable := createPageable page size in
    serienSlice <- SerieReadService.find cfg (Some (criteria query))
                                         pageable ;;
    ret (Found (createPage serienSlice pageable)).

End Get.

End SerieGetController.

Module SerieMutationResolver.

(** The version token [update] builds from the version of the DTO. *)
Definition versionStr (version : Z) : string :=
  Template.quoted (Some version).

End SerieMutationResolver.

(* ================================================================== *)
(** * Notions used in the statements *)
(* ================================================================== *)

Local Open Scope list_scope.

Section Notions.

Import QueryBuilder.

(** The world after one statement was sent. *)
Definition sent (st : Statement) (w : World) : World :=
  mkWorld (db w) (journal w ++ [st]).

(** The end of [find] and of [#findAll]: the rows, the count, the slice. *)
Definition search (q : SelectQueryBuilder) (e : Exception)
  : M SerieReadService.Slice :=
  (buecher <- Repository.getMany q ;;
   match buecher with
   | [] => throw e
   | _ =>
       totalElements <- Repository.getCount q ;;
       ret (SerieReadService.createSlice buecher totalElements)
   end)%effect.

(** The filter object [find] works with: none is the empty one. *)
Definition effective (o : option Suchkriterien) : Suchkriterien :=
  match o with Some o' => o' | None => [] end.

(** What a caller sees of the stored keywords. *)
Definition presented (stored : option string) : list string :=
  match stored with
  | None => []
  | Some EmptyString => []
  | Some s => split "," s
  end.

(** The rows with the id [i]. *)
Definition with_id (i : Z) (rows : list (SerieRow * TitelRow))
  : list (SerieRow * TitelRow) :=
  filter (fun st => r_id (fst st) =? i) rows.

(** The query [findById] runs. *)
Definition by_id (p : SerieReadService.FindByIdParams) : SelectQueryBuilder :=
  buildId (mkBuildIdParams
             (SerieReadService.id p)
             (value_or_default (assoc "mitCovers" (SerieReadService.flags p))
                               false)).

(** The parameters [delete] calls [findById] with: the property
    mitAbbildungen is not one [findById] reads, so mitCovers is false and
    the covers are not loaded. *)
Definition delete_params (i : Z) : SerieReadService.FindByIdParams :=
  SerieReadService.mkFindByIdParams i [("mitAbbildungen", true)].


(** While [useWhere] is still true no condition has been set. *)
Definition fresh (b : Building) : Prop :=
  snd b = true -> wheres (fst b) = [].

(** The builder after the statements on titel, rating and preis. *)
Definition leading (cfg : Config) (o : Suchkriterien) : Building :=
  filter_preis (prop o "preis")
    (filter_rating (prop o "rating")
       (filter_titel cfg (prop o "titel")
          (innerJoinAndSelect_titel (createQueryBuilder serieAlias), true))).

(** The conditions for the keyword flags, in the order of the source. *)
Definition flag_clauses (o : Suchkriterien) : list Clause :=
  (if is_true (prop o "javascript") then [schlagwort "JAVASCRIPT"] else []) ++
  (if is_true (prop o "typescript") then [schlagwort "TYPESCRIPT"] else []) ++
  (if is_true (prop o "java") then [java_clause] else []) ++
  (if is_true (prop o "python") then [schlagwort "PYTHON"] else []).

Definition rest_clauses (o : Suchkriterien) : list Clause :=
  map (fun kv => equal_clause (fst kv) (snd kv)) (restProps o).

(** The column a condition is on. *)
Fixpoint expr_column (e : SqlExpr) : string * string :=
  match e with
  | EColumn a n => (a, n)
  | EReplace e' _ _ => expr_column e'
  end.

(** Whether a condition is one on the column preis of serie. *)
Definition on_preis (c : Clause) : bool :=
  match c with
  | CLike _ e _ | CCompare e _ _ =>
      String.eqb (fst (expr_column e)) serieAlias &&
      String.eqb (snd (expr_column e)) "preis"
  end.

(** Whether a condition is one on the title. *)
Definition on_titel (c : Clause) : bool :=
  match c with
  | CLike _ e _ | CCompare e _ _ =>
      String.eqb (fst (expr_column e)) titelAlias
  end.

(** During the scan for JAVASCRIPT: the characters still to be dropped are
    the end of the occurrence that was found. *)
Definition pending (skip : nat) (s : string) : bool :=
  match skip with
  | O => true
  | S _ =>
      (skip <=? 9)%nat &&
      prefix (substring (10 - skip) skip "JAVASCRIPT") s
  end.

(** The digits [ds] between double quotes. *)
Definition version_token (ds : string) : string :=
  String dquote (ds ++ String dquote "")%string.

Fixpoint all_digits (s : string) : bool :=
  match s with
  | String c r => is_digit c && all_digits r
  | EmptyString => true
  end.

(** The number a string of decimal digits denotes, on top of [acc]. *)
Fixpoint decimal (acc : Z) (ds : string) : Z :=
  match ds with
  | String c r => decimal (acc * 10 + (code c - 48)) r
  | EmptyString => acc
  end.

(** One to three decimal digits. *)
Definition short_digits (ds : string) : bool :=
  all_digits ds &&
  (1 <=? String.length ds)%nat && (String.length ds <=? 3)%nat.

(** The shape the claim names: decimal digits, at least one, between
    double quotes. *)
Definition quoted_decimal (tok : string) : Prop :=
  exists ds, ds <> ""%string /\ all_digits ds = true /\ tok = version_token ds.

(** The kinds of failure the spec names, and the kind of each exception
    class of the services; an error of the store has none of them. *)
Inductive Kind : Type :=
| NotFound
| InvalidCriteria
| AlreadyExists
| InvalidVersion
| OutdatedVersion
| StoreError.

Definition kind (e : Exception) : Kind :=
  match e with
  | NotFoundException _ => NotFound
  | VersionInvalidException _ => InvalidVersion
  | VersionOutdatedException _ => OutdatedVersion
  | IsbnExistsException _ => AlreadyExists
  | _ => StoreError
  end.

(** The keys [#checkKeys] lets pass. *)
Definition recognized : list string :=
  SerieReadService.serieProps ++
  ["javascript"%string; "typescript"%string; "java"%string; "python"%string].

(** A filter object [find] refuses: a key that is not recognized, or an art
    that is set and is none of STREAM, TV and DVD. *)
Definition invalid_criteria (c : Suchkriterien) : Prop :=
  (exists key, In key (map fst c) /\ ~ In key recognized) \/
  (prop c "art" <> JsUndefined /\
   forall a, In a ["STREAM"%string; "TV"%string; "DVD"%string] ->
             prop c "art" <> JsStr a).

(** The series [find] returns for the rows of a page. *)
Definition presented_rows (d : Db) (q : SelectQueryBuilder)
           (rows : list (SerieRow * TitelRow)) : list Serie.t :=
  map SerieReadService.null_to_empty (map (serie_of_row d q) rows).

(** Whether a statement only reads. *)
Definition reads (st : Statement) : bool :=
  match st with
  | Select _ | SelectCount _ | SelectExists _ => true
  | _ => false
  end.

(** Whether a condition is one on the column rating of serie. *)
Definition on_rating (c : Clause) : bool :=
  match c with
  | CLike _ e _ | CCompare e _ _ =>
      String.eqb (fst (expr_column e)) serieAlias &&
      String.eqb (snd (expr_column e)) "rating"
  end.

(** The keyword flags of a filter object. *)
Definition flags : list string :=
  ["javascript"%string; "typescript"%string; "java"%string; "python"%string].



(** The shape of every query of [build] before paging: serie joined to
    titel, covers not joined, no take and no skip. *)
Definition joins_titel_only (q : SelectQueryBuilder) : Prop :=
  alias q = serieAlias /\ innerJoinTitel q = true /\
  leftJoinCovers q = false /\ take_ q = None /\ skip_ q = None.

(** Whether a text has none of the characters that LIKE reads in a
    special way: the percent sign, the underscore and the backslash. *)
Fixpoint literal (s : string) : bool :=
  match s with
  | String c r =>
      negb (code c =? 37) && negb (code c =? 95) && negb (code c =? 92) &&
      literal r
  | EmptyString => true
  end.


(** The keys [#checkKeys] lets pass although they are no columns of serie
    and [build] writes a condition on them. *)
Definition relation_keys : list string :=
  ["covers"%string; "file"%string; "toString"%string].


(** A series with the id [i] is stored and a row of titel refers to the
    id. *)
Definition titled (d : Db) (i : Z) : Prop :=
  exists s t,
    In s (serie_table d) /\ r_id s = i /\
    In t (titel_table d) /\ t_serie_id t = i.

(** The covers stored for the series with the id [i], as objects. *)
Definition covers_of (d : Db) (i : Z) : list Cover.t :=
  map cover_of_row (filter (fun c => c_serie_id c =? i) (cover_table d)).

(** Whether a row still refers to the series with the id [i] once the
    row of titel with the id [titel_id] is deleted: another row of titel, a
    cover or a file. *)
Definition still_referenced (d : Db) (i titel_id : Z) : bool :=
  existsb (fun x => (t_serie_id x =? i) && negb (t_id x =? titel_id))
          (titel_table d) ||
  existsb (fun c => c_serie_id c =? i) (cover_table d) ||
  existsb (fun f => f_serie_id f =? i) (file_table d).

(** The store after the row of titel with the id [titel_id] and the series
    with the id [i] were deleted. *)
Definition after_delete (d : Db) (i titel_id : Z) : Db :=
  mkDb (filter (fun r => negb (r_id r =? i)) (serie_table d))
       (filter (fun x => negb (t_id x =? titel_id)) (titel_table d))
       (cover_table d) (file_table d) (next_id d) (clock d).

(** The statements of [delete] for a series that was found, up to the end
    of the transaction. *)
Definition delete_statements (i titel_id : Z) : list Statement :=
  [ Select (by_id (delete_params i)); StartTransaction;
    DeleteFrom TTitel titel_id; DeleteFrom TSerie i ].



(** The ids the column id of serie can hold: integers of 32 bits.  The
    store refuses a statement with a larger number for the id; the calls
    with an id are stated for the ids of this range. *)
Definition int4 (i : Z) : Prop := -2147483648 <= i <= 2147483647.








(** A rational that is the integer [n], which a 64-bit float holds
    exactly. *)
Definition whole (q : Q) (n : Z) : Prop :=
  (q == inject_Z n)%Q /\ Z.abs n <= 2 ^ 53.

End Notions.

(* ================================================================== *)
(** * A small corpus *)
(* ================================================================== *)

Module Corpus.

Definition config : Config := mkConfig true 5 0.

Definition alpha : SerieRow :=
  mkSerieRow 1 2 "SER-000001" 5 (Some "STREAM") 1000 10 true None None
             (Some "JAVASCRIPT,JAVA") 0 0.

Definition zeta : SerieRow :=
  mkSerieRow 2 0 "SER-000002" 1 (Some "TV") 2000 20 false None None
             (Some "JAVASCRIPT") 0 0.

Definition alpha_titel : TitelRow := mkTitelRow 10 "Alpha" None 1.
Definition zeta_titel : TitelRow := mkTitelRow 11 "Zeta" None 2.
Definition alpha_cover : CoverRow := mkCoverRow 20 "Abb. 1" "img/png" 1.

(** Alpha with a cover, Zeta without. *)
Definition store : Db :=
  mkDb [alpha; zeta] [alpha_titel; zeta_titel] [alpha_cover] [] 1000 7.

Definition world : World := mkWorld store [].

(** All rows at once. *)
Definition unpaged : Pageable := mkPageable None (Some 0).

(** A payload for [update]: no id, no version, a new rating and price. *)
Definition geaendert : Serie.t :=
  Serie.mk None None (Some "SER-000001"%string) (Some 4) (Some "DVD"%string)
           (Some 3333) (Some 33) (Some true) None None
           (Value ["JAVA"%string]) None None None None (Some 9).



(** A payload for [create] with a serial number that is not stored. *)
Definition neu : Serie.t :=
  Serie.mk None None (Some "SER-000009"%string) (Some 1) (Some "TV"%string)
           (Some 9999) (Some 5) (Some true) None None
           (Value ["JAVASCRIPT"%string; "TYPESCRIPT"%string])
           (Some (Titel.mk None (Some "Titelpost"%string) None))
           None None None None.

(** The ids of the series a call of [find] returned. *)
Definition found (r : Outcome SerieReadService.Slice * World)
  : Outcome (list (option Z)) :=
  match fst r with
  | Returned sl => Returned (map Serie.id (SerieReadService.content sl))
  | Threw e => Threw e
  end.

(** A series stored without keywords, and its title. *)
Definition plain : SerieRow :=
  mkSerieRow 3 0 "SER-000003" 4 None 500 0 false None None None 0 0.


Definition plain_world : World :=
  mkWorld (mkDb [plain] [mkTitelRow 12 "Gamma" None 3] [] [] 1000 7) [].

End Corpus.

(* ================================================================== *)
(** * The conditions [build] leaves in the query *)
(* ================================================================== *)

Section BuildConditions.

Import QueryBuilder.

Lemma where_or_and_appends (u : bool) (q : SelectQueryBuilder) (c : Clause) :
  (u = true -> wheres q = []) ->
  wheres (where_or_and u q c) = wheres q ++ [c].
Proof.
  intros H. destruct u; simpl.
  - now rewrite H.
  - reflexivity.
Qed.

Lemma fresh_after_false (q : SelectQueryBuilder) : fresh (q, false).
Proof. intros H. discriminate H. Qed.

Lemma filter_titel_fresh cfg v b : fresh b -> fresh (filter_titel cfg v b).
Proof.
  intros H. destruct v; simpl; auto using fresh_after_false.
Qed.

Lemma filter_rating_fresh v b : fresh b -> fresh (filter_rating v b).
Proof.
  intros H. unfold filter_rating.
  destruct (is_defined v); auto.
  destruct (negb _); auto using fresh_after_false.
Qed.

Lemma filter_preis_fresh v b : fresh b -> fresh (filter_preis v b).
Proof.
  intros H. destruct v; simpl; auto using fresh_after_false.
Qed.

Lemma filter_schlagwort_spec flag c b :
  fresh b ->
  wheres (fst (filter_schlagwort flag c b)) =
    wheres (fst b) ++ (if is_true flag then [c] else []) /\
  fresh (filter_schlagwort flag c b).
Proof.
  intros H. unfold filter_schlagwort. destruct (is_true flag); simpl.
  - split; [now apply where_or_and_appends | apply fresh_after_false].
  - now rewrite app_nil_r.
Qed.

Lemma filter_rest_spec (l : Suchkriterien) (b : Building) :
  fresh b ->
  wheres (fst (fold_left filter_rest l b)) =
    wheres (fst b) ++ map (fun kv => equal_clause (fst kv) (snd kv)) l.
Proof.
  revert b. induction l as [|kv l IH]; intros b H; simpl.
  - now rewrite app_nil_r.
  - rewrite IH by apply fresh_after_false.
    simpl. rewrite where_or_and_appends by exact H.
    now rewrite <- app_assoc.
Qed.

Lemma leading_fresh cfg o : fresh (leading cfg o).
Proof.
  apply filter_preis_fresh, filter_rating_fresh, filter_titel_fresh.
  intros _. reflexivity.
Qed.

(** The conditions of the query: what the last [where] among titel, rating
    and preis set, then the flags, then the other properties. *)
Lemma wheres_filters cfg o :
  wheres (fst (filters cfg o)) =
    wheres (fst (leading cfg o)) ++ flag_clauses o ++ rest_clauses o.
Proof.
  unfold filters. fold (leading cfg o).
  pose proof (leading_fresh cfg o) as H0.
  destruct (filter_schlagwort_spec (prop o "javascript")
              (schlagwort "JAVASCRIPT") _ H0) as [E1 H1].
  destruct (filter_schlagwort_spec (prop o "typescript")
              (schlagwort "TYPESCRIPT") _ H1) as [E2 H2].
  destruct (filter_schlagwort_spec (prop o "java") java_clause _ H2)
    as [E3 H3].
  destruct (filter_schlagwort_spec (prop o "python")
              (schlagwort "PYTHON") _ H3) as [E4 H4].
  rewrite (filter_rest_spec _ _ H4), E4, E3, E2, E1.
  unfold flag_clauses, rest_clauses.
  now rewrite <- !app_assoc.
Qed.

Lemma wheres_build cfg o pageable :
  wheres (build cfg o pageable) = wheres (fst (filters cfg o)).
Proof.
  unfold build. destruct (size pageable) as [[| |]|]; reflexivity.
Qed.

(** What the three leading statements leave. *)
Lemma leading_preis cfg o p :
  prop o "preis" = JsStr p ->
  wheres (fst (leading cfg o)) = [preis_clause (Number p)].
Proof. intros H. unfold leading. now rewrite H. Qed.

Lemma leading_cases cfg o :
  wheres (fst (leading cfg o)) = [] \/
  (exists t, wheres (fst (leading cfg o)) = [titel_clause cfg t]) \/
  (exists r, wheres (fst (leading cfg o)) = [rating_clause r]) \/
  (exists p, prop o "preis" = JsStr p /\
             wheres (fst (leading cfg o)) = [preis_clause (Number p)]).
Proof.
  unfold leading.
  destruct (prop o "preis") eqn:Ep;
    try (simpl filter_preis;
         unfold filter_rating;
         destruct (is_defined (prop o "rating"));
         [ destruct (negb _);
           [ right; right; left; eexists; reflexivity | ] | ];
         destruct (prop o "titel"); simpl; auto;
         right; left; eexists; reflexivity).
  right; right; right. exists s. split; reflexivity.
Qed.

End BuildConditions.

(* ================================================================== *)
(** * Facts about the text functions of the store *)
(* ================================================================== *)

Section TextFacts.

#[local] Arguments ascii_dec : simpl never.
#[local] Arguments Ascii.eqb : simpl never.

Lemma string_app_assoc (a b c : string) :
  ((a ++ b) ++ c)%string = (a ++ (b ++ c))%string.
Proof. induction a as [|x a IH]; simpl; [reflexivity | now rewrite IH]. Qed.

Lemma string_app_nil_r (a : string) : (a ++ "")%string = a.
Proof. induction a as [|x a IH]; simpl; [reflexivity | now rewrite IH]. Qed.

Lemma prefix_nil (s : string) : prefix "" s = true.
Proof. destruct s; reflexivity. Qed.

Lemma eqb_as_dec (c p : ascii) (x : bool) :
  Ascii.eqb c p && x = if ascii_dec p c then x else false.
Proof.
  destruct (ascii_dec p c) as [->|N].
  - now rewrite Ascii.eqb_refl.
  - destruct (Ascii.eqb_spec c p) as [->|]; [now destruct N | reflexivity].
Qed.

(** One step of a pattern that starts with [%]. *)
Lemma like_percent_step (rest s : string) :
  like (String "%" rest) s =
    like rest s ||
    match s with
    | String _ r => like (String "%" rest) r
    | EmptyString => false
    end.
Proof. destruct s; reflexivity. Qed.

Lemma like_percent (s : string) : like "%" s = true.
Proof.
  induction s as [|c s IH]; [reflexivity|].
  rewrite like_percent_step, IH. apply orb_true_r.
Qed.

Lemma like_JAVA_percent (s : string) : like "JAVA%" s = prefix "JAVA" s.
Proof.
  destruct s as [|c1 [|c2 [|c3 [|c4 s]]]]; simpl;
    rewrite ?eqb_as_dec; repeat (destruct (ascii_dec _ _); try reflexivity);
    try reflexivity.
  rewrite prefix_nil. change (like "%" s = true). apply like_percent.
Qed.

(** The pattern [%JAVA%] asks for an occurrence of JAVA. *)
Lemma like_contains_JAVA (s : string) :
  like "%JAVA%" s = contains "JAVA" s.
Proof.
  induction s as [|c s IH].
  - reflexivity.
  - rewrite like_percent_step, IH, like_JAVA_percent. reflexivity.
Qed.

Lemma contains_later (needle : string) (c : ascii) (s : string) :
  contains needle s = true -> contains needle (String c s) = true.
Proof. intros H. simpl. rewrite H. apply orb_true_r. Qed.

Lemma pending_tail (skip : nat) (c : ascii) (s : string) :
  pending (S skip) (String c s) = true -> pending skip s = true.
Proof.
  do 9 (destruct skip as [|skip];
        [ simpl; destruct (ascii_dec _ c); intros H;
          first [ exact H | discriminate H | reflexivity ] | ]).
  simpl. intros H. discriminate H.
Qed.

Lemma pending_not_J (skip : nat) (s : string) :
  pending (S skip) (String "J" s) = false.
Proof.
  do 9 (destruct skip as [|skip]; [reflexivity|]).
  reflexivity.
Qed.

Lemma prefix_app_common (p q s : string) :
  prefix (p ++ q) (p ++ s) = prefix q s.
Proof.
  induction p as [|a p IH]; simpl; [reflexivity|].
  destruct (ascii_dec a a) as [_|N]; [exact IH | now destruct N].
Qed.

Lemma prefix_other (a b : ascii) (p s : string) :
  a <> b -> prefix (String a p) (String b s) = false.
Proof.
  intros N. simpl. destruct (ascii_dec a b) as [E|_];
    [now destruct N | reflexivity].
Qed.

(** The scan keeps a character at which no occurrence starts. *)
Lemma replace_scan_keep (from to : string) (c : ascii) (r : string) :
  prefix from (String c r) = false ->
  replace_scan 0 from to (String c r) = String c (replace_scan 0 from to r).
Proof. intros H. cbn [replace_scan]. now rewrite H. Qed.

Lemma replace_scan_JAVA (after : string) :
  prefix "SCRIPT" after = false ->
  replace_scan 0 "JAVASCRIPT" "" ("JAVA" ++ after)%string =
    ("JAVA" ++ replace_scan 0 "JAVASCRIPT" "" after)%string.
Proof.
  intros H.
  change ("JAVA" ++ after)%string
    with (String "J" (String "A" (String "V" (String "A" after)))).
  rewrite replace_scan_keep.
  - rewrite !replace_scan_keep by (apply prefix_other; discriminate).
    reflexivity.
  - change (prefix ("JAVA" ++ "SCRIPT") ("JAVA" ++ after) = false).
    now rewrite prefix_app_common.
Qed.

Lemma contains_here (needle s : string) :
  contains needle (needle ++ s)%string = true.
Proof.
  assert (P : prefix needle (needle ++ s) = true).
  { pose proof (prefix_app_common needle "" s) as Q.
    rewrite string_app_nil_r in Q. rewrite Q. apply prefix_nil. }
  destruct (needle ++ s)%string; simpl; simpl in P; rewrite P; reflexivity.
Qed.

(** A tag JAVA that is not the start of JAVASCRIPT survives the removal of
    JAVASCRIPT. *)
Lemma replace_scan_keeps_JAVA (before after : string) :
  prefix "SCRIPT" after = false ->
  forall skip,
    pending skip (before ++ "JAVA" ++ after)%string = true ->
    contains "JAVA"
      (replace_scan skip "JAVASCRIPT" ""
                    (before ++ "JAVA" ++ after)%string) = true.
Proof.
  intros Hafter. induction before as [|c before IH]; intros skip Hp.
  - destruct skip as [|skip].
    + change ("" ++ "JAVA" ++ after)%string with ("JAVA" ++ after)%string.
      rewrite (replace_scan_JAVA _ Hafter). apply contains_here.
    + change ("" ++ "JAVA" ++ after)%string
        with (String "J" ("AVA" ++ after)%string) in Hp.
      rewrite pending_not_J in Hp. discriminate Hp.
  - change ((String c before ++ "JAVA" ++ after)%string)
      with (String c (before ++ "JAVA" ++ after)%string) in *.
    destruct skip as [|skip].
    + cbn [replace_scan].
      destruct (prefix "JAVASCRIPT" (String c (before ++ "JAVA" ++ after)))
        eqn:E.
      * cbn [append String.length Nat.sub]. apply IH.
        simpl in E. destruct (ascii_dec "J" c); [exact E | discriminate E].
      * apply contains_later. apply IH. reflexivity.
    + cbn [replace_scan]. apply IH. eapply pending_tail. exact Hp.
Qed.

Lemma replace_keeps_JAVA (before after : string) :
  prefix "SCRIPT" after = false ->
  like "%JAVA%" (replace (before ++ "JAVA" ++ after)%string "JAVASCRIPT" "")
  = true.
Proof.
  intros H. rewrite like_contains_JAVA. unfold replace.
  now apply replace_scan_keeps_JAVA.
Qed.

(** In the stored text of a list of tags, the tag JAVA is followed by a
    comma or by nothing. *)
Lemma join_with_JAVA (tags : list string) :
  In "JAVA"%string tags ->
  exists before after,
    simpleArrayToString tags = (before ++ "JAVA" ++ after)%string /\
    prefix "SCRIPT" after = false.
Proof.
  unfold simpleArrayToString.
  induction tags as [|x tags IH]; intros H; [destruct H|].
  destruct H as [->|H].
  - destruct tags as [|y tags].
    + exists ""%string, ""%string. split; reflexivity.
    + exists ""%string, ("," ++ join "," (y :: tags))%string.
      split; reflexivity.
  - destruct (IH H) as (before & after & E & Ha).
    destruct tags as [|y tags]; [destruct H|].
    exists (x ++ "," ++ before)%string, after. split; [|exact Ha].
    change (join "," (x :: y :: tags))
      with (x ++ "," ++ join "," (y :: tags))%string.
    rewrite E. rewrite !string_app_assoc. reflexivity.
Qed.

Lemma rev_string_acc (s acc : string) :
  rev_string s acc = (rev_string s "" ++ acc)%string.
Proof.
  revert acc. induction s as [|c s IH]; intros acc; simpl.
  - reflexivity.
  - rewrite (IH (String c acc)), (IH (String c "")).
    now rewrite string_app_assoc.
Qed.

Lemma split_scan_not_nil (sep : ascii) (s cur : string) :
  split_scan sep s cur <> [].
Proof.
  revert cur. induction s as [|c s IH]; intros cur; simpl.
  - discriminate.
  - destruct (Ascii.eqb c sep); [discriminate | apply IH].
Qed.

(** A text that splits into one piece is that piece. *)
Lemma split_scan_single (sep : ascii) (s cur x : string) :
  split_scan sep s cur = [x] -> x = (rev_string cur "" ++ s)%string.
Proof.
  revert cur. induction s as [|c s IH]; intros cur H; simpl in H.
  - injection H as <-. clear. induction (rev_string cur "") as [|a r IHr];
      simpl; [reflexivity | now rewrite <- IHr].
  - destruct (Ascii.eqb c sep).
    + injection H as _ H. now apply split_scan_not_nil in H.
    + apply IH in H. rewrite H. simpl.
      rewrite (rev_string_acc cur (String c "")).
      now rewrite string_app_assoc.
Qed.

Lemma split_single (s x : string) : split "," s = [x] -> s = x.
Proof. intros H. apply split_scan_single in H. now subst x. Qed.

End TextFacts.

(* ================================================================== *)
(** * Facts about running a query *)
(* ================================================================== *)

Section Running.

Lemma selected_rejects (d : Db) (q : SelectQueryBuilder) (c : Clause) :
  In c (wheres q) -> clause_ok c = false -> selected d q = None.
Proof.
  intros Hin Hc. unfold selected.
  destruct (forallb clause_ok (wheres q)) eqn:E; [|reflexivity].
  rewrite forallb_forall in E. rewrite (E c Hin) in Hc. discriminate Hc.
Qed.

Lemma selected_In (d : Db) (q : SelectQueryBuilder) rows st :
  selected d q = Some rows ->
  (In st rows <->
   In st (joined (serie_table d) (titel_table d)) /\
   forall c, In c (wheres q) -> eval_clause (fst st) (snd st) c = true).
Proof.
  unfold selected. destruct (forallb clause_ok (wheres q)); [|discriminate].
  intros [= <-]. rewrite filter_In, forallb_forall. reflexivity.
Qed.

Lemma selected_same_wheres (d : Db) (q q' : SelectQueryBuilder) :
  wheres q = wheres q' -> selected d q = selected d q'.
Proof. intros E. unfold selected. now rewrite E. Qed.

Lemma firstn_In_all {A} (n : nat) (l : list A) (x : A) :
  In x (firstn n l) -> In x l.
Proof.
  intros H. rewrite <- (firstn_skipn n l). apply in_or_app. now left.
Qed.

Lemma skipn_In_all {A} (n : nat) (l : list A) (x : A) :
  In x (skipn n l) -> In x l.
Proof.
  intros H. rewrite <- (firstn_skipn n l). apply in_or_app. now right.
Qed.

Lemma paged_In (q : SelectQueryBuilder) (rows : list (SerieRow * TitelRow))
      (x : SerieRow * TitelRow) :
  In x (paged q rows) -> In x rows.
Proof.
  unfold paged. intros H.
  destruct (counts (take_ q)), (counts (skip_ q));
    try (apply filter_In in H; now destruct H).
  exact H.
Qed.

Lemma paged_all (q : SelectQueryBuilder) (rows : list (SerieRow * TitelRow)) :
  take_ q = None -> skip_ q = None -> paged q rows = rows.
Proof. intros T S. unfold paged. now rewrite T, S. Qed.

Lemma paging_ok_all (q : SelectQueryBuilder) :
  take_ q = None -> skip_ q = None -> paging_ok q = true.
Proof. intros T S. unfold paging_ok. now rewrite T, S. Qed.

Lemma joined_In (series : list SerieRow) (titels : list TitelRow) st :
  In st (joined series titels) ->
  In (fst st) series /\
  find (fun t => t_serie_id t =? r_id (fst st)) titels = Some (snd st).
Proof.
  induction series as [|s series IH]; simpl; [intros []|].
  destruct (find (fun t => t_serie_id t =? r_id s) titels) eqn:E.
  - intros [<-|H]; [simpl; auto | destruct (IH H); auto].
  - intros H. destruct (IH H); auto.
Qed.

Lemma getMany_run (q : SelectQueryBuilder) (w : World) :
  Repository.getMany q w =
    match selected (db w) q with
    | Some rows =>
        if paging_ok q then
          (Returned (map (serie_of_row (db w) q) (paged q rows)),
           sent (Select q) w)
        else (Threw (QueryFailedError InvalidStatement), sent (Select q) w)
    | None => (Threw (QueryFailedError InvalidStatement), sent (Select q) w)
    end.
Proof.
  unfold Repository.getMany, bind, send, read_db, sent. simpl.
  destruct (selected (db w) q); [|reflexivity].
  destruct (paging_ok q); reflexivity.
Qed.

Lemma getOne_run (q : SelectQueryBuilder) (w : World) :
  Repository.getOne q w =
    match selected (db w) q with
    | Some rows =>
        (Returned (option_map (serie_of_row (db w) q) (head rows)),
         sent (Select q) w)
    | None => (Threw (QueryFailedError InvalidStatement), sent (Select q) w)
    end.
Proof.
  unfold Repository.getOne, bind, send, read_db, sent. simpl.
  destruct (selected (db w) q); reflexivity.
Qed.

Lemma getCount_run (q : SelectQueryBuilder) (w : World) :
  Repository.getCount q w =
    match selected (db w) q with
    | Some rows =>
        (Returned (Z.of_nat (List.length rows)), sent (SelectCount q) w)
    | None =>
        (Threw (QueryFailedError InvalidStatement), sent (SelectCount q) w)
    end.
Proof.
  unfold Repository.getCount, bind, send, read_db, sent. simpl.
  destruct (selected (db w) q); reflexivity.
Qed.

Lemma search_returned q e w sl w' :
  search q e w = (Returned sl, w') ->
  exists rows,
    selected (db w) q = Some rows /\
    SerieReadService.content sl =
      map SerieReadService.null_to_empty
          (map (serie_of_row (db w) q) (paged q rows)).
Proof.
  unfold search, bind. rewrite getMany_run.
  destruct (selected (db w) q) as [rows|] eqn:E; [|discriminate].
  destruct (paging_ok q); [|discriminate].
  exists rows. split; [reflexivity|].
  destruct (map (serie_of_row (db w) q) (paged q rows)) as [|b bs] eqn:Eb.
  - discriminate H.
  - rewrite getCount_run in H. simpl in H. rewrite E in H.
    injection H as <- _. reflexivity.
Qed.

Lemma search_all q e w rows :
  selected (db w) q = Some rows ->
  paging_ok q = true ->
  paged q rows <> [] ->
  exists sl w',
    search q e w = (Returned sl, w') /\
    SerieReadService.content sl =
      map SerieReadService.null_to_empty
          (map (serie_of_row (db w) q) (paged q rows)).
Proof.
  intros E P N. unfold search, bind. rewrite getMany_run, E, P.
  destruct (paged q rows) as [|r rs] eqn:Ep; [now destruct N|].
  cbn [map]. rewrite getCount_run. cbn [db sent]. rewrite E.
  eexists _, _. split; reflexivity.
Qed.

Lemma findAll_search cfg pageable :
  SerieReadService.findAll cfg pageable =
    search (QueryBuilder.build cfg [] pageable)
           (NotFoundException (UngueltigeSeite (number pageable))).
Proof. reflexivity. Qed.

(** [find] with a filter object that has entries and passes the checks. *)
Lemma find_search cfg o pageable :
  o <> [] ->
  SerieReadService.checkKeys (map fst o) = true ->
  SerieReadService.checkEnums o = true ->
  SerieReadService.find cfg (Some o) pageable =
    search (QueryBuilder.build cfg o pageable)
           (NotFoundException (KeineBuecherGefunden o (number pageable))).
Proof.
  intros N K E. unfold SerieReadService.find.
  destruct o as [|kv o]; [now destruct N|].
  cbn [map] in *. rewrite K, E. reflexivity.
Qed.

(** A call of [find] that returns ran the query of [build]. *)
Lemma find_returned cfg o pageable w sl w' :
  SerieReadService.find cfg o pageable w = (Returned sl, w') ->
  let q := QueryBuilder.build cfg (effective o) pageable in
  exists rows,
    selected (db w) q = Some rows /\
    SerieReadService.content sl =
      map SerieReadService.null_to_empty
          (map (serie_of_row (db w) q) (paged q rows)).
Proof.
  intros H. destruct o as [o|].
  - destruct o as [|kv o].
    + simpl in H. rewrite findAll_search in H.
      now apply search_returned in H.
    + unfold SerieReadService.find in H. cbn [map] in H.
      destruct (negb _ || negb _) eqn:Chk; [discriminate H|].
      now apply search_returned in H.
  - simpl in H. rewrite findAll_search in H.
    now apply search_returned in H.
Qed.

Lemma null_to_empty_schlagwoerter (x : Serie.t) :
  Serie.schlagwoerter (SerieReadService.null_to_empty x) =
    match Serie.schlagwoerter x with
    | Null => Value []
    | y => y
    end.
Proof.
  unfold SerieReadService.null_to_empty.
  destruct (Serie.schlagwoerter x) eqn:E; try exact E. reflexivity.
Qed.

Lemma serie_of_row_schlagwoerter d q st :
  Serie.schlagwoerter (serie_of_row d q st) =
    stringToSimpleArray (r_schlagwoerter (fst st)).
Proof. reflexivity. Qed.

Lemma presented_schlagwoerter d q st :
  Serie.schlagwoerter
    (SerieReadService.null_to_empty (serie_of_row d q st)) =
  Value (presented (r_schlagwoerter (fst st))).
Proof.
  rewrite null_to_empty_schlagwoerter, serie_of_row_schlagwoerter.
  destruct (r_schlagwoerter (fst st)) as [[|c s]|]; reflexivity.
Qed.

End Running.

(* ================================================================== *)
(** * QueryBuilder.build: the filters *)
(* ================================================================== *)

Section Filters.

Import QueryBuilder.

(** The spec's scenario: { titel: 'a', rating: 3 } over Alpha (rating 5) and
    Zeta (rating 1) returns Alpha only. *)
Example scenario_titel_a_rating_3 :
  Corpus.found
    (SerieReadService.find Corpus.config
       (Some [("titel", JsStr "a"); ("rating", JsNum (Fin 3))])
       Corpus.unpaged Corpus.world)
  = Returned [Some 1].
Proof. vm_compute. reflexivity. Qed.

(** C1 (the code breaks the claim).  With a titel and a rating the query is
    not the conjunction of both filters: the statement on rating calls
    [where], which overrides the condition on the title.  For
    { titel: 'z', rating: 3 } the one condition left is rating >= 3, and
    Alpha is returned although its title does not contain z. *)
Theorem build_rating_overrides_titel :
  let o := [("titel", JsStr "z"); ("rating", JsNum (Fin 3))] in
  wheres (build Corpus.config o Corpus.unpaged)
    = [rating_clause (JsNum (Fin 3))] /\
  Corpus.found
    (SerieReadService.find Corpus.config (Some o) Corpus.unpaged Corpus.world)
    = Returned [Some 1] /\
  eval_clause Corpus.alpha Corpus.alpha_titel
              (titel_clause Corpus.config "z") = false.
Proof. vm_compute. repeat split. Qed.

(** In general: once rating is a number or preis a string, no condition on
    the title is left in the query. *)
Lemma no_titel_condition_after_where cfg o pageable :
  (exists q, prop o "rating" = JsNum (Fin q)) \/
  is_string (prop o "preis") = true ->
  Forall (fun c => on_titel c = false) (wheres (build cfg o pageable)).
Proof.
  intros H. rewrite wheres_build, wheres_filters.
  apply Forall_app. split; [|apply Forall_app; split].
  - unfold leading. destruct (prop o "preis") as [| |b|n|p] eqn:Ep;
      try (destruct H as [[q Hq]|H]; [|discriminate H];
           rewrite Hq; repeat constructor).
    repeat constructor.
  - unfold flag_clauses.
    repeat (apply Forall_app; split);
      match goal with |- context [if ?b then _ else _] => destruct b end;
      repeat constructor.
  - unfold rest_clauses. apply Forall_forall. intros c Hc.
    apply in_map_iff in Hc. destruct Hc as (kv & <- & _). reflexivity.
Qed.

Lemma restProps_not_preis (o : Suchkriterien) (kv : string * JsValue) :
  In kv (restProps o) -> String.eqb (fst kv) "preis" = false.
Proof.
  unfold restProps. rewrite filter_In. intros [_ H].
  destruct (String.eqb (fst kv) "preis") eqn:E; [|reflexivity].
  apply String.eqb_eq in E. rewrite E in H. discriminate H.
Qed.

Lemma flag_clauses_not_on_preis (o : Suchkriterien) :
  Forall (fun c => on_preis c = false) (flag_clauses o).
Proof.
  unfold flag_clauses.
  repeat (apply Forall_app; split);
    match goal with |- context [if ?b then _ else _] => destruct b end;
    repeat constructor.
Qed.

Lemma rest_clauses_not_on_preis (o : Suchkriterien) :
  Forall (fun c => on_preis c = false) (rest_clauses o).
Proof.
  unfold rest_clauses. apply Forall_forall. intros c Hc.
  apply in_map_iff in Hc. destruct Hc as (kv & <- & Hkv).
  unfold on_preis, equal_clause. simpl.
  now apply restProps_not_preis in Hkv.
Qed.

(** A statement with a condition on preis whose number is NaN is not
    accepted by the store. *)
Lemma preis_NaN_not_ok : clause_ok (preis_clause NaN) = false.
Proof. reflexivity. Qed.

(** C10 (as amended).  A condition on preis is added only for a preis that
    is a string: when preis is not a string, no condition of the query is
    on the column preis.  When preis is a string that is no number, the
    condition compares the column with the text NaN, which the store does
    not take for a number: the query is rejected and returns no row. *)
Theorem build_preis_only_for_strings
        (cfg : Config) (o : Suchkriterien) (pageable : Pageable) :
  (is_string (prop o "preis") = false ->
   Forall (fun c => on_preis c = false) (wheres (build cfg o pageable))) /\
  (forall p,
      prop o "preis" = JsStr p ->
      Number p = NaN ->
      In (preis_clause NaN) (wheres (build cfg o pageable)) /\
      forall w,
        Repository.getMany (build cfg o pageable) w =
          (Threw (QueryFailedError InvalidStatement),
           sent (Select (build cfg o pageable)) w)).
Proof.
  rewrite wheres_build, wheres_filters. split.
  - intros Hs. apply Forall_app. split.
    + destruct (leading_cases cfg o) as [E|[[t E]|[[r E]|(p & Hp & _)]]];
        try rewrite E; repeat constructor.
      rewrite Hp in Hs. discriminate Hs.
    + apply Forall_app. split;
        [apply flag_clauses_not_on_preis | apply rest_clauses_not_on_preis].
  - intros p Hp Hn.
    assert (Hin : In (preis_clause NaN)
                     (wheres (fst (leading cfg o)) ++
                      flag_clauses o ++ rest_clauses o)).
    { rewrite (leading_preis cfg o p Hp), Hn. now left. }
    split; [exact Hin|].
    intros w. rewrite getMany_run.
    rewrite (selected_rejects (db w) (build cfg o pageable)
                              (preis_clause NaN)).
    + reflexivity.
    + now rewrite wheres_build, wheres_filters.
    + apply preis_NaN_not_ok.
Qed.

(** C10, the claim as stated fails: for { preis: 'abc' } the query does not
    return an empty result, it is rejected by the store. *)
Lemma preis_abc_is_rejected :
  Number "abc" = NaN /\
  fst (Repository.getMany
         (build Corpus.config [("preis", JsStr "abc")] Corpus.unpaged)
         Corpus.world)
  = Threw (QueryFailedError InvalidStatement) /\
  fst (Repository.getMany
         (build Corpus.config [("preis", JsStr "abc")] Corpus.unpaged)
         Corpus.world)
  <> Returned [].
Proof. vm_compute. repeat split. discriminate. Qed.

Lemma build_preis_only_for_strings_witness :
  (is_string (prop [("preis", JsNum (Fin 20))] "preis") = false /\
   Forall (fun c => on_preis c = false)
          (wheres (build Corpus.config [("preis", JsNum (Fin 20))]
                         Corpus.unpaged))) /\
  (prop [("preis", JsStr "abc")] "preis" = JsStr "abc" /\
   Number "abc" = NaN /\
   In (preis_clause NaN)
      (wheres (build Corpus.config [("preis", JsStr "abc")]
                     Corpus.unpaged))).
Proof.
  split.
  - split; [reflexivity|].
    apply (build_preis_only_for_strings Corpus.config
             [("preis", JsNum (Fin 20))] Corpus.unpaged).
    reflexivity.
  - split; [reflexivity|]. split; [reflexivity|].
    apply (proj2 (build_preis_only_for_strings Corpus.config
                    [("preis", JsStr "abc")] Corpus.unpaged) "abc");
      reflexivity.
Defined.

End Filters.

(* ================================================================== *)
(** * QueryBuilder.build: the keyword java *)
(* ================================================================== *)

Section Java.

Import QueryBuilder.

Lemma eval_java_clause (s : SerieRow) (t : TitelRow) :
  eval_clause s t java_clause =
    match r_schlagwoerter s with
    | Some x => like "%JAVA%" (replace x "JAVASCRIPT" "")
    | None => false
    end.
Proof.
  unfold eval_clause, java_clause. simpl.
  destruct (r_schlagwoerter s); reflexivity.
Qed.

Lemma java_clause_in_build cfg o pageable :
  is_true (prop o "java") = true ->
  In java_clause (wheres (build cfg o pageable)).
Proof.
  intros H. rewrite wheres_build, wheres_filters.
  apply in_or_app. right. apply in_or_app. left.
  unfold flag_clauses. rewrite H.
  apply in_or_app. right. apply in_or_app. right.
  apply in_or_app. left. now left.
Qed.

Lemma java_alone cfg n :
  let q := build cfg [("java", JsStr "true")] (mkPageable n (Some 0)) in
  wheres q = [java_clause] /\ take_ q = None /\ skip_ q = None.
Proof. repeat split. Qed.

(** C7.  When the shortcut java is set, the query has the condition that
    first removes JAVASCRIPT from the stored keywords and then asks for
    JAVA, whatever else the filter object holds.  So no series that [find]
    returns is tagged with JAVASCRIPT only; a stored series that has the
    tag JAVA, with JAVASCRIPT or any other tag next to it, meets the
    condition and is returned by the search for java alone. *)
Theorem java_strips_javascript
        (cfg : Config) (o : Suchkriterien) (pageable : Pageable) :
  is_true (prop o "java") = true ->
  In java_clause (wheres (build cfg o pageable)) /\
  (forall w sl w' serie,
      SerieReadService.find cfg (Some o) pageable w = (Returned sl, w') ->
      In serie (SerieReadService.content sl) ->
      Serie.schlagwoerter serie <> Value ["JAVASCRIPT"%string]) /\
  (forall s t tags,
      In "JAVA"%string tags ->
      r_schlagwoerter s = Some (simpleArrayToString tags) ->
      eval_clause s t java_clause = true /\
      forall w n,
        In (s, t) (joined (serie_table (db w)) (titel_table (db w))) ->
        let q := build cfg [("java", JsStr "true")] (mkPageable n (Some 0)) in
        exists sl w',
          SerieReadService.find cfg (Some [("java", JsStr "true")])
                                (mkPageable n (Some 0)) w
          = (Returned sl, w') /\
          In (SerieReadService.null_to_empty (serie_of_row (db w) q (s, t)))
             (SerieReadService.content sl)).
Proof.
  intros Hjava. split; [now apply java_clause_in_build|]. split.
  - intros w sl w' serie Hfind Hin Htag.
    apply find_returned in Hfind. cbn [effective] in Hfind.
    destruct Hfind as (rows & Hsel & Hc).
    rewrite Hc in Hin. rewrite map_map in Hin.
    apply in_map_iff in Hin. destruct Hin as (st & <- & Hst).
    apply paged_In in Hst.
    apply (selected_In _ _ _ st Hsel) in Hst. destruct Hst as [_ Hall].
    specialize (Hall java_clause (java_clause_in_build cfg o pageable Hjava)).
    rewrite presented_schlagwoerter in Htag. injection Htag as Htag.
    rewrite eval_java_clause in Hall.
    destruct (r_schlagwoerter (fst st)) as [[|c x]|]; try discriminate.
    apply split_single in Htag. rewrite Htag in Hall. discriminate Hall.
  - intros s t tags Htags Hstored.
    assert (Heval : eval_clause s t java_clause = true).
    { rewrite eval_java_clause, Hstored.
      destruct (join_with_JAVA tags Htags) as (before & after & -> & Ha).
      now apply replace_keeps_JAVA. }
    split; [exact Heval|].
    intros w n Hin q.
    destruct (java_alone cfg n) as (Hw & Ht & Hs). fold q in Hw, Ht, Hs.
    rewrite find_search; [|discriminate|reflexivity|reflexivity].
    fold q.
    assert (Hsel : exists rows, selected (db w) q = Some rows /\
                                In (s, t) rows).
    { unfold selected. rewrite Hw. cbn [forallb]. 
      replace (clause_ok java_clause) with true by reflexivity.
      eexists. split; [reflexivity|].
      apply filter_In. split; [exact Hin|].
      cbn [forallb fst snd]. now rewrite Heval. }
    destruct Hsel as (rows & Hsel & Hrow).
    assert (Hp : paged q rows = rows) by now apply paged_all.
    destruct (search_all q
                (NotFoundException
                   (KeineBuecherGefunden [("java", JsStr "true")] n))
                w rows Hsel (paging_ok_all q Ht Hs))
      as (sl & w' & Hrun & Hc).
    { rewrite Hp. intros E. rewrite E in Hrow. destruct Hrow. }
    exists sl, w'. split; [exact Hrun|].
    rewrite Hc, Hp, map_map. apply in_map_iff. now exists (s, t).
Qed.

Lemma java_strips_javascript_witness :
  is_true (prop [("java", JsStr "true"); ("rating", JsStr "1")] "java")
  = true /\
  In java_clause
     (wheres (build Corpus.config
                    [("java", JsStr "true"); ("rating", JsStr "1")]
                    Corpus.unpaged)) /\
  eval_clause Corpus.alpha Corpus.alpha_titel java_clause = true.
Proof.
  split; [reflexivity|].
  destruct (java_strips_javascript Corpus.config
              [("java", JsStr "true"); ("rating", JsStr "1")]
              Corpus.unpaged eq_refl) as (H1 & _ & H3).
  split; [exact H1|].
  apply (H3 Corpus.alpha Corpus.alpha_titel
            ["JAVASCRIPT"%string; "JAVA"%string]).
  - right. now left.
  - reflexivity.
Defined.

(** On the corpus: Alpha has JAVASCRIPT and JAVA, Zeta JAVASCRIPT only. *)
Example scenario_java :
  Corpus.found
    (SerieReadService.find Corpus.config (Some [("java", JsStr "true")])
                           Corpus.unpaged Corpus.world)
  = Returned [Some 1].
Proof. vm_compute. reflexivity. Qed.

End Java.

(* ================================================================== *)
(** * SerieReadService.findById *)
(* ================================================================== *)

Section FindById.

Import QueryBuilder.

Lemma selected_buildId (d : Db) (i : Z) (c : bool) :
  selected d (buildId (mkBuildIdParams i c)) =
    Some (with_id i (joined (serie_table d) (titel_table d))).
Proof.
  unfold selected, with_id.
  replace (wheres (buildId (mkBuildIdParams i c)))
    with [CCompare (EColumn serieAlias "id") Equal (OParam (Serie.int i))]
    by (destruct c; reflexivity).
  cbn [forallb]. replace (clause_ok _) with true by reflexivity.
  cbn [andb]. f_equal. apply filter_ext. intros [s t].
  cbn [fst snd]. rewrite andb_true_r.
  unfold eval_clause, operand_value, param_value, Serie.int.
  cbn. unfold Qeq_bool. cbn. now rewrite !Z.mul_1_r.
Qed.

Lemma findById_run (p : SerieReadService.FindByIdParams) (w : World) :
  SerieReadService.findById p w =
    (match head (with_id (SerieReadService.id p)
                         (joined (serie_table (db w)) (titel_table (db w))))
     with
     | Some st =>
         Returned (SerieReadService.null_to_empty
                     (serie_of_row (db w) (by_id p) st))
     | None =>
         Threw (NotFoundException
                  (KeineSerieMitId (Some (SerieReadService.id p))))
     end,
     sent (Select (by_id p)) w).
Proof.
  unfold SerieReadService.findById, bind. fold (by_id p).
  rewrite getOne_run. unfold by_id at 1. rewrite selected_buildId.
  destruct (head _); reflexivity.
Qed.

Lemma with_id_In (i : Z) rows st :
  In st (with_id i rows) -> In st rows /\ r_id (fst st) = i.
Proof.
  unfold with_id. rewrite filter_In. intros [H E].
  split; [exact H | now apply Z.eqb_eq].
Qed.

Lemma head_In {A} (l : list A) (x : A) : head l = Some x -> In x l.
Proof. destruct l; simpl; [discriminate | intros [= ->]; now left]. Qed.

(** The first row with the id, with its title, is what the query finds. *)
Lemma head_with_id (i : Z) (series : list SerieRow) (titels : list TitelRow)
      (s : SerieRow) (t : TitelRow) :
  find (fun r => r_id r =? i) series = Some s ->
  find (fun x => t_serie_id x =? i) titels = Some t ->
  head (with_id i (joined series titels)) = Some (s, t).
Proof.
  intros Hs Ht. induction series as [|a series IH]; [discriminate Hs|].
  simpl in Hs. simpl joined. destruct (r_id a =? i) eqn:E.
  - injection Hs as ->. apply Z.eqb_eq in E. rewrite E, Ht.
    unfold with_id. simpl. rewrite E, Z.eqb_refl. reflexivity.
  - destruct (find (fun x => t_serie_id x =? r_id a) titels).
    + unfold with_id. simpl. rewrite E. now apply IH.
    + now apply IH.
Qed.

Lemma with_id_absent (i : Z) (series : list SerieRow) titels :
  (forall s, In s series -> r_id s <> i) ->
  with_id i (joined series titels) = [].
Proof.
  intros H. destruct (with_id i (joined series titels)) as [|st l] eqn:E;
    [reflexivity|].
  assert (Hin : In st (with_id i (joined series titels)))
    by (rewrite E; now left).
  apply with_id_In in Hin. destruct Hin as [Hj Hi].
  apply joined_In in Hj. destruct Hj as [Hs _].
  now destruct (H _ Hs).
Qed.

(** C9.  The record [findById] returns never has null or undefined for its
    keywords: it carries the stored ones, and the empty list when none are
    stored.  A stored series with its title is found.  The same holds for
    every series in the content of a result of [find]. *)
Theorem schlagwoerter_never_null :
  (forall p w serie w',
      SerieReadService.findById p w = (Returned serie, w') ->
      exists s,
        In s (serie_table (db w)) /\
        r_id s = SerieReadService.id p /\
        Serie.schlagwoerter serie = Value (presented (r_schlagwoerter s)) /\
        (r_schlagwoerter s = None -> Serie.schlagwoerter serie = Value [])) /\
  (forall p w s t,
      find (fun r => r_id r =? SerieReadService.id p) (serie_table (db w))
      = Some s ->
      find (fun x => t_serie_id x =? SerieReadService.id p)
           (titel_table (db w)) = Some t ->
      exists serie w',
        SerieReadService.findById p w = (Returned serie, w') /\
        Serie.schlagwoerter serie = Value (presented (r_schlagwoerter s))) /\
  (forall cfg o pageable w sl w' serie,
      SerieReadService.find cfg o pageable w = (Returned sl, w') ->
      In serie (SerieReadService.content sl) ->
      exists s,
        In s (serie_table (db w)) /\
        Serie.schlagwoerter serie = Value (presented (r_schlagwoerter s))).
Proof.
  split; [|split].
  - intros p w serie w' H. rewrite findById_run in H.
    destruct (head _) as [st|] eqn:E; [|discriminate H].
    injection H as <- _. apply head_In, with_id_In in E.
    destruct E as [Hj Hi]. apply joined_In in Hj. destruct Hj as [Hs _].
    exists (fst st). rewrite presented_schlagwoerter.
    repeat split; auto. now intros ->.
  - intros p w s t Hs Ht. rewrite findById_run.
    rewrite (head_with_id _ _ _ s t Hs Ht).
    eexists _, _. split; [reflexivity|].
    now rewrite presented_schlagwoerter.
  - intros cfg o pageable w sl w' serie H Hin.
    apply find_returned in H. destruct H as (rows & Hsel & Hc).
    rewrite Hc, map_map in Hin. apply in_map_iff in Hin.
    destruct Hin as (st & <- & Hst). apply paged_In in Hst.
    apply (selected_In _ _ _ st Hsel) in Hst. destruct Hst as [Hj _].
    apply joined_In in Hj. destruct Hj as [Hs _].
    exists (fst st). split; [exact Hs|].
    now rewrite presented_schlagwoerter.
Qed.

Lemma schlagwoerter_never_null_witness :
  exists serie w',
    SerieReadService.findById (SerieReadService.mkFindByIdParams 3 [])
                              Corpus.plain_world = (Returned serie, w') /\
    Serie.schlagwoerter serie = Value [].
Proof.
  destruct (proj1 (proj2 schlagwoerter_never_null)
              (SerieReadService.mkFindByIdParams 3 []) Corpus.plain_world
              Corpus.plain (mkTitelRow 12 "Gamma" None 3) eq_refl eq_refl)
    as (serie & w' & H & E).
  exists serie, w'. split; [exact H | exact E].
Defined.

End FindById.

(* ================================================================== *)
(** * SerieWriteService.delete *)
(* ================================================================== *)

Section Delete.

Lemma null_to_empty_titel (x : Serie.t) :
  Serie.titel (SerieReadService.null_to_empty x) = Serie.titel x.
Proof.
  unfold SerieReadService.null_to_empty.
  destruct (Serie.schlagwoerter x); reflexivity.
Qed.

Example delete_loads_no_covers (i : Z) :
  leftJoinCovers (by_id (delete_params i)) = false.
Proof. reflexivity. Qed.

(** No Serie object has a property abbildungen. *)
Example abbildungen_undefined (serie : Serie.t) :
  Serie.get serie "abbildungen" = Serie.PValue JsUndefined.
Proof. reflexivity. Qed.

(** C4 (the code breaks the claim).  For an id without stored series,
    [delete] does not return false: [findById], which it calls first, throws
    NotFoundException, and nothing else is sent to the store. *)
Theorem delete_absent_throws (i : Z) (w : World) :
  (forall s, In s (serie_table (db w)) -> r_id s <> i) ->
  SerieWriteService.delete i w =
    (Threw (NotFoundException (KeineSerieMitId (Some i))),
     sent (Select (by_id (delete_params i))) w).
Proof.
  intros H. unfold SerieWriteService.delete, bind.
  fold (delete_params i). rewrite findById_run.
  cbn [SerieReadService.id delete_params].
  now rewrite (with_id_absent i _ _ H).
Qed.

Lemma delete_absent_throws_witness :
  fst (SerieWriteService.delete 3 Corpus.world) =
    Threw (NotFoundException (KeineSerieMitId (Some 3))).
Proof.
  rewrite (delete_absent_throws 3 Corpus.world).
  - reflexivity.
  - intros s [<-|[<-|[]]]; discriminate.
Defined.

(** Deleting Zeta twice: true, then NotFoundException. *)
Example delete_twice :
  let first := SerieWriteService.delete 2 Corpus.world in
  fst first = Returned true /\
  fst (SerieWriteService.delete 2 (snd first)) =
    Threw (NotFoundException (KeineSerieMitId (Some 2))).
Proof. vm_compute. split; reflexivity. Qed.

(** A series without cover: its title goes first, then the series. *)
Example delete_without_cover :
  let r := SerieWriteService.delete 2 Corpus.world in
  fst r = Returned true /\
  serie_table (db (snd r)) = [Corpus.alpha] /\
  titel_table (db (snd r)) = [Corpus.alpha_titel] /\
  journal (snd r) =
    [ Select (by_id (delete_params 2)); StartTransaction;
      DeleteFrom TTitel 11; DeleteFrom TSerie 2; Commit ].
Proof. vm_compute. repeat split. Qed.

(** C5 (the code breaks the claim).  [delete] never removes a row of cover:
    the covers are not loaded and the property read is abbildungen, which
    no Serie has, so the loop runs over the empty list.  For Alpha, which
    has a cover, the DELETE of the series is refused because the cover
    still references it, the transaction is rolled back and everything is
    still stored. *)
Theorem delete_keeps_covers :
  (forall i w,
      cover_table (db (snd (SerieWriteService.delete i w)))
      = cover_table (db w)) /\
  (let r := SerieWriteService.delete 1 Corpus.world in
   fst r = Threw (QueryFailedError ForeignKeyViolation) /\
   db (snd r) = Corpus.store /\
   journal (snd r) =
     [ Select (by_id (delete_params 1)); StartTransaction;
       DeleteFrom TTitel 10; DeleteFrom TSerie 1; Rollback ]).
Proof.
  split.
  - intros i w. unfold SerieWriteService.delete, bind.
    rewrite findById_run. cbn [SerieReadService.id].
    destruct (head _) as [st|]; [|reflexivity].
    unfold Repository.transaction. rewrite null_to_empty_titel.
    cbn -[Z.eqb existsb filter Z.ltb Repository.count_removed].
    destruct (existsb _ _ && _); reflexivity.
  - vm_compute. repeat split.
Qed.

End Delete.

(* ================================================================== *)
(** * SerieWriteService.update: the version token *)
(* ================================================================== *)

Section VersionToken.

Lemma is_dquote_eq (c : ascii) : is_dquote c = true -> c = dquote.
Proof.
  unfold is_dquote, code. intros H. apply Z.eqb_eq in H.
  rewrite <- (ascii_N_embedding c).
  replace (N_of_ascii c) with 34%N by lia. reflexivity.
Qed.

Lemma is_digit_digit_of (c : ascii) :
  is_digit c = true -> digit_of 10 c = Some (code c - 48).
Proof.
  unfold is_digit, digit_of. intros H. cbv zeta. rewrite H.
  apply andb_prop in H. destruct H as [H1 H2].
  apply Z.leb_le in H1, H2.
  destruct (code c - 48 <? 10) eqn:E; [reflexivity|].
  apply Z.ltb_ge in E. lia.
Qed.

Lemma is_digit_not_space (c : ascii) : is_digit c = true -> is_space c = false.
Proof.
  unfold is_digit, is_space. intros H.
  apply andb_prop in H. destruct H as [H1 H2]. apply Z.leb_le in H1, H2.
  apply orb_false_intro.
  - apply andb_false_intro2. apply Z.leb_gt. lia.
  - apply Z.eqb_neq. lia.
Qed.

Lemma is_digit_no_sign (c : ascii) (r : string) :
  is_digit c = true -> read_sign (String c r) = (false, String c r).
Proof.
  unfold is_digit, read_sign. intros H.
  apply andb_prop in H. destruct H as [H1 H2]. apply Z.leb_le in H1, H2.
  replace (code c =? 45) with false by (symmetry; apply Z.eqb_neq; lia).
  replace (code c =? 43) with false by (symmetry; apply Z.eqb_neq; lia).
  reflexivity.
Qed.

Lemma read_digits_decimal (ds rest : string) (acc : Z) (n : nat) :
  all_digits ds = true ->
  match rest with
  | String c _ => digit_of 10 c = None
  | EmptyString => True
  end ->
  read_digits 10 (ds ++ rest) acc n =
    (decimal acc ds, (n + String.length ds)%nat, rest).
Proof.
  revert acc n. induction ds as [|c ds IH]; intros acc n Hd Hr.
  - simpl. rewrite Nat.add_0_r.
    destruct rest as [|c r]; [reflexivity|]. simpl. now rewrite Hr.
  - simpl in Hd. apply andb_prop in Hd. destruct Hd as [Hc Hd].
    simpl. rewrite (is_digit_digit_of c Hc), IH by assumption.
    now rewrite Nat.add_succ_r.
Qed.

(** [parseInt(s, 10)] reads the decimal digits [s] starts with. *)
Lemma parseInt_digits (ds rest : string) :
  ds <> ""%string ->
  all_digits ds = true ->
  match rest with
  | String c _ => digit_of 10 c = None
  | EmptyString => True
  end ->
  parseInt (ds ++ rest) (Some 10) = Fin (inject_Z (decimal 0 ds)).
Proof.
  intros N Hd Hrest. destruct ds as [|c r]; [now destruct N|].
  pose proof Hd as Hc. simpl in Hc. apply andb_prop in Hc.
  destruct Hc as [Hc _].
  pose proof (read_digits_decimal (String c r) rest 0 0 Hd Hrest) as R.
  unfold parseInt. cbn [append] in *.
  replace (skip_spaces (String c (r ++ rest)))
    with (String c (r ++ rest))
    by (simpl; now rewrite (is_digit_not_space c Hc)).
  rewrite (is_digit_no_sign c _ Hc).
  destruct (r ++ rest)%string as [|x tail];
    cbv beta iota zeta; cbn [negb Z.eqb Z.ltb andb orb];
    change ((10 <? 2) || (36 <? 10)) with false; cbv iota;
    try change ((10 =? 16)%positive && (code c =? 48) && is_x x) with false;
    cbv iota; rewrite R; reflexivity.
Qed.

Lemma string_length_app (a b : string) :
  String.length (a ++ b) = (String.length a + String.length b)%nat.
Proof. induction a as [|c a IH]; simpl; [reflexivity | now rewrite IH]. Qed.

Lemma substring_app (a b : string) (k : nat) :
  substring 0 (String.length a + k) (a ++ b) = (a ++ substring 0 k b)%string.
Proof.
  induction a as [|c a IH]; simpl; [reflexivity | now rewrite IH].
Qed.

(** [slice(1, -1)] of an accepted token: the digits between the quotes,
    and then nothing or the closing quote with what follows it, less the
    last character. *)
Lemma slice_version_token (ds rest : string) :
  slice (version_token ds ++ rest) 1 (-1) =
    (ds ++ substring 0 (String.length rest) (String dquote rest))%string.
Proof.
  unfold slice, version_token. cbn [append].
  rewrite string_app_assoc. cbn [append String.length].
  rewrite string_length_app. cbn [String.length].
  set (n := (String.length ds + S (String.length rest))%nat).
  assert (Hn : Z.of_nat (S n) =
               Z.of_nat (String.length ds + String.length rest) + 2)
    by (unfold n; lia).
  replace (1 <? 0) with false by reflexivity.
  replace (-1 <? 0) with true by reflexivity.
  replace (Z.min 1 (Z.of_nat (S n))) with 1 by lia.
  replace (Z.max (Z.of_nat (S n) + -1) 0)
    with (Z.of_nat (String.length ds + String.length rest) + 1) by lia.
  replace (Z.to_nat 1) with 1%nat by reflexivity.
  replace (Z.to_nat (Z.of_nat (String.length ds + String.length rest)
                     + 1 - 1))
    with (String.length ds + String.length rest)%nat by lia.
  cbn [substring]. apply substring_app.
Qed.

(** The number [#validateUpdate] reads from an accepted token is the one
    between its quotes. *)
Lemma supplied_version (ds rest : string) :
  short_digits ds = true ->
  parseInt (slice (version_token ds ++ rest) 1 (-1)) (Some 10) =
    Fin (inject_Z (decimal 0 ds)).
Proof.
  intros H. unfold short_digits in H.
  rewrite !andb_true_iff, !Nat.leb_le in H. destruct H as [[Hd Hl] _].
  rewrite slice_version_token. apply parseInt_digits.
  - intros ->. simpl in Hl. lia.
  - exact Hd.
  - destruct rest as [|c rest]; [exact I | reflexivity].
Qed.

Lemma digits_then_quote_accepts (n : nat) (ds rest : string) :
  all_digits ds = true ->
  (1 <= String.length ds <= n)%nat ->
  SerieWriteService.digits_then_quote n (ds ++ String dquote rest) = true.
Proof.
  revert ds. induction n as [|n IH]; intros ds Hd Hl; [lia|].
  destruct ds as [|c ds]; [simpl in Hl; lia|].
  simpl in Hd. apply andb_prop in Hd. destruct Hd as [Hc Hd].
  simpl. rewrite Hc. simpl.
  destruct ds as [|c' ds].
  - reflexivity.
  - rewrite IH; [apply orb_true_r | exact Hd | simpl in *; lia].
Qed.

Lemma digits_then_quote_shape (n : nat) (s : string) :
  SerieWriteService.digits_then_quote n s = true ->
  exists ds rest,
    s = (ds ++ String dquote rest)%string /\
    all_digits ds = true /\ (1 <= String.length ds <= n)%nat.
Proof.
  revert s. induction n as [|n IH]; intros s H; [discriminate H|].
  destruct s as [|c s]; [discriminate H|].
  simpl in H. apply andb_prop in H. destruct H as [Hc H].
  apply orb_prop in H. destruct H as [H|H].
  - destruct s as [|q s]; [discriminate H|].
    apply is_dquote_eq in H. subst q.
    exists (String c ""), s. simpl. rewrite Hc. repeat split; lia.
  - apply IH in H. destruct H as (ds & rest & -> & Hd & Hl).
    exists (String c ds), rest. simpl. rewrite Hc, Hd. repeat split; lia.
Qed.

Lemma short_digits_spec (ds : string) :
  short_digits ds = true <->
  all_digits ds = true /\ (1 <= String.length ds <= 3)%nat.
Proof.
  unfold short_digits. rewrite !andb_true_iff, !Nat.leb_le. tauto.
Qed.

(** The pattern accepts exactly the strings that start with a double
    quote, one to three digits and a double quote. *)
Lemma VERSION_PATTERN_shape (s : string) :
  SerieWriteService.VERSION_PATTERN_test s = true <->
  exists ds rest,
    short_digits ds = true /\ s = (version_token ds ++ rest)%string.
Proof.
  split.
  - destruct s as [|q s]; [discriminate|].
    unfold SerieWriteService.VERSION_PATTERN_test. intros H.
    apply andb_prop in H. destruct H as [Hq H].
    apply is_dquote_eq in Hq. subst q.
    apply digits_then_quote_shape in H.
    destruct H as (ds & rest & -> & Hd & Hl).
    exists ds, rest. split; [now apply short_digits_spec|].
    unfold version_token. cbn [append]. now rewrite string_app_assoc.
  - intros (ds & rest & Hd & ->). apply short_digits_spec in Hd.
    destruct Hd as [Hd Hl]. unfold version_token. cbn [append].
    rewrite string_app_assoc. cbn [append].
    unfold SerieWriteService.VERSION_PATTERN_test.
    replace (is_dquote dquote) with true by reflexivity. cbn [andb].
    now apply digits_then_quote_accepts.
Qed.

Lemma accepted_token (ds rest : string) :
  short_digits ds = true ->
  SerieWriteService.VERSION_PATTERN_test (version_token ds ++ rest) = true.
Proof.
  intros H. apply VERSION_PATTERN_shape. now exists ds, rest.
Qed.

Lemma version_token_accepted (ds : string) :
  short_digits ds = true ->
  SerieWriteService.VERSION_PATTERN_test (version_token ds) = true.
Proof.
  intros H. rewrite <- (string_app_nil_r (version_token ds)).
  now apply accepted_token.
Qed.

End VersionToken.

(* ================================================================== *)
(** * SerieWriteService.update *)
(* ================================================================== *)

Section Update.

Lemma null_to_empty_version (x : Serie.t) :
  Serie.version (SerieReadService.null_to_empty x) = Serie.version x.
Proof.
  unfold SerieReadService.null_to_empty.
  destruct (Serie.schlagwoerter x); reflexivity.
Qed.

Lemma null_to_empty_id (x : Serie.t) :
  Serie.id (SerieReadService.null_to_empty x) = Serie.id x.
Proof.
  unfold SerieReadService.null_to_empty.
  destruct (Serie.schlagwoerter x); reflexivity.
Qed.


(** The spec's scenario on a series stored at version 2: the token "1" is
    outdated, "2" gives version 3, and "2" once more is outdated. *)
Example scenario_versions :
  let call token :=
    SerieWriteService.update
      (SerieWriteService.mkUpdateParams (Some 1) Corpus.geaendert
                                        (version_token token)) in
  fst (call "1"%string Corpus.world)
  = Threw (VersionOutdatedException (Fin (inject_Z 1))) /\
  fst (call "2"%string Corpus.world) = Returned (Some 3) /\
  fst (call "2"%string (snd (call "2"%string Corpus.world)))
  = Threw (VersionOutdatedException (Fin (inject_Z 2))) /\
  fst (call "7"%string Corpus.world) = Returned (Some 3).
Proof. vm_compute. repeat split. Qed.

(** [save] throws nothing but the error of the store. *)
Lemma save_outcome (e : Serie.t) (w : World) :
  match fst (Repository.save e w) with
  | Threw x => x = QueryFailedError NotNullViolation
  | Returned _ => True
  end.
Proof.
  unfold Repository.save, bind, read_db.
  destruct (match Serie.id e with
            | Some i => find (fun r => r_id r =? i) (serie_table (db w))
            | None => None
            end) as [old|]; simpl.
  - destruct (Repository.changed old e); exact I.
  - destruct (Repository.inserted_row _ _ _); simpl; auto.
Qed.

Lemma update_accepted (i : Z) (payload : Serie.t) (tok : string) (w : World) :
  SerieWriteService.VERSION_PATTERN_test tok = true ->
  forall e,
    fst (SerieWriteService.update
           (SerieWriteService.mkUpdateParams (Some i) payload tok) w)
    <> Threw (VersionInvalidException e).
Proof.
  intros Hacc e. unfold SerieWriteService.update.
  cbn [SerieWriteService.id SerieWriteService.serie
       SerieWriteService.version].
  unfold SerieWriteService.validateUpdate. rewrite Hacc. cbn [negb].
  unfold bind at 1 2. rewrite findById_run.
  destruct (head _) as [st|]; [|discriminate].
  destruct (SerieWriteService.less_than _ _); [discriminate|].
  unfold ret at 1. unfold bind.
  match goal with
  | |- context [Repository.save ?m ?v] =>
      pose proof (save_outcome m v) as Hs;
      destruct (Repository.save m v) as [[x|x] w']
  end; simpl in *; [discriminate | now rewrite Hs].
Qed.

(** C6, the claim as stated fails: the token "1234" is a quoted decimal
    integer, and [update] throws VersionInvalidException for it. *)
Lemma long_version_token_rejected :
  quoted_decimal (version_token "1234") /\
  fst (SerieWriteService.update
         (SerieWriteService.mkUpdateParams (Some 1) Corpus.geaendert
                                           (version_token "1234"))
         Corpus.world)
  = Threw (VersionInvalidException (version_token "1234")).
Proof.
  split.
  - exists "1234"%string. repeat split. discriminate.
  - reflexivity.
Qed.

(** C6 (as amended).  A token of one to three decimal digits between double
    quotes is accepted: [update] does not throw VersionInvalidException for
    it.  A string that does not start with a double quote, one to three
    digits and a double quote is refused with VersionInvalidException
    before anything is read from the store. *)
Theorem version_token_checked (i : Z) (payload : Serie.t) (w : World) :
  (forall ds,
      short_digits ds = true ->
      forall e,
        fst (SerieWriteService.update
               (SerieWriteService.mkUpdateParams (Some i) payload
                                                 (version_token ds)) w)
        <> Threw (VersionInvalidException e)) /\
  (forall tok,
      (forall ds rest,
          short_digits ds = true ->
          tok <> (version_token ds ++ rest)%string) ->
      SerieWriteService.update
        (SerieWriteService.mkUpdateParams (Some i) payload tok) w
      = (Threw (VersionInvalidException tok), w)).
Proof.
  split.
  - intros ds Hds. apply update_accepted. now apply version_token_accepted.
  - intros tok Hshape.
    assert (Hrej : SerieWriteService.VERSION_PATTERN_test tok = false).
    { destruct (SerieWriteService.VERSION_PATTERN_test tok) eqn:E;
        [|reflexivity].
      apply VERSION_PATTERN_shape in E. destruct E as (ds & rest & Hds & ->).
      now destruct (Hshape ds rest Hds). }
    unfold SerieWriteService.update.
    cbn [SerieWriteService.id SerieWriteService.serie
         SerieWriteService.version].
    unfold SerieWriteService.validateUpdate. rewrite Hrej. reflexivity.
Qed.

Lemma version_token_checked_witness :
  short_digits "3" = true /\
  (forall e,
      fst (SerieWriteService.update
             (SerieWriteService.mkUpdateParams (Some 1) Corpus.geaendert
                                               (version_token "3"))
             Corpus.world)
      <> Threw (VersionInvalidException e)) /\
  SerieWriteService.update
    (SerieWriteService.mkUpdateParams (Some 1) Corpus.geaendert "abc")
    Corpus.world
  = (Threw (VersionInvalidException "abc"), Corpus.world).
Proof.
  split; [reflexivity|]. split.
  - apply (proj1 (version_token_checked 1 Corpus.geaendert Corpus.world)).
    reflexivity.
  - apply (proj2 (version_token_checked 1 Corpus.geaendert Corpus.world)).
    intros ds rest _. unfold version_token. cbn [append]. discriminate.
Defined.

End Update.

(* ================================================================== *)
(** * SerieWriteService.create *)
(* ================================================================== *)

Section Create.

(** [#validateCreate] takes the property isbn out of the Serie; the class
    declares seriennummer and no isbn, so what it reads is undefined. *)
Lemma isbn_undefined (serie : Serie.t) :
  Serie.get_value serie "isbn" = JsUndefined.
Proof. reflexivity. Qed.

(** An undefined value makes no condition: [existsBy] then asks whether
    there is any row at all. *)
Lemma existsBy_isbn_undefined (w : World) :
  Repository.existsBy [("isbn"%string, JsUndefined)] w =
    (Returned (match serie_table (db w) with [] => false | _ => true end),
     sent (SelectExists [("isbn"%string, JsUndefined)]) w).
Proof.
  unfold Repository.existsBy, bind, send, read_db, sent. simpl.
  destruct (serie_table (db w)); reflexivity.
Qed.

(** The check of [#validateCreate] does not depend on the serial number of
    the payload. *)
Lemma validateCreate_ignores_seriennummer (a b : Serie.t) (w : World) :
  SerieWriteService.validateCreate a w = SerieWriteService.validateCreate b w.
Proof. reflexivity. Qed.

(** C8 (the code breaks the claim).  The uniqueness check is not on the
    serial number: SER-000009 is the serial number of no stored series, yet
    [create] throws IsbnExistsException for the payload before anything is
    written. *)
Theorem create_rejects_new_seriennummer :
  Serie.seriennummer Corpus.neu = Some "SER-000009"%string /\
  (forall s, In s (serie_table Corpus.store) ->
             r_seriennummer s <> "SER-000009"%string) /\
  SerieWriteService.create Corpus.neu Corpus.world =
    (Threw (IsbnExistsException JsUndefined),
     sent (SelectExists [("isbn"%string, JsUndefined)]) Corpus.world).
Proof.
  split; [reflexivity|]. split.
  - intros s [<-|[<-|[]]]; discriminate.
  - reflexivity.
Qed.

(** On an empty store the same payload is written. *)
Example create_on_empty_store :
  fst (SerieWriteService.create Corpus.neu
         (mkWorld (mkDb [] [] [] [] 1000 7) []))
  = Returned (Some 1000).
Proof. reflexivity. Qed.

End Create.

(* ================================================================== *)
(** * SerieReadService.find: the checks of the filter object *)
(* ================================================================== *)

Section Checks.

Lemma existsb_eqb_false (key : string) (l : list string) :
  ~ In key l -> existsb (String.eqb key) l = false.
Proof.
  intros H. destruct (existsb (String.eqb key) l) eqn:E; [|reflexivity].
  apply existsb_exists in E. destruct E as (x & Hx & Ex).
  apply String.eqb_eq in Ex. subst x. now destruct H.
Qed.

Lemma forallb_false {A} (f : A -> bool) (l : list A) (x : A) :
  In x l -> f x = false -> forallb f l = false.
Proof.
  intros Hin Hf. destruct (forallb f l) eqn:E; [|reflexivity].
  rewrite forallb_forall in E. rewrite (E x Hin) in Hf. discriminate Hf.
Qed.

Lemma checkKeys_unrecognized (keys : list string) (key : string) :
  In key keys -> ~ In key recognized ->
  SerieReadService.checkKeys keys = false.
Proof.
  intros Hin Hnot. unfold SerieReadService.checkKeys.
  apply (forallb_false _ _ key Hin).
  unfold recognized in Hnot.
  assert (H1 : ~ In key SerieReadService.serieProps)
    by (intros H; apply Hnot, in_or_app; now left).
  assert (H2 : ~ In key ["javascript"%string; "typescript"%string;
                         "java"%string; "python"%string])
    by (intros H; apply Hnot, in_or_app; now right).
  rewrite (existsb_eqb_false _ _ H1).
  apply existsb_eqb_false in H2. cbn [existsb] in H2.
  repeat (apply orb_false_elim in H2; destruct H2 as [? H2]).
  repeat match goal with
         | H : String.eqb _ _ = false |- _ => rewrite H; clear H
         end.
  reflexivity.
Qed.

Lemma checkEnums_invalid (o : Suchkriterien) :
  prop o "art" <> JsUndefined ->
  (forall a, In a ["STREAM"%string; "TV"%string; "DVD"%string] ->
             prop o "art" <> JsStr a) ->
  SerieReadService.checkEnums o = false.
Proof.
  intros Hdef Hout. unfold SerieReadService.checkEnums.
  destruct (prop o "art") as [| |b|n|a]; try reflexivity.
  - now destruct Hdef.
  - destruct (String.eqb_spec a "STREAM") as [->|_].
    { destruct (Hout "STREAM"%string); [now left | reflexivity]. }
    destruct (String.eqb_spec a "TV") as [->|_].
    { destruct (Hout "TV"%string); [right; now left | reflexivity]. }
    destruct (String.eqb_spec a "DVD") as [->|_].
    { destruct (Hout "DVD"%string); [right; right; now left | reflexivity]. }
    reflexivity.
Qed.

(** C2, the claim as stated fails: for { foo: 'bar' } the error thrown is a
    NotFoundException, the class thrown as well when a search finds
    nothing; no exception of the services is of the kind InvalidCriteria. *)
Lemma invalid_criteria_are_not_found :
  SerieReadService.find Corpus.config (Some [("foo"%string, JsStr "bar")])
                        Corpus.unpaged Corpus.world
  = (Threw (NotFoundException UngueltigeSuchkriterien), Corpus.world) /\
  kind (NotFoundException UngueltigeSuchkriterien) = NotFound /\
  kind (NotFoundException UngueltigeSuchkriterien) <> InvalidCriteria /\
  fst (SerieReadService.find Corpus.config
         (Some [("titel"%string, JsStr "xx")]) Corpus.unpaged Corpus.world)
  = Threw (NotFoundException
             (KeineBuecherGefunden [("titel"%string, JsStr "xx")] None)).
Proof.
  split; [reflexivity|]. split; [reflexivity|]. split; [discriminate|].
  vm_compute. reflexivity.
Qed.

(** C2 (as amended).  When the filter object has a key outside the
    recognized ones, or an art that is set and is none of STREAM, TV and DVD,
    [find] throws NotFoundException with the message for invalid criteria,
    whatever the other keys are, and nothing is sent to the store. *)
Theorem find_rejects_invalid_criteria
        (cfg : Config) (o : Suchkriterien) (pageable : Pageable) (w : World) :
  (exists key, In key (map fst o) /\ ~ In key recognized) \/
  (prop o "art" <> JsUndefined /\
   forall a, In a ["STREAM"%string; "TV"%string; "DVD"%string] ->
             prop o "art" <> JsStr a) ->
  SerieReadService.find cfg (Some o) pageable w =
    (Threw (NotFoundException UngueltigeSuchkriterien), w).
Proof.
  intros H.
  assert (Hne : map fst o <> []).
  { destruct H as [(key & Hin & _)|[Hdef _]].
    - intros E. rewrite E in Hin. destruct Hin.
    - intros E. destruct o; [now destruct Hdef | discriminate E]. }
  assert (Hchk : negb (SerieReadService.checkKeys (map fst o)) ||
                 negb (SerieReadService.checkEnums o) = true).
  { destruct H as [(key & Hin & Hnot)|[Hdef Hout]].
    - now rewrite (checkKeys_unrecognized _ key Hin Hnot).
    - rewrite (checkEnums_invalid o Hdef Hout). apply orb_true_r. }
  unfold SerieReadService.find.
  destruct (map fst o) as [|k ks]; [now destruct Hne|].
  now rewrite Hchk.
Qed.

Lemma find_rejects_invalid_criteria_witness :
  SerieReadService.find Corpus.config
    (Some [("titel"%string, JsStr "a"); ("foo"%string, JsStr "bar")])
    Corpus.unpaged Corpus.world
  = (Threw (NotFoundException UngueltigeSuchkriterien), Corpus.world) /\
  SerieReadService.find Corpus.config
    (Some [("art"%string, JsStr "UNSICHTBAR")])
    Corpus.unpaged Corpus.world
  = (Threw (NotFoundException UngueltigeSuchkriterien), Corpus.world).
Proof.
  split.
  - apply find_rejects_invalid_criteria. left. exists "foo"%string. split.
    + right. now left.
    + unfold recognized. simpl.
      intros H. repeat (destruct H as [H|H]; [discriminate H|]). exact H.
  - apply find_rejects_invalid_criteria. right. split.
    + discriminate.
    + intros a H. simpl in H.
      repeat (destruct H as [<-|H]; [discriminate|]). destruct H.
Defined.

End Checks.

(* ================================================================== *)
(** * SerieReadService.find: what it answers *)
(* ================================================================== *)

Section Find.

Import QueryBuilder.

(** What the end of [find] does, case by case. *)
Lemma search_run (q : SelectQueryBuilder) (e : Exception) (w : World) :
  search q e w =
    match selected (db w) q with
    | None => (Threw (QueryFailedError InvalidStatement), sent (Select q) w)
    | Some rows =>
        if paging_ok q then
          match paged q rows with
          | [] => (Threw e, sent (Select q) w)
          | _ :: _ =>
              (Returned
                 (SerieReadService.mkSlice
                    (presented_rows (db w) q (paged q rows))
                    (Z.of_nat (List.length rows))),
               sent (SelectCount q) (sent (Select q) w))
          end
        else (Threw (QueryFailedError InvalidStatement), sent (Select q) w)
    end.
Proof.
  unfold search, bind. rewrite getMany_run.
  destruct (selected (db w) q) as [rows|] eqn:E; [|reflexivity].
  destruct (paging_ok q); [|reflexivity].
  destruct (paged q rows) as [|r rs]; [reflexivity|].
  cbn [map]. rewrite getCount_run. cbn [db sent]. rewrite E. reflexivity.
Qed.

(** What [find] does, case by case. *)
Lemma find_run cfg (o : option Suchkriterien) pageable :
  SerieReadService.find cfg o pageable =
    match effective o with
    | [] => search (build cfg [] pageable)
                   (NotFoundException (UngueltigeSeite (number pageable)))
    | c =>
        if negb (SerieReadService.checkKeys (map fst c)) ||
           negb (SerieReadService.checkEnums c)
        then throw (NotFoundException UngueltigeSuchkriterien)
        else search (build cfg c pageable)
                    (NotFoundException
                       (KeineBuecherGefunden c (number pageable)))
    end.
Proof. destruct o as [[|kv c]|]; reflexivity. Qed.

Lemma forallb_false_exists {A} (f : A -> bool) (l : list A) :
  forallb f l = false -> exists x, In x l /\ f x = false.
Proof.
  induction l as [|a l IH]; simpl; [discriminate|].
  destruct (f a) eqn:E.
  - intros H. destruct (IH H) as (x & Hx & Fx). exists x. auto.
  - intros _. exists a. auto.
Qed.

Lemma recognized_key (key : string) :
  negb (negb (existsb (String.eqb key) SerieReadService.serieProps) &&
        negb (String.eqb key "javascript") &&
        negb (String.eqb key "typescript") &&
        negb (String.eqb key "java") &&
        negb (String.eqb key "python")) = true <->
  In key recognized.
Proof.
  unfold recognized. rewrite in_app_iff. split.
  - intros H.
    destruct (existsb (String.eqb key) SerieReadService.serieProps) eqn:E.
    { left. apply existsb_exists in E. destruct E as (x & Hx & Ex).
      apply String.eqb_eq in Ex. now subst x. }
    right. simpl in H.
    destruct (String.eqb_spec key "javascript") as [->|_]; [now left|].
    destruct (String.eqb_spec key "typescript") as [->|_];
      [right; now left|].
    destruct (String.eqb_spec key "java") as [->|_];
      [right; right; now left|].
    destruct (String.eqb_spec key "python") as [->|_];
      [right; right; right; now left|].
    discriminate H.
  - intros [H|H].
    + assert (E : existsb (String.eqb key) SerieReadService.serieProps
                  = true).
      { apply existsb_exists. exists key. split; [exact H|].
        apply String.eqb_refl. }
      now rewrite E.
    + destruct (existsb _ _); [reflexivity|].
      simpl in H.
      destruct H as [<-|[<-|[<-|[<-|[]]]]]; reflexivity.
Qed.

(** [#checkKeys] passes exactly the lists of recognized keys. *)
Lemma checkKeys_spec (keys : list string) :
  SerieReadService.checkKeys keys = true <->
  forall key, In key keys -> In key recognized.
Proof.
  unfold SerieReadService.checkKeys. rewrite forallb_forall.
  split; intros H key Hin; apply recognized_key; auto.
Qed.

(** [#checkEnums] passes when art is not set or is one of the three. *)
Lemma checkEnums_spec (c : Suchkriterien) :
  SerieReadService.checkEnums c = true <->
  prop c "art" = JsUndefined \/
  exists a, In a ["STREAM"%string; "TV"%string; "DVD"%string] /\
            prop c "art" = JsStr a.
Proof.
  unfold SerieReadService.checkEnums. split.
  - destruct (prop c "art") as [| |b|n|a]; try discriminate; [now left|].
    intros H. right. exists a. split; [|reflexivity].
    destruct (String.eqb a "STREAM") eqn:E1;
      [apply String.eqb_eq in E1; left; now rewrite E1|].
    destruct (String.eqb a "TV") eqn:E2;
      [apply String.eqb_eq in E2; right; left; now rewrite E2|].
    destruct (String.eqb a "DVD") eqn:E3;
      [apply String.eqb_eq in E3; right; right; left; now rewrite E3|discriminate H].
  - intros [->|(a & Ha & ->)]; [reflexivity|].
    destruct Ha as [E|[E|[E|[]]]]; subst a; reflexivity.
Qed.

Lemma checks_fail_iff (c : Suchkriterien) :
  negb (SerieReadService.checkKeys (map fst c)) ||
  negb (SerieReadService.checkEnums c) = true <->
  invalid_criteria c.
Proof.
  unfold invalid_criteria. split.
  - intros H. apply orb_prop in H. destruct H as [H|H].
    + left. apply negb_true_iff in H.
      apply forallb_false_exists in H. destruct H as (key & Hin & Hf).
      exists key. split; [exact Hin|].
      intros Hr. apply recognized_key in Hr. rewrite Hr in Hf.
      discriminate Hf.
    + right. apply negb_true_iff in H. split.
      * intros E. assert (T : SerieReadService.checkEnums c = true)
          by (apply checkEnums_spec; now left).
        rewrite T in H. discriminate H.
      * intros a Ha E.
        assert (T : SerieReadService.checkEnums c = true)
          by (apply checkEnums_spec; right; now exists a).
        rewrite T in H. discriminate H.
  - intros [(key & Hin & Hnot)|[Hdef Hout]].
    + now rewrite (checkKeys_unrecognized _ key Hin Hnot).
    + rewrite (checkEnums_invalid c Hdef Hout). apply orb_true_r.
Qed.

Lemma invalid_criteria_not_empty (c : Suchkriterien) :
  invalid_criteria c -> c <> [].
Proof.
  intros [(key & Hin & _)|[Hdef _]] ->; [destruct Hin | now destruct Hdef].
Qed.

(** X1.  [find] throws the exception for invalid criteria exactly when
    there is a filter object and it has a key that is not recognized or an art
    that is set and none of STREAM, TV and DVD; in every other case the
    query is run. *)
Theorem find_invalid_criteria_iff
        (cfg : Config) (o : option Suchkriterien) (pageable : Pageable)
        (w : World) :
  fst (SerieReadService.find cfg o pageable w)
  = Threw (NotFoundException UngueltigeSuchkriterien) <->
  exists c, o = Some c /\ invalid_criteria c.
Proof.
  rewrite find_run. split.
  - intros H.
    assert (Hs : forall q e,
               e <> NotFoundException UngueltigeSuchkriterien ->
               fst (search q e w)
               <> Threw (NotFoundException UngueltigeSuchkriterien)).
    { intros q e He. rewrite search_run.
      destruct (selected (db w) q) as [rows|]; [|discriminate].
      destruct (paging_ok q); [|discriminate].
      destruct (paged q rows); simpl; [|discriminate].
      intros [= E]. now destruct He. }
    destruct (effective o) as [|kv c] eqn:Eo.
    + now apply Hs in H.
    + cbv zeta in H.
      destruct (negb (SerieReadService.checkKeys (map fst (kv :: c))) ||
                negb (SerieReadService.checkEnums (kv :: c))) eqn:Chk.
      * apply checks_fail_iff in Chk.
        destruct o as [c'|]; [|discriminate Eo]. simpl in Eo. subst c'.
        now exists (kv :: c).
      * now apply Hs in H.
  - intros (c & -> & Hinv). cbn [effective].
    pose proof (invalid_criteria_not_empty c Hinv) as Hne.
    apply checks_fail_iff in Hinv.
    destruct c as [|kv c]; [now destruct Hne|]. now rewrite Hinv.
Qed.


Lemma where_or_and_shape (u : bool) (q : SelectQueryBuilder) (c : Clause) :
  joins_titel_only q -> joins_titel_only (where_or_and u q c).
Proof. intros H. destruct u; exact H. Qed.

Lemma fold_filter_rest_shape (l : Suchkriterien) (b : Building) :
  joins_titel_only (fst b) ->
  joins_titel_only (fst (fold_left filter_rest l b)).
Proof.
  revert b. induction l as [|kv l IH]; intros b H; [exact H|].
  simpl. apply IH. simpl. now apply where_or_and_shape.
Qed.

Lemma filter_schlagwort_shape flag c (b : Building) :
  joins_titel_only (fst b) ->
  joins_titel_only (fst (filter_schlagwort flag c b)).
Proof.
  intros H. unfold filter_schlagwort. destruct (is_true flag); [|exact H].
  simpl. now apply where_or_and_shape.
Qed.

(** Whatever the filter object, [build] joins titel, does not join the
    covers, and pages only at its end. *)
Lemma filters_shape cfg o : joins_titel_only (fst (filters cfg o)).
Proof.
  unfold filters. apply fold_filter_rest_shape.
  repeat apply filter_schlagwort_shape.
  assert (H0 : joins_titel_only
                 (innerJoinAndSelect_titel (createQueryBuilder serieAlias)))
    by (repeat split).
  assert (H1 : joins_titel_only
                 (fst (filter_titel cfg (prop o "titel")
                         (innerJoinAndSelect_titel
                            (createQueryBuilder serieAlias), true))))
    by (destruct (prop o "titel"); exact H0).
  assert (H2 : forall b, joins_titel_only (fst b) ->
                         joins_titel_only
                           (fst (filter_rating (prop o "rating") b))).
  { intros b H. unfold filter_rating.
    destruct (is_defined (prop o "rating")); [|exact H].
    destruct (negb _); exact H. }
  assert (H3 : forall b, joins_titel_only (fst b) ->
                         joins_titel_only
                           (fst (filter_preis (prop o "preis") b))).
  { intros b H. destruct (prop o "preis"); exact H. }
  apply H3, H2, H1.
Qed.

Lemma build_unpaged cfg o pageable (rows : list (SerieRow * TitelRow)) :
  size pageable = Some 0 -> paged (build cfg o pageable) rows = rows.
Proof.
  intros H. unfold build. rewrite H.
  destruct (filters_shape cfg o) as (_ & _ & _ & T & S).
  now apply paged_all.
Qed.


Lemma build_joins cfg o pageable :
  innerJoinTitel (build cfg o pageable) = true /\
  leftJoinCovers (build cfg o pageable) = false.
Proof.
  destruct (filters_shape cfg o) as (_ & J & C & _ & _).
  unfold build. destruct (size pageable) as [[|p|p]|]; split; assumption.
Qed.

(** The two ways [find] goes: it refuses the filter object, or it runs the
    query of [build]. *)
Lemma find_cases cfg (o : option Suchkriterien) pageable (w : World) :
  (exists c, o = Some c /\ invalid_criteria c /\
             SerieReadService.find cfg o pageable w =
               (Threw (NotFoundException UngueltigeSuchkriterien), w)) \/
  (exists e, e <> NotFoundException UngueltigeSuchkriterien /\
             SerieReadService.find cfg o pageable w =
               search (build cfg (effective o) pageable) e w).
Proof.
  rewrite find_run. destruct (effective o) as [|kv c] eqn:Eo.
  - right. eexists. split; [|reflexivity]. discriminate.
  - cbv zeta.
    destruct (negb (SerieReadService.checkKeys (map fst (kv :: c))) ||
              negb (SerieReadService.checkEnums (kv :: c))) eqn:Chk.
    + left. apply checks_fail_iff in Chk.
      destruct o as [c'|]; [|discriminate Eo]. simpl in Eo. subst c'.
      exists (kv :: c). auto.
    + right. eexists. split; [|reflexivity]. discriminate.
Qed.

(** A call of [find] that returns: the rows, the page, the count and the
    statements. *)
Lemma find_returned_slice cfg o pageable w sl w' :
  SerieReadService.find cfg o pageable w = (Returned sl, w') ->
  let q := build cfg (effective o) pageable in
  exists rows,
    selected (db w) q = Some rows /\
    paged q rows <> [] /\
    sl = SerieReadService.mkSlice (presented_rows (db w) q (paged q rows))
                                  (Z.of_nat (List.length rows)) /\
    w' = sent (SelectCount q) (sent (Select q) w).
Proof.
  intros H q.
  destruct (find_cases cfg o pageable w) as [(c & _ & _ & E)|(e & _ & E)];
    rewrite E in H; [discriminate H|].
  rewrite search_run in H. fold q in H.
  destruct (selected (db w) q) as [rows|]; [|discriminate H].
  exists rows. split; [reflexivity|].
  destruct (paging_ok q); [|discriminate H].
  destruct (paged q rows) as [|r rs] eqn:Ep; [discriminate H|].
  injection H as <- <-. repeat split. discriminate.
Qed.

Lemma find_returned_paging cfg o pageable w sl w' :
  SerieReadService.find cfg o pageable w = (Returned sl, w') ->
  paging_ok (build cfg (effective o) pageable) = true.
Proof.
  intros H.
  destruct (find_cases cfg o pageable w) as [(c & _ & _ & E)|(e & _ & E)];
    rewrite E in H; [discriminate H|].
  rewrite search_run in H.
  destruct (selected (db w) _) as [rows|]; [|discriminate H].
  now destruct (paging_ok _).
Qed.

Lemma presented_rows_length d q rows :
  List.length (presented_rows d q rows) = List.length rows.
Proof. unfold presented_rows. now rewrite !length_map. Qed.

Lemma null_to_empty_covers (x : Serie.t) :
  Serie.covers (SerieReadService.null_to_empty x) = Serie.covers x.
Proof.
  unfold SerieReadService.null_to_empty.
  destruct (Serie.schlagwoerter x); reflexivity.
Qed.

Lemma null_to_empty_file (x : Serie.t) :
  Serie.file (SerieReadService.null_to_empty x) = Serie.file x.
Proof.
  unfold SerieReadService.null_to_empty.
  destruct (Serie.schlagwoerter x); reflexivity.
Qed.



















(** X3.  When the page size is 0 nothing is paged: the content of a result
    of [find] is every selected row, and the total is the length of the
    content. *)
Theorem find_unpaged
        (cfg : Config) (o : option Suchkriterien) (pageable : Pageable)
        (w : World) (sl : SerieReadService.Slice) (w' : World) :
  let q := build cfg (effective o) pageable in
  size pageable = Some 0 ->
  SerieReadService.find cfg o pageable w = (Returned sl, w') ->
  exists rows,
    selected (db w) q = Some rows /\
    SerieReadService.content sl = presented_rows (db w) q rows /\
    SerieReadService.totalElements sl =
      Z.of_nat (List.length (SerieReadService.content sl)).
Proof.
  intros q Hsize H.
  apply find_returned_slice in H. fold q in H.
  destruct H as (rows & Hsel & _ & -> & _).
  unfold q. rewrite (build_unpaged cfg _ pageable rows Hsize). fold q.
  exists rows. cbn [SerieReadService.content SerieReadService.totalElements].
  rewrite presented_rows_length. auto.
Qed.

Lemma find_unpaged_witness :
  let r := SerieReadService.find Corpus.config None Corpus.unpaged
                                 Corpus.world in
  exists sl,
    fst r = Returned sl /\
    SerieReadService.totalElements sl =
      Z.of_nat (List.length (SerieReadService.content sl)).
Proof.
  intros r.
  destruct (find_unpaged Corpus.config None Corpus.unpaged Corpus.world
              (SerieReadService.mkSlice
                 (presented_rows Corpus.store
                    (build Corpus.config [] Corpus.unpaged)
                    [(Corpus.alpha, Corpus.alpha_titel);
                     (Corpus.zeta, Corpus.zeta_titel)])
                 2)
              (snd r) eq_refl eq_refl)
    as (rows & _ & _ & Ht).
  eexists. split; [reflexivity | exact Ht].
Defined.

(** X4.  Reading does not write: [findById] and [find] leave the store
    as it is, and every statement they send is a SELECT. *)
Theorem reads_leave_store :
  (forall p w,
      let r := SerieReadService.findById p w in
      db (snd r) = db w /\
      exists sts, journal (snd r) = journal w ++ sts /\
                  forallb reads sts = true) /\
  (forall cfg o pageable w,
      let r := SerieReadService.find cfg o pageable w in
      db (snd r) = db w /\
      exists sts, journal (snd r) = journal w ++ sts /\
                  forallb reads sts = true).
Proof.
  split.
  - intros p w r. unfold r. rewrite findById_run. split; [reflexivity|].
    eexists. split; reflexivity.
  - intros cfg o pageable w r. unfold r.
    destruct (find_cases cfg o pageable w) as [(c & _ & _ & E)|(e & _ & E)];
      rewrite E.
    + split; [reflexivity|]. exists []. now rewrite app_nil_r.
    + rewrite search_run.
      destruct (selected (db w) _) as [rows|];
        [destruct (paging_ok _); [destruct (paged _ rows)|]|];
        (split; [reflexivity|]); cbn [snd sent journal db].
      * eexists. split; reflexivity.
      * rewrite <- app_assoc. eexists. split; reflexivity.
      * eexists. split; reflexivity.
      * eexists. split; reflexivity.
Qed.

Lemma filter_all {A} (f : A -> bool) (l : list A) :
  (forall x, In x l -> f x = true) -> filter f l = l.
Proof.
  induction l as [|a l IH]; simpl; intros H; [reflexivity|].
  rewrite (H a) by now left. f_equal. apply IH. intros x Hx. apply H.
  now right.
Qed.

(** A query without condition selects every series that has a title. *)
Lemma selected_no_condition (d : Db) (q : SelectQueryBuilder) :
  wheres q = [] ->
  selected d q = Some (joined (serie_table d) (titel_table d)).
Proof.
  intros H. unfold selected. rewrite H. cbn [forallb]. f_equal.
  now apply filter_all.
Qed.



(** X6.  What a result of [find] holds: each series of the content is a
    stored series with its title row; its title is loaded, its covers and
    its file are not; and the rows meet every condition of the query. *)
Theorem find_content
        (cfg : Config) (o : option Suchkriterien) (pageable : Pageable)
        (w : World) (sl : SerieReadService.Slice) (w' : World)
        (serie : Serie.t) :
  SerieReadService.find cfg o pageable w = (Returned sl, w') ->
  In serie (SerieReadService.content sl) ->
  exists s t,
    In s (serie_table (db w)) /\
    List.find (fun x => t_serie_id x =? r_id s) (titel_table (db w))
    = Some t /\
    Serie.id serie = Some (r_id s) /\
    Serie.titel serie = Some (titel_of_row t) /\
    Serie.covers serie = None /\
    Serie.file serie = None /\
    forall c, In c (wheres (build cfg (effective o) pageable)) ->
              eval_clause s t c = true.
Proof.
  intros H Hin. apply find_returned_slice in H.
  destruct H as (rows & Hsel & _ & -> & _).
  cbn [SerieReadService.content] in Hin. unfold presented_rows in Hin.
  rewrite map_map in Hin. apply in_map_iff in Hin.
  destruct Hin as ([s t] & <- & Hst). apply paged_In in Hst.
  apply (selected_In _ _ _ (s, t) Hsel) in Hst. destruct Hst as [Hj Hall].
  apply joined_In in Hj. destruct Hj as [Hs Ht].
  destruct (build_joins cfg (effective o) pageable) as [J C].
  exists s, t. rewrite null_to_empty_id, null_to_empty_titel,
    null_to_empty_covers, null_to_empty_file.
  unfold serie_of_row. cbn [Serie.id Serie.titel Serie.covers Serie.file].
  rewrite J, C. repeat split; auto.
Qed.

Lemma find_content_witness :
  exists s t,
    In s (serie_table Corpus.store) /\
    r_id s = 1 /\
    eval_clause s t java_clause = true.
Proof.
  destruct (find_content Corpus.config (Some [("java", JsStr "true")])
              Corpus.unpaged Corpus.world
              (SerieReadService.mkSlice
                 (presented_rows Corpus.store
                    (build Corpus.config [("java", JsStr "true")]
                           Corpus.unpaged)
                    [(Corpus.alpha, Corpus.alpha_titel)])
                 1)
              (snd (SerieReadService.find Corpus.config
                      (Some [("java", JsStr "true")])
                      Corpus.unpaged Corpus.world))
              (SerieReadService.null_to_empty
                 (serie_of_row Corpus.store
                    (build Corpus.config [("java", JsStr "true")]
                           Corpus.unpaged)
                    (Corpus.alpha, Corpus.alpha_titel)))
              eq_refl (or_introl eq_refl))
    as (s & t & Hs & _ & Hid & _ & _ & _ & Hall).
  exists s, t. split; [exact Hs|]. split.
  - injection Hid as Hid. now rewrite <- Hid.
  - apply Hall. now left.
Defined.

End Find.

(* ================================================================== *)
(** * QueryBuilder.build: what each filter selects *)
(* ================================================================== *)

Section Conditions.

Import QueryBuilder.

#[local] Arguments ascii_dec : simpl never.
#[local] Arguments Ascii.eqb : simpl never.

Lemma prop_absent (o : Suchkriterien) (k : string) :
  (forall kv, In kv o -> fst kv <> k) -> prop o k = JsUndefined.
Proof.
  unfold prop. induction o as [|[k' v] o IH]; intros H; [reflexivity|].
  simpl. destruct (String.eqb_spec k k') as [->|_].
  - now destruct (H (k', v) (or_introl eq_refl)).
  - apply IH. intros kv Hkv. apply H. now right.
Qed.

Lemma prop_In (o : Suchkriterien) (k : string) :
  prop o k = JsUndefined \/ In (k, prop o k) o.
Proof.
  unfold prop. induction o as [|[k' v] o IH]; [now left|].
  simpl. destruct (String.eqb_spec k k') as [->|_].
  - right. now left.
  - destruct IH as [E|Hin]; [now left | right; now right].
Qed.

Lemma is_true_spec (v : JsValue) :
  is_true v = true <-> v = JsStr "true".
Proof.
  destruct v as [| |b|n|x]; simpl; try (split; discriminate).
  rewrite String.eqb_eq. split; [now intros -> | now intros [= ->]].
Qed.

(** X7.  A keyword flag counts only when its value is the text true.  A
    filter object that has nothing but keyword flags whose values are
    something else (false, a boolean, null) makes a query without any
    condition, which selects every series that has a title. *)
Theorem flags_need_true
        (cfg : Config) (o : Suchkriterien) (pageable : Pageable) :
  (forall kv, In kv o -> In (fst kv) flags /\ snd kv <> JsStr "true") ->
  wheres (build cfg o pageable) = [] /\
  forall d, selected d (build cfg o pageable)
            = Some (joined (serie_table d) (titel_table d)).
Proof.
  intros H.
  assert (Hun : forall k, ~ In k flags -> prop o k = JsUndefined).
  { intros k Hk. apply prop_absent. intros kv Hkv E. apply Hk.
    rewrite <- E. now apply H. }
  assert (Hfl : forall k, is_true (prop o k) = false).
  { intros k. destruct (is_true (prop o k)) eqn:E; [|reflexivity].
    apply is_true_spec in E.
    destruct (prop_In o k) as [U|Hin]; [rewrite U in E; discriminate E|].
    destruct (H _ Hin) as [_ N]. now destruct N. }
  assert (Hrest : restProps o = []).
  { unfold restProps.
    destruct (filter _ o) as [|kv l] eqn:E; [reflexivity|].
    assert (Hin : In kv (filter
                           (fun kv => negb (existsb (String.eqb (fst kv))
                                                    named)) o))
      by (rewrite E; now left).
    apply filter_In in Hin. destruct Hin as [Hin Hn].
    destruct (H _ Hin) as [Hf _]. simpl in Hf.
    destruct Hf as [Ek|[Ek|[Ek|[Ek|[]]]]]; rewrite <- Ek in Hn;
      discriminate Hn. }
  assert (W : wheres (build cfg o pageable) = []).
  { rewrite wheres_build, wheres_filters.
    unfold flag_clauses, rest_clauses. rewrite !Hfl, Hrest.
    unfold leading.
    rewrite (Hun "titel"), (Hun "rating"), (Hun "preis");
      [reflexivity | | |];
      intros [E|[E|[E|[E|[]]]]]; discriminate E. }
  split; [exact W|]. intros d. now apply selected_no_condition.
Qed.

Lemma flags_need_true_witness :
  Corpus.found
    (SerieReadService.find Corpus.config
       (Some [("javascript", JsStr "false"); ("python", JsBool true)])
       Corpus.unpaged Corpus.world)
  = Returned [Some 1; Some 2] /\
  wheres (build Corpus.config
                [("javascript", JsStr "false"); ("python", JsBool true)]
                Corpus.unpaged) = [].
Proof.
  split; [reflexivity|].
  apply (flags_need_true Corpus.config
           [("javascript", JsStr "false"); ("python", JsBool true)]
           Corpus.unpaged).
  intros kv [<-|[<-|[]]]; split; simpl; auto; discriminate.
Defined.

Lemma restProps_not_rating (o : Suchkriterien) (kv : string * JsValue) :
  In kv (restProps o) -> String.eqb (fst kv) "rating" = false.
Proof.
  unfold restProps. rewrite filter_In. intros [_ H].
  destruct (String.eqb (fst kv) "rating") eqn:E; [|reflexivity].
  apply String.eqb_eq in E. rewrite E in H. discriminate H.
Qed.

Lemma flag_clauses_not_on_rating (o : Suchkriterien) :
  Forall (fun c => on_rating c = false) (flag_clauses o).
Proof.
  unfold flag_clauses.
  repeat (apply Forall_app; split);
    match goal with |- context [if ?b then _ else _] => destruct b end;
    repeat constructor.
Qed.

Lemma rest_clauses_not_on_rating (o : Suchkriterien) :
  Forall (fun c => on_rating c = false) (rest_clauses o).
Proof.
  unfold rest_clauses. apply Forall_forall. intros c Hc.
  apply in_map_iff in Hc. destruct Hc as (kv & <- & Hkv).
  unfold on_rating, equal_clause. simpl.
  now apply restProps_not_rating in Hkv.
Qed.

(** X8.  A rating given as text is read with parseInt.  A text that does
    not start with a number is not refused: the filter is left out, and no
    condition of the query is on the column rating.  A text that starts with
    a number filters by that number, whatever follows it; when preis is no
    string this condition is the first of the query, before those of the
    keyword flags and of the other properties. *)
Theorem rating_text_is_parsed
        (cfg : Config) (o : Suchkriterien) (pageable : Pageable)
        (r : string) :
  prop o "rating" = JsStr r ->
  (parseInt r None = NaN ->
   Forall (fun c => on_rating c = false) (wheres (build cfg o pageable))) /\
  (forall q,
      parseInt r None = Fin q ->
      is_string (prop o "preis") = false ->
      wheres (build cfg o pageable) =
        rating_clause (JsNum (Fin q)) :: flag_clauses o ++ rest_clauses o).
Proof.
  intros Hr. rewrite wheres_build, wheres_filters. split.
  - intros Hn. apply Forall_app. split.
    + unfold leading. rewrite Hr. unfold filter_rating.
      cbn [is_defined]. rewrite Hn. cbn [isNaN ToNumber negb].
      destruct (prop o "preis"), (prop o "titel"); repeat constructor.
    + apply Forall_app. split;
        [apply flag_clauses_not_on_rating | apply rest_clauses_not_on_rating].
  - intros q Hq Hp. unfold leading. rewrite Hr. unfold filter_rating.
    cbn [is_defined]. rewrite Hq. cbn [isNaN ToNumber negb].
    destruct (prop o "preis"); try discriminate Hp; reflexivity.
Qed.

Lemma rating_text_is_parsed_witness :
  Forall (fun c => on_rating c = false)
         (wheres (build Corpus.config [("rating", JsStr "abc")]
                        Corpus.unpaged)) /\
  wheres (build Corpus.config [("rating", JsStr "3abc")] Corpus.unpaged)
  = [rating_clause (JsNum (Fin (inject_Z 3)))].
Proof.
  split.
  - apply (proj1 (rating_text_is_parsed Corpus.config
                    [("rating", JsStr "abc")] Corpus.unpaged "abc"
                    eq_refl)).
    reflexivity.
  - apply (proj2 (rating_text_is_parsed Corpus.config
                    [("rating", JsStr "3abc")] Corpus.unpaged "3abc"
                    eq_refl) (inject_Z 3)); reflexivity.
Defined.

(** X9.  The keys covers, file and toString are own properties of a Serie,
    so [#checkKeys] lets them pass; [build] then writes an equality on a
    column of that name, which the table serie does not have.  A filter
    object that passes the checks and has one of these keys is not answered
    with NotFoundException: the store refuses the statement. *)
Theorem relation_keys_rejected
        (cfg : Config) (o : Suchkriterien) (pageable : Pageable)
        (w : World) (kv : string * JsValue) :
  SerieReadService.checkKeys (map fst o) = true ->
  SerieReadService.checkEnums o = true ->
  In kv o ->
  In (fst kv) relation_keys ->
  SerieReadService.checkKeys [fst kv] = true /\
  SerieReadService.find cfg (Some o) pageable w =
    (Threw (QueryFailedError InvalidStatement),
     sent (Select (build cfg o pageable)) w).
Proof.
  intros K E Hin Hrel.
  assert (Hk : fst kv = "covers"%string \/ fst kv = "file"%string \/
               fst kv = "toString"%string).
  { simpl in Hrel. destruct Hrel as [<-|[<-|[<-|[]]]]; auto. }
  split.
  { destruct Hk as [->|[->| ->]]; reflexivity. }
  rewrite find_search; [|intros ->; destruct Hin|exact K|exact E].
  rewrite search_run.
  rewrite (selected_rejects (db w) (build cfg o pageable)
             (equal_clause (fst kv) (snd kv))); [reflexivity| |].
  - rewrite wheres_build, wheres_filters.
    apply in_or_app. right. apply in_or_app. right.
    unfold rest_clauses. apply in_map_iff. exists kv. split; [reflexivity|].
    unfold restProps. apply filter_In. split; [exact Hin|].
    destruct Hk as [->|[->| ->]]; reflexivity.
  - unfold clause_ok, equal_clause.
    destruct Hk as [->|[->| ->]]; reflexivity.
Qed.

Lemma relation_keys_rejected_witness :
  fst (SerieReadService.find Corpus.config (Some [("covers", JsStr "x")])
                             Corpus.unpaged Corpus.world)
  = Threw (QueryFailedError InvalidStatement).
Proof.
  exact (f_equal fst
           (proj2 (relation_keys_rejected Corpus.config
                     [("covers", JsStr "x")] Corpus.unpaged Corpus.world
                     ("covers"%string, JsStr "x")
                     eq_refl eq_refl (or_introl eq_refl)
                     (or_introl eq_refl)))).
Defined.

(** One step of a pattern that starts with a character that is neither a
    wildcard nor the escape character. *)
Lemma like_literal_step (c : ascii) (rest s : string) :
  (code c =? 37) = false ->
  (code c =? 95) = false ->
  (code c =? 92) = false ->
  like (String c rest) s =
    match s with
    | String c' r => Ascii.eqb c' c && like rest r
    | EmptyString => false
    end.
Proof. intros H1 H2 H3. cbn [like]. rewrite H1, H2, H3. reflexivity. Qed.

Lemma like_literal_percent (p s : string) :
  literal p = true -> like (p ++ "%") s = prefix p s.
Proof.
  revert s. induction p as [|c p IH]; intros s H.
  - rewrite prefix_nil. apply like_percent.
  - cbn [literal] in H. rewrite !andb_true_iff, !negb_true_iff in H.
    destruct H as [[[H1 H2] H3] H4]. cbn [append].
    rewrite (like_literal_step c _ s H1 H2 H3).
    destruct s as [|c' r]; [reflexivity|].
    rewrite (IH r H4), eqb_as_dec. reflexivity.
Qed.

(** A pattern [%p%] whose [p] has no wildcard asks for an occurrence of
    [p]. *)
Lemma like_contains (p s : string) :
  literal p = true -> like (String "%" (p ++ "%")) s = contains p s.
Proof.
  intros H. induction s as [|c s IH].
  - rewrite like_percent_step, (like_literal_percent p "" H).
    reflexivity.
  - rewrite like_percent_step, IH, (like_literal_percent p _ H).
    reflexivity.
Qed.






(** What the condition of a keyword flag asks of a row. *)
Lemma eval_schlagwort (tag : string) (s : SerieRow) (t : TitelRow) :
  eval_clause s t (schlagwort tag) =
    match r_schlagwoerter s with
    | Some x => like (String "%" (tag ++ "%")) x
    | None => false
    end.
Proof.
  unfold eval_clause, schlagwort. simpl.
  destruct (r_schlagwoerter s); reflexivity.
Qed.

(** The rows behind the content of a result of [find]. *)
Lemma find_returned_rows cfg o pageable w sl w' serie :
  SerieReadService.find cfg o pageable w = (Returned sl, w') ->
  In serie (SerieReadService.content sl) ->
  let q := build cfg (effective o) pageable in
  exists s t,
    In (s, t) (joined (serie_table (db w)) (titel_table (db w))) /\
    serie = SerieReadService.null_to_empty (serie_of_row (db w) q (s, t)) /\
    forall c, In c (wheres q) -> eval_clause s t c = true.
Proof.
  intros H Hin q. apply find_returned_slice in H. fold q in H.
  destruct H as (rows & Hsel & _ & -> & _).
  cbn [SerieReadService.content] in Hin. unfold presented_rows in Hin.
  rewrite map_map in Hin. apply in_map_iff in Hin.
  destruct Hin as ([s t] & <- & Hst). apply paged_In in Hst.
  apply (selected_In _ _ _ (s, t) Hsel) in Hst. destruct Hst as [Hj Hall].
  exists s, t. auto.
Qed.



Lemma join_cons (sep x : string) (l : list string) :
  l <> [] -> join sep (x :: l) = (x ++ sep ++ join sep l)%string.
Proof. destruct l; [intros N; now destruct N | reflexivity]. Qed.

(** Joining the pieces of a text with the separator gives the text back. *)
Lemma join_split_scan (s cur : string) :
  join "," (split_scan "," s cur) = (rev_string cur "" ++ s)%string.
Proof.
  revert cur. induction s as [|c s IH]; intros cur.
  - now rewrite string_app_nil_r.
  - cbn [split_scan]. destruct (Ascii.eqb_spec c ",") as [->|N].
    + rewrite join_cons by apply split_scan_not_nil.
      rewrite IH. reflexivity.
    + rewrite IH. cbn [rev_string].
      rewrite (rev_string_acc cur (String c "")).
      now rewrite string_app_assoc.
Qed.

Lemma join_split (s : string) : simpleArrayToString (split "," s) = s.
Proof. unfold simpleArrayToString, split. apply join_split_scan. Qed.

(** The keywords a caller sees, joined again, are the stored text. *)
Lemma presented_text (stored : option string) :
  simpleArrayToString (presented stored) =
    match stored with Some x => x | None => ""%string end.
Proof.
  destruct stored as [[|c x]|]; try reflexivity.
  unfold presented. apply join_split.
Qed.

Lemma flag_clause_in_build cfg o pageable (c : Clause) :
  In c (flag_clauses o) -> In c (wheres (build cfg o pageable)).
Proof.
  intros H. rewrite wheres_build, wheres_filters.
  apply in_or_app. right. apply in_or_app. now left.
Qed.

Lemma schlagwort_selects (tag : string) (s : SerieRow) (t : TitelRow) :
  literal tag = true ->
  eval_clause s t (schlagwort tag) = true ->
  contains tag (simpleArrayToString (presented (r_schlagwoerter s))) = true.
Proof.
  intros L H. rewrite eval_schlagwort in H. rewrite presented_text.
  destruct (r_schlagwoerter s) as [x|]; [|discriminate H].
  now rewrite like_contains in H.
Qed.

(** X11.  The keyword flags javascript, typescript and python, when they
    are the text true: every series [find] returns has the name of the
    keyword, in capitals, somewhere in its keywords as they are stored,
    joined by commas.  The flags add up, and whatever else the filter object
    holds does not take them away; the match is one of text, so a keyword
    that only contains the name counts as well. *)
Theorem keyword_flags_select
        (cfg : Config) (o : Suchkriterien) (pageable : Pageable) (w : World)
        (sl : SerieReadService.Slice) (w' : World) (serie : Serie.t) :
  SerieReadService.find cfg (Some o) pageable w = (Returned sl, w') ->
  In serie (SerieReadService.content sl) ->
  exists tags,
    Serie.schlagwoerter serie = Value tags /\
    (is_true (prop o "javascript") = true ->
     contains "JAVASCRIPT" (simpleArrayToString tags) = true) /\
    (is_true (prop o "typescript") = true ->
     contains "TYPESCRIPT" (simpleArrayToString tags) = true) /\
    (is_true (prop o "python") = true ->
     contains "PYTHON" (simpleArrayToString tags) = true).
Proof.
  intros H Hin.
  destruct (find_returned_rows _ _ _ _ _ _ _ H Hin)
    as (s & t & _ & -> & Hall).
  cbn [effective] in Hall.
  exists (presented (r_schlagwoerter s)).
  split; [apply presented_schlagwoerter|].
  repeat split; intros F; apply (schlagwort_selects _ s t);
    try reflexivity; apply Hall, flag_clause_in_build;
    unfold flag_clauses; rewrite F.
  - now left.
  - apply in_or_app. right. now left.
  - apply in_or_app. right. apply in_or_app. right.
    apply in_or_app. right. now left.
Qed.

Lemma keyword_flags_select_witness :
  exists tags,
    tags = ["JAVASCRIPT"%string; "JAVA"%string] /\
    contains "JAVASCRIPT" (simpleArrayToString tags) = true.
Proof.
  destruct (keyword_flags_select Corpus.config
              [("javascript", JsStr "true"); ("rating", JsStr "2")]
              Corpus.unpaged Corpus.world
              (SerieReadService.mkSlice
                 (presented_rows Corpus.store
                    (build Corpus.config
                           [("javascript", JsStr "true");
                            ("rating", JsStr "2")]
                           Corpus.unpaged)
                    [(Corpus.alpha, Corpus.alpha_titel)])
                 1)
              (snd (SerieReadService.find Corpus.config
                      (Some [("javascript", JsStr "true");
                             ("rating", JsStr "2")])
                      Corpus.unpaged Corpus.world))
              (SerieReadService.null_to_empty
                 (serie_of_row Corpus.store
                    (build Corpus.config
                           [("javascript", JsStr "true");
                            ("rating", JsStr "2")]
                           Corpus.unpaged)
                    (Corpus.alpha, Corpus.alpha_titel)))
              eq_refl (or_introl eq_refl))
    as (tags & Ht & Hjs & _).
  exists tags. split.
  - injection Ht as Ht. now rewrite <- Ht.
  - apply Hjs. reflexivity.
Defined.

End Conditions.

(* ================================================================== *)
(** * SerieReadService.findById: what is found and what is loaded *)
(* ================================================================== *)

Section Loading.

Import QueryBuilder.

Lemma joined_intro (series : list SerieRow) (titels : list TitelRow) s t :
  In s series ->
  List.find (fun x => t_serie_id x =? r_id s) titels = Some t ->
  In (s, t) (joined series titels).
Proof.
  intros Hs Ht. induction series as [|a series IH]; [destruct Hs|].
  simpl. destruct Hs as [->|Hs].
  - rewrite Ht. now left.
  - destruct (List.find (fun x => t_serie_id x =? r_id a) titels);
      [right|]; now apply IH.
Qed.

Lemma find_first {A} (f : A -> bool) (l : list A) (x : A) :
  In x l -> f x = true -> exists y, List.find f l = Some y.
Proof.
  intros Hin Hf. destruct (List.find f l) as [y|] eqn:E; [now exists y|].
  rewrite (find_none f l E x Hin) in Hf. discriminate Hf.
Qed.

(** The query by id finds a row exactly when the series is stored and has
    a title. *)
Lemma head_with_id_titled (d : Db) (i : Z) :
  (exists st, head (with_id i (joined (serie_table d) (titel_table d)))
              = Some st) <->
  titled d i.
Proof.
  split.
  - intros [[s t] H]. apply head_In, with_id_In in H. destruct H as [Hj Hi].
    apply joined_In in Hj. destruct Hj as [Hs Ht]. cbn [fst snd] in *.
    apply find_some in Ht. destruct Ht as [Ht Et]. apply Z.eqb_eq in Et.
    exists s, t. repeat split; auto. now rewrite Et.
  - intros (s & t & Hs & Hi & Ht & Et).
    destruct (find_first (fun x => t_serie_id x =? r_id s) (titel_table d) t Ht)
      as [t' Ht']; [apply Z.eqb_eq; now rewrite Hi|].
    pose proof (joined_intro _ _ s t' Hs Ht') as Hj.
    assert (Hw : In (s, t') (with_id i (joined (serie_table d)
                                               (titel_table d)))).
    { unfold with_id. apply filter_In. split; [exact Hj|].
      now apply Z.eqb_eq. }
    destruct (with_id i _) as [|st l]; [destruct Hw|]. now exists st.
Qed.

(** X12.  For an id that the column can hold (an integer of 32 bits),
    [findById] returns a series exactly when a series with the id is stored
    and a row of titel refers to it (the query joins titel with an inner
    join); in every other case, also for a stored series without title, it
    throws the NotFoundException that names the id. *)
Theorem findById_found_iff (p : SerieReadService.FindByIdParams) (w : World) :
  int4 (SerieReadService.id p) ->
  ((exists serie, fst (SerieReadService.findById p w) = Returned serie) <->
   titled (db w) (SerieReadService.id p)) /\
  (fst (SerieReadService.findById p w) =
     Threw (NotFoundException (KeineSerieMitId (Some (SerieReadService.id p))))
   <-> ~ titled (db w) (SerieReadService.id p)).
Proof.
  intros _. rewrite findById_run. cbn [fst].
  pose proof (head_with_id_titled (db w) (SerieReadService.id p)) as T.
  destruct (head _) as [st|].
  - assert (Ht : titled (db w) (SerieReadService.id p))
      by (apply T; now exists st).
    split; split; try discriminate.
    + intros _. exact Ht.
    + intros _. eexists. reflexivity.
    + intros N. now destruct N.
  - assert (Hn : ~ titled (db w) (SerieReadService.id p)).
    { intros Ht. apply T in Ht. destruct Ht as [st Hst]. discriminate Hst. }
    split; split; auto.
    + intros [serie H]. discriminate H.
    + intros Ht. now destruct Hn.
Qed.

Lemma findById_found_iff_witness :
  fst (SerieReadService.findById (SerieReadService.mkFindByIdParams 3 [])
                                 Corpus.world)
  = Threw (NotFoundException (KeineSerieMitId (Some 3))) /\
  exists serie,
    fst (SerieReadService.findById (SerieReadService.mkFindByIdParams 1 [])
                                   Corpus.world)
    = Returned serie.
Proof.
  split.
  - apply (proj2 (findById_found_iff
                    (SerieReadService.mkFindByIdParams 3 []) Corpus.world
                    ltac:(unfold int4; cbn; lia))).
    intros (s & t & Hs & Hi & _).
    destruct Hs as [<-|[<-|[]]]; discriminate Hi.
  - apply (proj1 (findById_found_iff
                    (SerieReadService.mkFindByIdParams 1 []) Corpus.world
                    ltac:(unfold int4; cbn; lia))).
    exists Corpus.alpha, Corpus.alpha_titel. cbn. intuition.
Defined.

Lemma loaded_by (d : Db) (p : SerieReadService.FindByIdParams)
      (s : SerieRow) (t : TitelRow) :
  let serie := SerieReadService.null_to_empty (serie_of_row d (by_id p) (s, t))
  in
  Serie.id serie = Some (r_id s) /\
  Serie.version serie = Some (r_version s) /\
  Serie.titel serie = Some (titel_of_row t) /\
  Serie.covers serie =
    (if value_or_default (assoc "mitCovers" (SerieReadService.flags p)) false
     then Some (covers_of d (r_id s)) else None) /\
  Serie.file serie = None.
Proof.
  intros serie. unfold serie.
  rewrite null_to_empty_id, null_to_empty_version, null_to_empty_titel,
    null_to_empty_covers, null_to_empty_file.
  unfold by_id, buildId, serie_of_row, covers_of.
  cbn [mitCovers id fst snd Serie.id Serie.version Serie.titel Serie.covers
       Serie.file].
  destruct (value_or_default _ _); repeat split.
Qed.

(** X13.  What [findById] loads: the returned object is the stored series
    with the id, with its version and its title; the covers of that series
    are loaded when the argument has mitCovers true and are undefined
    otherwise, also when the caller wrote another property next to the id;
    the file is never loaded. *)
Theorem findById_loads
        (p : SerieReadService.FindByIdParams) (w : World)
        (serie : Serie.t) (w' : World) :
  SerieReadService.findById p w = (Returned serie, w') ->
  exists s t,
    In s (serie_table (db w)) /\
    r_id s = SerieReadService.id p /\
    List.find (fun x => t_serie_id x =? SerieReadService.id p)
              (titel_table (db w)) = Some t /\
    Serie.id serie = Some (SerieReadService.id p) /\
    Serie.version serie = Some (r_version s) /\
    Serie.titel serie = Some (titel_of_row t) /\
    Serie.covers serie =
      (if value_or_default (assoc "mitCovers" (SerieReadService.flags p))
                           false
       then Some (covers_of (db w) (SerieReadService.id p)) else None) /\
    Serie.file serie = None.
Proof.
  intros H. rewrite findById_run in H.
  destruct (head _) as [[s t]|] eqn:E; [|discriminate H].
  injection H as <- _. apply head_In, with_id_In in E.
  destruct E as [Hj Hi]. apply joined_In in Hj. destruct Hj as [Hs Ht].
  cbn [fst snd] in *.
  destruct (loaded_by (db w) p s t) as (E1 & E2 & E3 & E4 & E5).
  exists s, t. rewrite E1, E2, E3, E4, E5, Hi in *. repeat split; auto.
Qed.

Lemma findById_loads_witness :
  Serie.covers
    (SerieReadService.null_to_empty
       (serie_of_row Corpus.store
          (by_id (SerieReadService.mkFindByIdParams 1 [("mitCovers", true)]))
          (Corpus.alpha, Corpus.alpha_titel)))
  = Some [cover_of_row Corpus.alpha_cover].
Proof.
  destruct (findById_loads
              (SerieReadService.mkFindByIdParams 1 [("mitCovers", true)])
              Corpus.world
              (SerieReadService.null_to_empty
                 (serie_of_row Corpus.store
                    (by_id (SerieReadService.mkFindByIdParams
                              1 [("mitCovers", true)]))
                    (Corpus.alpha, Corpus.alpha_titel)))
              (sent (Select (by_id (SerieReadService.mkFindByIdParams
                                      1 [("mitCovers", true)])))
                    Corpus.world)
              eq_refl)
    as (s & t & _ & _ & _ & _ & _ & _ & Hc & _).
  exact Hc.
Defined.

End Loading.

(* ================================================================== *)
(** * SerieWriteService.update: the order of the checks, the row written *)
(* ================================================================== *)

Section Updating.

Import QueryBuilder.













(** X14.  The order of the checks of [update].  Without id it throws
    NotFoundException before it looks at the token or the store.  With an
    id that the column can hold (an integer of 32 bits) and a token of the
    accepted shape, a series that is not stored (or has no title) gives
    NotFoundException after the one SELECT, and the store is as before. *)
Theorem update_checks_in_order (payload : Serie.t) (tok : string) (w : World) :
  SerieWriteService.update
    (SerieWriteService.mkUpdateParams None payload tok) w
  = (Threw (NotFoundException (KeineSerieMitId None)), w) /\
  (forall i,
      int4 i ->
      SerieWriteService.VERSION_PATTERN_test tok = true ->
      ~ titled (db w) i ->
      SerieWriteService.update
        (SerieWriteService.mkUpdateParams (Some i) payload tok) w
      = (Threw (NotFoundException (KeineSerieMitId (Some i))),
         sent (Select (by_id (SerieReadService.mkFindByIdParams i []))) w)).
Proof.
  split; [reflexivity|].
  intros i _ Hacc Hn.
  unfold SerieWriteService.update, SerieWriteService.validateUpdate.
  cbn [SerieWriteService.id SerieWriteService.serie
       SerieWriteService.version].
  rewrite Hacc. cbn [negb]. unfold bind at 1 2. rewrite findById_run.
  cbn [SerieReadService.id].
  destruct (head _) as [st|] eqn:E; [|reflexivity].
  destruct Hn. apply head_with_id_titled. now exists st.
Qed.

Lemma update_checks_in_order_witness :
  fst (SerieWriteService.update
         (SerieWriteService.mkUpdateParams (Some 3) Corpus.geaendert
                                           (version_token "0"))
         Corpus.world)
  = Threw (NotFoundException (KeineSerieMitId (Some 3))).
Proof.
  refine (f_equal fst
            (proj2 (update_checks_in_order Corpus.geaendert
                      (version_token "0") Corpus.world) 3
                   ltac:(unfold int4; lia) eq_refl _)).
  intros (s & t & Hs & Hi & _).
  destruct Hs as [<-|[<-|[]]]; discriminate Hi.
Defined.

Lemma save_threw_keeps (e : Serie.t) (w : World) (x : Exception) :
  fst (Repository.save e w) = Threw x ->
  db (snd (Repository.save e w)) = db w.
Proof.
  unfold Repository.save, bind, read_db.
  destruct (match Serie.id e with
            | Some i => List.find (fun r => r_id r =? i) (serie_table (db w))
            | None => None
            end) as [old|]; simpl.
  - destruct (Repository.changed old e); discriminate.
  - destruct (Repository.inserted_row _ _ _); simpl; [discriminate|].
    reflexivity.
Qed.

(** X15.  A call of [update] that throws, whatever it throws, leaves the
    store as it was. *)
Theorem update_failure_keeps_store
        (p : SerieWriteService.UpdateParams) (w : World) (e : Exception) :
  fst (SerieWriteService.update p w) = Threw e ->
  db (snd (SerieWriteService.update p w)) = db w.
Proof.
  remember (SerieWriteService.update p w) as r eqn:Er.
  unfold SerieWriteService.update in Er.
  destruct (SerieWriteService.id p) as [i|]; [|now subst r].
  unfold SerieWriteService.validateUpdate in Er.
  destruct (negb _); [now subst r|].
  unfold bind at 1 2 in Er. rewrite findById_run in Er.
  destruct (head _) as [st|]; [|now subst r].
  destruct (SerieWriteService.less_than _ _); [now subst r|].
  unfold ret at 1 in Er. unfold bind in Er.
  match type of Er with
  | context [Repository.save ?m ?v] =>
      pose proof (save_threw_keeps m v) as Hs;
      destruct (Repository.save m v) as [[a|x] w1]
  end; subst r; simpl in *; [discriminate|].
  intros _. now apply (Hs x).
Qed.

Lemma update_failure_keeps_store_witness :
  db (snd (SerieWriteService.update
             (SerieWriteService.mkUpdateParams (Some 1) Corpus.geaendert
                                               (version_token "1"))
             Corpus.world))
  = Corpus.store.
Proof.
  exact (update_failure_keeps_store
           (SerieWriteService.mkUpdateParams (Some 1) Corpus.geaendert
                                             (version_token "1"))
           Corpus.world (VersionOutdatedException (Fin (inject_Z 1)))
           eq_refl).
Defined.














(** X18.  The pattern for the token has no end anchor and the number is
    read with parseInt: whatever follows the closing quote of an accepted
    token changes nothing, [update] does exactly what it does for the token
    alone. *)
Theorem update_ignores_text_after_token
        (oi : option Z) (payload : Serie.t) (ds rest : string) (w : World) :
  short_digits ds = true ->
  SerieWriteService.update
    (SerieWriteService.mkUpdateParams oi payload
                                      (version_token ds ++ rest)%string) w
  = SerieWriteService.update
      (SerieWriteService.mkUpdateParams oi payload (version_token ds)) w.
Proof.
  intros Hds. destruct oi as [i|]; [|reflexivity].
  unfold SerieWriteService.update, SerieWriteService.validateUpdate.
  cbn [SerieWriteService.id SerieWriteService.serie
       SerieWriteService.version].
  rewrite (accepted_token ds rest Hds), (version_token_accepted ds Hds).
  rewrite (supplied_version ds rest Hds).
  pose proof (supplied_version ds "" Hds) as E.
  rewrite string_app_nil_r in E. now rewrite E.
Qed.

Lemma update_ignores_text_after_token_witness :
  fst (SerieWriteService.update
         (SerieWriteService.mkUpdateParams
            (Some 1) Corpus.geaendert (version_token "2" ++ "garbage")%string)
         Corpus.world)
  = Returned (Some 3).
Proof.
  rewrite (update_ignores_text_after_token (Some 1) Corpus.geaendert "2"
             "garbage" Corpus.world eq_refl).
  reflexivity.
Defined.

End Updating.

(* ================================================================== *)
(** * SerieWriteService.delete: all or nothing *)
(* ================================================================== *)

Section Deleting.

Lemma existsb_filter {A} (f keep : A -> bool) (l : list A) :
  existsb f (filter keep l) = existsb (fun x => f x && keep x) l.
Proof.
  induction l as [|a l IH]; [reflexivity|].
  simpl. destruct (keep a); simpl; rewrite IH.
  - now rewrite andb_true_r.
  - now rewrite andb_false_r.
Qed.

Lemma count_removed_pos {A} (keep : A -> bool) (l : list A) (x : A) :
  In x l -> keep x = false -> 0 < Repository.count_removed keep l.
Proof.
  intros Hin Hk. unfold Repository.count_removed.
  assert (L : (List.length (filter keep l) < List.length l)%nat).
  { induction l as [|a l IH]; [destruct Hin|].
    simpl. destruct Hin as [->|Hin].
    - rewrite Hk. pose proof (filter_length_le keep l). lia.
    - specialize (IH Hin). destruct (keep a); simpl; lia. }
  lia.
Qed.

(** [delete] for an id whose series the query finds. *)
Lemma delete_run (i : Z) (w : World) (s : SerieRow) (t : TitelRow) :
  head (with_id i (joined (serie_table (db w)) (titel_table (db w))))
  = Some (s, t) ->
  SerieWriteService.delete i w =
    if still_referenced (db w) i (t_id t) then
      (Threw (QueryFailedError ForeignKeyViolation),
       mkWorld (db w)
               (journal w ++ delete_statements i (t_id t) ++ [Rollback]))
    else
      (Returned true,
       mkWorld (after_delete (db w) i (t_id t))
               (journal w ++ delete_statements i (t_id t) ++ [Commit])).
Proof.
  intros H.
  assert (Hs : In s (serie_table (db w)) /\ r_id s = i).
  { apply head_In, with_id_In in H. destruct H as [Hj Hi].
    apply joined_In in Hj. now destruct Hj. }
  destruct Hs as [Hs Hi].
  assert (Hex : existsb (fun r => r_id r =? i) (serie_table (db w)) = true).
  { apply existsb_exists. exists s. split; [exact Hs | now apply Z.eqb_eq]. }
  unfold SerieWriteService.delete, bind.
  fold (delete_params i). rewrite findById_run.
  cbn [SerieReadService.id delete_params]. rewrite H.
  unfold Repository.transaction. rewrite null_to_empty_titel.
  unfold serie_of_row at 1. cbn [Serie.titel].
  change (innerJoinTitel (by_id (delete_params i))) with true.
  cbn -[Z.eqb existsb filter Z.ltb Repository.count_removed by_id].
  rewrite Hex, existsb_filter. cbn [andb].
  unfold still_referenced, after_delete, delete_statements.
  destruct (existsb _ (titel_table (db w)) || _ || _);
    unfold throw, write_db, ret, bind;
    cbn -[Z.eqb existsb filter Z.ltb Repository.count_removed by_id app];
    rewrite <- !app_assoc; cbn [app]; [reflexivity|].
  - replace (0 <? Repository.count_removed _ _) with true; [reflexivity|].
    symmetry. apply Z.ltb_lt. apply (count_removed_pos _ _ s Hs).
    rewrite Hi. now rewrite Z.eqb_refl.
Qed.

Lemma still_referenced_spec (d : Db) (i titel_id : Z) :
  still_referenced d i titel_id = true <->
  (exists c, In c (cover_table d) /\ c_serie_id c = i) \/
  (exists f, In f (file_table d) /\ f_serie_id f = i) \/
  (exists x, In x (titel_table d) /\ t_serie_id x = i /\ t_id x <> titel_id).
Proof.
  unfold still_referenced. rewrite !orb_true_iff, !existsb_exists. split.
  - intros [[(x & Hx & E)|(c & Hc & E)]|(f & Hf & E)].
    + apply andb_prop in E. destruct E as [E1 E2].
      apply Z.eqb_eq in E1. apply negb_true_iff, Z.eqb_neq in E2.
      right. right. now exists x.
    + apply Z.eqb_eq in E. left. now exists c.
    + apply Z.eqb_eq in E. right. left. now exists f.
  - intros [(c & Hc & E)|[(f & Hf & E)|(x & Hx & E1 & E2)]].
    + left. right. exists c. split; [exact Hc | now apply Z.eqb_eq].
    + right. exists f. split; [exact Hf | now apply Z.eqb_eq].
    + left. left. exists x. split; [exact Hx|].
      apply andb_true_intro. split; [now apply Z.eqb_eq|].
      now apply negb_true_iff, Z.eqb_neq.
Qed.

(** X19.  [delete] for a stored series with its title.  When a cover or a
    file of the series is stored (or a second row of titel refers to it),
    the DELETE of the series is refused by the store, [delete] throws that
    error and the transaction is rolled back: the title is still there.
    Otherwise [delete] returns true, the row of titel and the series are
    gone, everything else is as before, and the statements are the SELECT,
    the DELETE of the title, the DELETE of the series and the commit. *)
Theorem delete_outcome (i : Z) (w : World) (s : SerieRow) (t : TitelRow) :
  List.find (fun r => r_id r =? i) (serie_table (db w)) = Some s ->
  List.find (fun x => t_serie_id x =? i) (titel_table (db w)) = Some t ->
  let r := SerieWriteService.delete i w in
  let blocked :=
    (exists c, In c (cover_table (db w)) /\ c_serie_id c = i) \/
    (exists f, In f (file_table (db w)) /\ f_serie_id f = i) \/
    (exists x, In x (titel_table (db w)) /\ t_serie_id x = i /\
               t_id x <> t_id t) in
  (blocked ->
   fst r = Threw (QueryFailedError ForeignKeyViolation) /\
   db (snd r) = db w) /\
  (~ blocked ->
   fst r = Returned true /\
   db (snd r) = after_delete (db w) i (t_id t) /\
   journal (snd r) = journal w ++ delete_statements i (t_id t) ++ [Commit]).
Proof.
  intros Hs Ht r blocked. unfold r.
  rewrite (delete_run i w s t (head_with_id i _ _ s t Hs Ht)).
  pose proof (still_referenced_spec (db w) i (t_id t)) as S.
  fold blocked in S.
  destruct (still_referenced (db w) i (t_id t)); split.
  - intros _. split; reflexivity.
  - intros N. destruct N. now apply S.
  - intros B. apply S in B. discriminate B.
  - intros _. repeat split.
Qed.

Lemma delete_outcome_witness :
  fst (SerieWriteService.delete 1 Corpus.world)
  = Threw (QueryFailedError ForeignKeyViolation) /\
  fst (SerieWriteService.delete 2 Corpus.world) = Returned true.
Proof.
  split.
  - apply (proj1 (delete_outcome 1 Corpus.world Corpus.alpha
                    Corpus.alpha_titel eq_refl eq_refl)).
    left. exists Corpus.alpha_cover. split; [now left | reflexivity].
  - apply (proj2 (delete_outcome 2 Corpus.world Corpus.zeta
                    Corpus.zeta_titel eq_refl eq_refl)).
    intros [(c & [<-|[]] & E)|[(f & [] & _)|(x & Hx & E1 & E2)]].
    + discriminate E.
    + destruct Hx as [<-|[<-|[]]]; [discriminate E1 | now destruct E2].
Defined.

(** X20.  [delete] is all or nothing, and it never returns false.  When it
    throws, whatever it throws, the store is as it was, also the title it
    had deleted inside the transaction.  When it returns, it returns true
    and no series with the id is stored any more. *)
Theorem delete_all_or_nothing (i : Z) (w : World) :
  match fst (SerieWriteService.delete i w) with
  | Threw _ => db (snd (SerieWriteService.delete i w)) = db w
  | Returned b =>
      b = true /\
      Forall (fun x => r_id x <> i)
             (serie_table (db (snd (SerieWriteService.delete i w))))
  end.
Proof.
  destruct (head (with_id i (joined (serie_table (db w))
                                    (titel_table (db w)))))
    as [[s t]|] eqn:E.
  - rewrite (delete_run i w s t E).
    destruct (still_referenced (db w) i (t_id t)); cbn [fst snd db].
    + reflexivity.
    + split; [reflexivity|]. apply Forall_forall. intros x Hx.
      unfold after_delete in Hx. cbn [serie_table] in Hx.
      apply filter_In in Hx. destruct Hx as [_ Hx].
      now apply negb_true_iff, Z.eqb_neq in Hx.
  - unfold SerieWriteService.delete, bind.
    fold (delete_params i). rewrite findById_run.
    cbn [SerieReadService.id delete_params]. rewrite E. reflexivity.
Qed.

End Deleting.

(* ================================================================== *)
(** * SerieWriteService.create: when it writes, and what *)
(* ================================================================== *)

Section Creating.

(** X21.  The check of [#validateCreate] asks whether any series is stored
    at all (the property it reads, isbn, is undefined for every Serie).  So
    on a store that holds a series [create] throws IsbnExistsException for
    every payload, after the one SELECT: nothing is written and no mail is
    sent. *)
Theorem create_needs_empty_store (serie : Serie.t) (w : World) :
  serie_table (db w) <> [] ->
  SerieWriteService.create serie w =
    (Threw (IsbnExistsException JsUndefined),
     sent (SelectExists [("isbn"%string, JsUndefined)]) w).
Proof.
  intros H. unfold SerieWriteService.create, SerieWriteService.validateCreate.
  rewrite isbn_undefined. unfold bind. rewrite existsBy_isbn_undefined.
  destruct (serie_table (db w)); [now destruct H | reflexivity].
Qed.

Lemma create_needs_empty_store_witness :
  db (snd (SerieWriteService.create Corpus.geaendert Corpus.plain_world))
  = db Corpus.plain_world.
Proof.
  rewrite (create_needs_empty_store Corpus.geaendert Corpus.plain_world).
  - reflexivity.
  - discriminate.
Defined.









End Creating.

(* ================================================================== *)
(** * The version token and the controller *)
(* ================================================================== *)

Section Responses.

Import QueryBuilder.

Lemma code_digit_char (d : Z) :
  0 <= d < 10 -> code (Template.digit_char d) = 48 + d.
Proof.
  intros H. unfold Template.digit_char, code.
  rewrite N_ascii_embedding by lia. lia.
Qed.

Lemma is_digit_digit_char (d : Z) :
  0 <= d < 10 -> is_digit (Template.digit_char d) = true.
Proof.
  intros H. unfold is_digit. rewrite code_digit_char by exact H.
  apply andb_true_intro. split; apply Z.leb_le; lia.
Qed.

Lemma all_digits_app (a b : string) :
  all_digits (a ++ b) = all_digits a && all_digits b.
Proof.
  induction a as [|c a IH]; [reflexivity|].
  simpl. rewrite IH. now rewrite andb_assoc.
Qed.

Lemma decimal_app (a b : string) (acc : Z) :
  decimal acc (a ++ b) = decimal (decimal acc a) b.
Proof.
  revert acc. induction a as [|c a IH]; intros acc; [reflexivity|].
  simpl. apply IH.
Qed.

Lemma digits_spec (fuel : nat) :
  forall (n : Z) (acc : string),
    0 <= n -> (Z.to_nat n < fuel)%nat ->
    exists ds,
      Template.digits fuel n acc = (ds ++ acc)%string /\
      all_digits ds = true /\
      (1 <= String.length ds)%nat /\
      (forall a, decimal a ds = a * 10 ^ Z.of_nat (String.length ds) + n) /\
      n < 10 ^ Z.of_nat (String.length ds) /\
      ((1 < String.length ds)%nat ->
       10 ^ (Z.of_nat (String.length ds) - 1) <= n).
Proof.
  induction fuel as [|fuel IH]; intros n acc Hn Hf; [lia|].
  cbn [Template.digits]. cbv zeta.
  pose proof (Z.mod_pos_bound n 10 ltac:(lia)) as Hm.
  pose proof (Z.div_mod n 10 ltac:(lia)) as Hdm.
  destruct (n <? 10) eqn:E.
  - apply Z.ltb_lt in E. exists (String (Template.digit_char (n mod 10)) "").
    rewrite Z.mod_small by lia.
    split; [reflexivity|]. split.
    { cbn [all_digits]. now rewrite is_digit_digit_char by lia. }
    cbn [String.length]. split; [lia|]. split.
    { intros a. cbn [decimal]. rewrite code_digit_char by lia.
      change (10 ^ Z.of_nat 1) with 10. lia. }
    split; [change (10 ^ Z.of_nat 1) with 10; lia | lia].
  - apply Z.ltb_ge in E.
    assert (Hq : 1 <= n / 10) by (apply Z.div_le_lower_bound; lia).
    destruct (IH (n / 10)
                 (String (Template.digit_char (n mod 10)) acc))
      as (ds & Hd & Ha & Hl & Hv & Hu & Hlo); [lia | lia |].
    exists (ds ++ String (Template.digit_char (n mod 10)) "")%string.
    rewrite Hd. split.
    { now rewrite string_app_assoc. }
    split.
    { rewrite all_digits_app, Ha. cbn [all_digits andb].
      now rewrite is_digit_digit_char by lia. }
    rewrite string_length_app. cbn [String.length].
    replace (Z.of_nat (String.length ds + 1))
      with (Z.succ (Z.of_nat (String.length ds))) by lia.
    rewrite Z.pow_succ_r by lia.
    set (p := 10 ^ Z.of_nat (String.length ds)) in *.
    split; [lia|]. split.
    { intros a. rewrite decimal_app, Hv. cbn [decimal].
      rewrite code_digit_char by lia. lia. }
    split; [lia|].
    intros _.
    replace (Z.succ (Z.of_nat (String.length ds)) - 1)
      with (Z.of_nat (String.length ds)) by lia. fold p.
    destruct (Nat.eq_dec (String.length ds) 1) as [L1|L1].
    + unfold p. rewrite L1. change (10 ^ Z.of_nat 1) with 10. lia.
    + specialize (Hlo ltac:(lia)).
      assert (P : p = 10 * 10 ^ (Z.of_nat (String.length ds) - 1)).
      { unfold p. rewrite <- Z.pow_succ_r by lia. f_equal. lia. }
      lia.
Qed.

(** The text of a number that is not negative: its decimal digits, at most
    three of them exactly up to 999. *)
Lemma toString_digits (v : Z) :
  0 <= v ->
  all_digits (Template.toString v) = true /\
  (1 <= String.length (Template.toString v))%nat /\
  decimal 0 (Template.toString v) = v /\
  ((String.length (Template.toString v) <= 3)%nat <-> v <= 999).
Proof.
  intros Hv. unfold Template.toString.
  replace (v <? 0) with false by (symmetry; apply Z.ltb_ge; lia).
  destruct (digits_spec (S (Z.to_nat v)) v "" Hv ltac:(lia))
    as (ds & Hd & Ha & Hl & Hdec & Hu & Hlo).
  rewrite Hd, string_app_nil_r.
  split; [exact Ha|]. split; [exact Hl|]. split.
  { rewrite Hdec. lia. }
  split.
  - intros L.
    assert (P : 10 ^ Z.of_nat (String.length ds) <= 10 ^ 3)
      by (apply Z.pow_le_mono_r; lia).
    change (10 ^ 3) with 1000 in P. lia.
  - intros L. destruct (le_lt_dec (String.length ds) 3) as [|G]; [assumption|].
    specialize (Hlo ltac:(lia)).
    assert (P : 10 ^ 3 <= 10 ^ (Z.of_nat (String.length ds) - 1))
      by (apply Z.pow_le_mono_r; lia).
    change (10 ^ 3) with 1000 in P. lia.
Qed.

Lemma versionStr_token (v : Z) :
  SerieMutationResolver.versionStr v = version_token (Template.toString v).
Proof. reflexivity. Qed.

Lemma digits_before_quote (a b r1 r2 : string) :
  all_digits a = true -> all_digits b = true ->
  (a ++ String dquote r1)%string = (b ++ String dquote r2)%string ->
  a = b.
Proof.
  revert b. induction a as [|c a IH]; intros [|c' b] Ha Hb E.
  - reflexivity.
  - cbn [append] in E. injection E as E _. subst c'.
    cbn [all_digits] in Hb. discriminate Hb.
  - cbn [append] in E. injection E as E _. subst c.
    cbn [all_digits] in Ha. discriminate Ha.
  - cbn [append] in E. injection E as -> E.
    cbn [all_digits] in Ha, Hb.
    apply andb_prop in Ha, Hb. f_equal. apply (IH b); tauto.
Qed.

(** A token of digits between quotes is accepted exactly when it has one to
    three digits. *)
Lemma version_token_test (ds : string) :
  all_digits ds = true ->
  SerieWriteService.VERSION_PATTERN_test (version_token ds) = short_digits ds.
Proof.
  intros Ha. destruct (short_digits ds) eqn:S.
  - now apply version_token_accepted.
  - destruct (SerieWriteService.VERSION_PATTERN_test (version_token ds)) eqn:T;
      [|reflexivity].
    apply VERSION_PATTERN_shape in T. destruct T as (ds' & rest & S' & E).
    pose proof S' as S2. apply short_digits_spec in S2. destruct S2 as [Ha' _].
    unfold version_token in E. cbn [append] in E. injection E as E.
    rewrite string_app_assoc in E. cbn [append] in E.
    apply digits_before_quote in E; try assumption.
    subst ds'. rewrite S in S'. discriminate S'.
Qed.

Lemma toString_not_accepted_negative (v : Z) :
  v < 0 ->
  SerieWriteService.VERSION_PATTERN_test (SerieMutationResolver.versionStr v)
  = false.
Proof.
  intros H. unfold SerieMutationResolver.versionStr, Template.quoted,
    Template.toString.
  replace (v <? 0) with true by (symmetry; apply Z.ltb_lt; lia).
  reflexivity.
Qed.

(** X24.  The token the mutation resolver builds from the version of the
    DTO, the number between double quotes, for a number that JavaScript
    writes without exponent.  [update] accepts it exactly for the versions
    0 to 999, and then reads that same number from it; for a version from
    1000 on, or a negative one, [update] throws VersionInvalidException
    before it reads the store. *)
Theorem version_rendering (v : Z) :
  Z.abs v < 10 ^ 21 ->
  (SerieWriteService.VERSION_PATTERN_test (SerieMutationResolver.versionStr v)
   = true <-> 0 <= v <= 999) /\
  (0 <= v <= 999 ->
   parseInt (slice (SerieMutationResolver.versionStr v) 1 (-1)) (Some 10)
   = Fin (inject_Z v)) /\
  (~ 0 <= v <= 999 ->
   forall i payload w,
     SerieWriteService.update
       (SerieWriteService.mkUpdateParams
          (Some i) payload (SerieMutationResolver.versionStr v)) w
     = (Threw (VersionInvalidException (SerieMutationResolver.versionStr v)),
        w)).
Proof.
  intros _.
  assert (T : SerieWriteService.VERSION_PATTERN_test
                (SerieMutationResolver.versionStr v) = true <->
              0 <= v <= 999).
  { destruct (Z.ltb_spec v 0) as [N|P].
    - rewrite toString_not_accepted_negative by exact N.
      split; [discriminate | lia].
    - destruct (toString_digits v P) as (Ha & Hl & _ & Hs).
      rewrite versionStr_token, (version_token_test _ Ha).
      rewrite short_digits_spec. split.
      + intros [_ [_ L]]. apply Hs in L. lia.
      + intros [_ L]. apply Hs in L. auto. }
  split; [exact T|]. split.
  - intros R. destruct (toString_digits v (proj1 R)) as (Ha & Hl & Hd & Hs).
    rewrite versionStr_token.
    pose proof (supplied_version (Template.toString v) "") as E.
    rewrite string_app_nil_r, Hd in E. apply E.
    apply short_digits_spec. split; [exact Ha|]. split; [exact Hl|].
    apply Hs. lia.
  - intros N i payload w.
    unfold SerieWriteService.update, SerieWriteService.validateUpdate.
    cbn [SerieWriteService.id SerieWriteService.serie
         SerieWriteService.version].
    destruct (Bool.bool_dec
                (SerieWriteService.VERSION_PATTERN_test
                   (SerieMutationResolver.versionStr v)) true) as [E|E];
      [now apply T in E|].
    apply not_true_is_false in E. now rewrite E.
Qed.

Lemma version_rendering_witness :
  SerieWriteService.VERSION_PATTERN_test
    (SerieMutationResolver.versionStr 999) = true /\
  fst (SerieWriteService.update
         (SerieWriteService.mkUpdateParams
            (Some 1) Corpus.geaendert (SerieMutationResolver.versionStr 1000))
         Corpus.world)
  = Threw (VersionInvalidException (SerieMutationResolver.versionStr 1000)).
Proof.
  split.
  - apply (proj1 (version_rendering 999 eq_refl)). lia.
  - rewrite (proj2 (proj2 (version_rendering 1000 eq_refl))); [reflexivity|].
    lia.
Defined.



(** [getById] for a request that accepts json or html. *)
Lemma getById_run (i : Z) (version : option string) (w : World) :
  SerieGetController.getById i true version w =
    (match head (with_id i (joined (serie_table (db w)) (titel_table (db w))))
     with
     | Some st =>
         Returned
           (if match version with
               | Some v =>
                   String.eqb v (Template.quoted (Some (r_version (fst st))))
               | None => false
               end
            then SerieGetController.SendStatus 304
            else SerieGetController.Json
                   (Template.quoted (Some (r_version (fst st))))
                   (SerieReadService.null_to_empty
                      (serie_of_row (db w)
                         (by_id (SerieReadService.mkFindByIdParams i []))
                         st)))
     | None => Threw (NotFoundException (KeineSerieMitId (Some i)))
     end,
     sent (Select (by_id (SerieReadService.mkFindByIdParams i []))) w).
Proof.
  unfold SerieGetController.getById, bind. cbn [negb].
  rewrite findById_run. cbn [SerieReadService.id].
  destruct (head _) as [st|]; [|reflexivity].
  rewrite null_to_empty_version. cbn [serie_of_row Serie.version].
  destruct (match version with Some _ => _ | None => _ end); reflexivity.
Qed.

(** X25.  The conditional GET of the controller.  A request that accepts
    neither json nor html is answered with 406 and the store is not read.
    The ETag of a response with the series, sent back as If-None-Match,
    is answered with 304; any other value of the header is answered with
    the same series and ETag.  For an id that the column can hold (an
    integer of 32 bits) and that has no series (or no title) the
    NotFoundException of [findById] is thrown. *)
Theorem getById_conditional :
  (forall i version w,
      SerieGetController.getById i false version w
      = (Returned (SerieGetController.SendStatus 406), w)) /\
  (forall i w etag body w1,
      SerieGetController.getById i true None w
      = (Returned (SerieGetController.Json etag body), w1) ->
      fst (SerieGetController.getById i true (Some etag) w1)
      = Returned (SerieGetController.SendStatus 304) /\
      forall other,
        other <> etag ->
        fst (SerieGetController.getById i true (Some other) w1)
        = Returned (SerieGetController.Json etag body)) /\
  (forall i version w,
      int4 i ->
      ~ titled (db w) i ->
      fst (SerieGetController.getById i true version w)
      = Threw (NotFoundException (KeineSerieMitId (Some i)))).
Proof.
  split; [reflexivity|]. split.
  - intros i w etag body w1 H. rewrite getById_run in H.
    destruct (head _) as [st|] eqn:E; [|discriminate H].
    injection H as <- <- <-. split.
    + rewrite getById_run. cbn [db sent]. rewrite E. cbn [fst].
      now rewrite String.eqb_refl.
    + intros other N. apply String.eqb_neq in N.
      rewrite getById_run. cbn [db sent]. rewrite E. cbn [fst].
      now rewrite N.
  - intros i version w _ N. rewrite getById_run. cbn [fst].
    destruct (head _) as [st|] eqn:E; [|reflexivity].
    destruct N. apply head_with_id_titled. now exists st.
Qed.

Lemma getById_conditional_witness :
  fst (SerieGetController.getById 1 true (Some (Template.quoted (Some 2)))
         (snd (SerieGetController.getById 1 true None Corpus.world)))
  = Returned (SerieGetController.SendStatus 304).
Proof.
  apply (proj1 (proj2 getById_conditional) 1 Corpus.world
               (Template.quoted (Some 2))
               (SerieReadService.null_to_empty
                  (serie_of_row Corpus.store
                     (by_id (SerieReadService.mkFindByIdParams 1 []))
                     (Corpus.alpha, Corpus.alpha_titel)))
               (snd (SerieGetController.getById 1 true None Corpus.world))
               eq_refl).
Defined.




Lemma criteria_In (query : Suchkriterien) (kv : string * JsValue) :
  In kv (SerieGetController.criteria query) <->
  In kv query /\ fst kv <> "page"%string /\ fst kv <> "size"%string /\
  snd kv <> JsUndefined.
Proof.
  unfold SerieGetController.criteria.
  rewrite !filter_In, andb_true_iff, !negb_true_iff, !String.eqb_neq.
  assert (D : is_defined (snd kv) = true <-> snd kv <> JsUndefined).
  { destruct (snd kv); simpl; split; try discriminate; auto. }
  rewrite D. tauto.
Qed.

Lemma find_refuses cfg (c : Suchkriterien) pageable (w : World) :
  invalid_criteria c ->
  SerieReadService.find cfg (Some c) pageable w =
    (Threw (NotFoundException UngueltigeSuchkriterien), w).
Proof.
  intros Hinv. rewrite find_run. cbn [effective].
  pose proof (invalid_criteria_not_empty c Hinv) as Hne.
  apply checks_fail_iff in Hinv.
  destruct c as [|kv c]; [now destruct Hne|]. cbv zeta. now rewrite Hinv.
Qed.

(** X27.  The filter object the controller hands to [find].  A request
    that accepts neither json nor html is answered without reading the
    store.  Otherwise the filter object holds the entries of the query
    except page, size and those whose value is undefined; so page and size
    are never taken for unknown criteria, and the request fails with the
    exception for invalid criteria exactly when what is left has a key that
    is not recognized or an art that is none of STREAM, TV and DVD. *)
Theorem get_criteria
        (Page : Type) (createPageable : JsValue -> JsValue -> Pageable)
        (createPage : SerieReadService.Slice -> Pageable -> Page)
        (cfg : Config) (query : Suchkriterien) (w : World) :
  SerieGetController.get Page createPageable createPage cfg query false w
  = (Returned (SerieGetController.NotAcceptable Page), w) /\
  (forall kv,
      In kv (SerieGetController.criteria query) <->
      In kv query /\ fst kv <> "page"%string /\ fst kv <> "size"%string /\
      snd kv <> JsUndefined) /\
  (fst (SerieGetController.get Page createPageable createPage cfg query
                               true w)
   = Threw (NotFoundException UngueltigeSuchkriterien) <->
   invalid_criteria (SerieGetController.criteria query)).
Proof.
  split; [reflexivity|]. split; [apply criteria_In|].
  unfold SerieGetController.get, bind. cbn [negb].
  set (pg := createPageable (prop query "page") (prop query "size")).
  split.
  - destruct (find_cases cfg (Some (SerieGetController.criteria query)) pg w)
      as [(c & Ec & Hinv & _)|(e & Hne & E)].
    + intros _. injection Ec as ->. exact Hinv.
    + rewrite E, search_run.
      destruct (selected (db w) _) as [rows|]; [|discriminate].
      destruct (paging_ok _); [|discriminate].
      destruct (paged _ rows); cbn [fst]; [|discriminate].
      intros [= H]. now destruct Hne.
  - intros Hinv. now rewrite (find_refuses cfg _ pg w Hinv).
Qed.

End Responses.

(* ================================================================== *)
(** * QueryBuilder.build: the filters on numbers and the equalities *)
(* ================================================================== *)

Section OtherFilters.

Import QueryBuilder.

Lemma null_to_empty_columns (x : Serie.t) :
  Serie.seriennummer (SerieReadService.null_to_empty x) = Serie.seriennummer x /\
  Serie.rating (SerieReadService.null_to_empty x) = Serie.rating x /\
  Serie.art (SerieReadService.null_to_empty x) = Serie.art x /\
  Serie.preis (SerieReadService.null_to_empty x) = Serie.preis x.
Proof.
  unfold SerieReadService.null_to_empty.
  destruct (Serie.schlagwoerter x); repeat split.
Qed.

Lemma eval_preis_clause (q : Q) (s : SerieRow) (t : TitelRow) :
  eval_clause s t (preis_clause (Fin q)) = Qle_bool (r_preis s # 100) q.
Proof. reflexivity. Qed.

Lemma eval_rating_clause (q : Q) (s : SerieRow) (t : TitelRow) :
  eval_clause s t (rating_clause (JsNum (Fin q)))
  = Qle_bool q (inject_Z (r_rating s)).
Proof. reflexivity. Qed.

Lemma leading_rating cfg o (q : Q) :
  (prop o "rating" = JsNum (Fin q) \/
   exists r, prop o "rating" = JsStr r /\ parseInt r None = Fin q) ->
  is_string (prop o "preis") = false ->
  wheres (fst (leading cfg o)) = [rating_clause (JsNum (Fin q))].
Proof.
  intros H Hp. unfold leading, filter_rating.
  destruct H as [->|(r & -> & Hq)]; cbn [is_defined]; try rewrite Hq;
    cbn [isNaN ToNumber negb];
    destruct (prop o "preis"); try discriminate Hp; reflexivity.
Qed.

(** X28.  The filters on numbers, when they stay in the query.  For a
    preis given as the text of a whole number that a 64-bit float holds
    exactly (at most 2^53 in absolute value), every series [find] returns
    has a price that is at most that number.  For a rating given as a
    number, or as a text that parseInt reads, and a preis that is no string,
    every series returned has at least that rating. *)
Theorem number_filters_bound
        (cfg : Config) (o : Suchkriterien) (pageable : Pageable) (w : World)
        (sl : SerieReadService.Slice) (w' : World) (serie : Serie.t) :
  SerieReadService.find cfg (Some o) pageable w = (Returned sl, w') ->
  In serie (SerieReadService.content sl) ->
  (forall p q n,
      prop o "preis" = JsStr p -> Number p = Fin q -> whole q n ->
      exists x, Serie.preis serie = Some x /\ x <= 100 * n) /\
  (forall q,
      (prop o "rating" = JsNum (Fin q) \/
       exists r, prop o "rating" = JsStr r /\ parseInt r None = Fin q) ->
      is_string (prop o "preis") = false ->
      exists x, Serie.rating serie = Some x /\ (q <= inject_Z x)%Q).
Proof.
  intros H Hin.
  destruct (find_returned_rows _ _ _ _ _ _ _ H Hin)
    as (s & t & _ & -> & Hall).
  cbn [effective] in Hall.
  destruct (null_to_empty_columns
              (serie_of_row (db w) (build cfg o pageable) (s, t)))
    as (_ & Er & _ & Ep).
  cbn [effective]. rewrite Er, Ep. split.
  - intros p q n Hp Hq [Hn _]. exists (r_preis s). split; [reflexivity|].
    assert (L : (r_preis s # 100 <= q)%Q).
    { apply Qle_bool_iff. rewrite <- (eval_preis_clause q s t).
      apply Hall. rewrite wheres_build, wheres_filters.
      apply in_or_app. left.
      rewrite (leading_preis cfg o p Hp), Hq. now left. }
    rewrite Hn in L. unfold Qle in L. cbn in L. lia.
  - intros q Hr Hp. exists (r_rating s). split; [reflexivity|].
    apply Qle_bool_iff. rewrite <- (eval_rating_clause q s t).
    apply Hall. rewrite wheres_build, wheres_filters.
    apply in_or_app. left. rewrite (leading_rating cfg o q Hr Hp). now left.
Qed.

Lemma number_filters_bound_witness :
  exists x,
    Serie.preis
      (SerieReadService.null_to_empty
         (serie_of_row Corpus.store
            (build Corpus.config [("preis", JsStr "15")] Corpus.unpaged)
            (Corpus.alpha, Corpus.alpha_titel)))
    = Some x /\ x <= 100 * 15.
Proof.
  apply (proj1 (number_filters_bound Corpus.config [("preis", JsStr "15")]
                  Corpus.unpaged Corpus.world
                  (SerieReadService.mkSlice
                     (presented_rows Corpus.store
                        (build Corpus.config [("preis", JsStr "15")]
                               Corpus.unpaged)
                        [(Corpus.alpha, Corpus.alpha_titel)])
                     1)
                  (snd (SerieReadService.find Corpus.config
                          (Some [("preis", JsStr "15")])
                          Corpus.unpaged Corpus.world))
                  _ eq_refl (or_introl eq_refl))
               "15" _ 15 eq_refl eq_refl).
  split; [reflexivity | vm_compute; discriminate].
Defined.

Lemma rest_clause_in_build cfg o pageable (kv : string * JsValue) :
  In kv o ->
  ~ In (fst kv) named ->
  In (equal_clause (fst kv) (snd kv)) (wheres (build cfg o pageable)).
Proof.
  intros Hin Hn. rewrite wheres_build, wheres_filters.
  apply in_or_app. right. apply in_or_app. right.
  unfold rest_clauses. apply in_map_iff. exists kv. split; [reflexivity|].
  unfold restProps. apply filter_In. split; [exact Hin|].
  apply negb_true_iff. destruct (existsb _ named) eqn:E; [|reflexivity].
  apply existsb_exists in E. destruct E as (x & Hx & Ex).
  apply String.eqb_eq in Ex. rewrite Ex in Hn. now destruct Hn.
Qed.

(** X29.  Every other property of the filter object is an equality on the
    column of that name, and these conditions are always added to the ones
    before: every series [find] returns has the art and the serial number
    the filter object names, and, for any entry whose key is a column of
    serie and none of the keys [build] takes out by name, a value in that
    column that the store finds equal to the value of the entry. *)
Theorem equality_filters
        (cfg : Config) (o : Suchkriterien) (pageable : Pageable) (w : World)
        (sl : SerieReadService.Slice) (w' : World) (serie : Serie.t) :
  SerieReadService.find cfg (Some o) pageable w = (Returned sl, w') ->
  In serie (SerieReadService.content sl) ->
  (forall a, In ("art"%string, JsStr a) o -> Serie.art serie = Some a) /\
  (forall x, In ("seriennummer"%string, JsStr x) o ->
             Serie.seriennummer serie = Some x) /\
  (forall key value column,
      In (key, value) o ->
      ~ In key named ->
      assoc key serie_columns = Some column ->
      exists s,
        In s (serie_table (db w)) /\ Serie.id serie = Some (r_id s) /\
        sql_compare Equal (column s) (param_value value) = true).
Proof.
  intros H Hin.
  destruct (find_returned_rows _ _ _ _ _ _ _ H Hin)
    as (s & t & Hj & -> & Hall).
  cbn [effective] in Hall.
  destruct (null_to_empty_columns
              (serie_of_row (db w) (build cfg o pageable) (s, t)))
    as (Es & _ & Ea & _).
  cbn [effective]. rewrite Es, Ea, null_to_empty_id.
  assert (R : forall key value,
             In (key, value) o -> ~ In key named ->
             eval_clause s t (equal_clause key value) = true).
  { intros key value Hkv Hn. apply Hall.
    now apply (rest_clause_in_build cfg o pageable (key, value)). }
  split; [|split].
  - intros a Ha. specialize (R _ _ Ha).
    assert (E : eval_clause s t (equal_clause "art" (JsStr a)) = true).
    { apply R. intros N. simpl in N. intuition discriminate. }
    unfold serie_of_row. cbn [Serie.art fst].
    change (eval_clause s t (equal_clause "art" (JsStr a)))
      with (sql_compare Equal (text_or_null (r_art s)) (VText a)) in E.
    destruct (r_art s) as [x|]; [|discriminate E].
    cbn in E. apply String.eqb_eq in E. now subst x.
  - intros x Hx. specialize (R _ _ Hx).
    assert (E : eval_clause s t (equal_clause "seriennummer" (JsStr x))
                = true).
    { apply R. intros N. simpl in N. intuition discriminate. }
    unfold serie_of_row. cbn [Serie.seriennummer fst].
    change (eval_clause s t (equal_clause "seriennummer" (JsStr x)))
      with (String.eqb (r_seriennummer s) x) in E.
    apply String.eqb_eq in E. now subst x.
  - intros key value column Hkv Hn Hc. specialize (R _ _ Hkv Hn).
    apply joined_In in Hj. destruct Hj as [Hs _].
    exists s. split; [exact Hs|]. split; [reflexivity|].
    unfold eval_clause, equal_clause in R.
    cbn [operand_value eval_expr serieAlias] in R.
    change (String.eqb "serie" "serie") with true in R. cbv iota in R.
    now rewrite Hc in R.
Qed.

Lemma equality_filters_witness :
  Serie.art
    (SerieReadService.null_to_empty
       (serie_of_row Corpus.store
          (build Corpus.config [("art", JsStr "TV")] Corpus.unpaged)
          (Corpus.zeta, Corpus.zeta_titel)))
  = Some "TV"%string.
Proof.
  apply (proj1 (equality_filters Corpus.config [("art", JsStr "TV")]
                  Corpus.unpaged Corpus.world
                  (SerieReadService.mkSlice
                     (presented_rows Corpus.store
                        (build Corpus.config [("art", JsStr "TV")]
                               Corpus.unpaged)
                        [(Corpus.zeta, Corpus.zeta_titel)])
                     1)
                  (snd (SerieReadService.find Corpus.config
                          (Some [("art", JsStr "TV")])
                          Corpus.unpaged Corpus.world))
                  _ eq_refl (or_introl eq_refl))
               "TV"%string).
  now left.
Defined.

End OtherFilters.
